(** * kafstore: PEM chain parsing, store assembly and connection probe

    A shallow embedding of [src/app.py] (the Flask application) and
    [src/frontend/backend/main.py] (the FastAPI backend), with the
    properties of the chain parser, the certificate metadata extractor,
    the store assembly pipeline and the connection probe.

    Conventions.  A Python [str] is a Rocq [string], one [ascii] per
    character; [bytes] read from or written to files are strings too.
    The operating system (file system, sub-processes, executable lookup)
    is a record of operations over an abstract world; every call a
    function makes is recorded, with its outcome, in a trace. *)

From Stdlib Require Import String Ascii List ZArith Lia Bool.
From stdpp Require Import base option list strings gmap pretty.
From Stdlib Require Import Sorted.

(** ** Python built-ins on strings *)

Module Py.

(** [needle in hay] *)
Fixpoint contains (needle hay : string) : bool :=
  match hay with
  | EmptyString => String.prefix needle EmptyString
  | String _ rest => String.prefix needle hay || contains needle rest
  end.

(** [s.split(sep)] for a separator of one character: both separators the
    sources use, ['\n'] and [':'], are single characters. *)
Fixpoint split (sep : ascii) (s : string) : list string :=
  match s with
  | EmptyString => [EmptyString]
  | String c rest =>
      if Ascii.eqb c sep then EmptyString :: split sep rest
      else match split sep rest with
           | [] => [String c EmptyString]
           | w :: ws => String c w :: ws
           end
  end.

(** [sep.join(parts)] *)
Definition join (sep : string) (parts : list string) : string :=
  String.concat sep parts.

(** [s[:n]] *)
Fixpoint slice_to (n : nat) (s : string) : string :=
  match n, s with
  | S m, String c rest => String c (slice_to m rest)
  | _, _ => EmptyString
  end.

(** [str(i)] for a non-negative integer, as f-strings render it. *)
Definition str_nat (i : nat) : string := pretty i.

(** [a or b] on strings: the empty string is falsy. *)
Definition str_or (a b : string) : string :=
  match a with EmptyString => b | _ => a end.

(** [bool(s)] *)
Definition truthy (s : string) : bool :=
  match s with EmptyString => false | _ => true end.

(** [c.isspace()] for the characters below 256: TAB to CR, the four
    separators FS to US, the space, NEL and the no-break space. *)
Definition isspace (c : ascii) : bool :=
  let n := Ascii.nat_of_ascii c in
  (Nat.leb 9 n && Nat.leb n 13) || (Nat.leb 28 n && Nat.leb n 32)
  || Nat.eqb n 133 || Nat.eqb n 160.

Fixpoint lstrip (s : string) : string :=
  match s with
  | EmptyString => EmptyString
  | String c rest => if isspace c then lstrip rest else s
  end.

Fixpoint rstrip (s : string) : string :=
  match s with
  | EmptyString => EmptyString
  | String c rest =>
      match rstrip rest with
      | EmptyString => if isspace c then EmptyString else String c EmptyString
      | kept => String c kept
      end
  end.

(** [s.strip()] *)
Definition strip (s : string) : string := rstrip (lstrip s).

(** [os.path.join(d, name)] for a relative [name]. *)
Fixpoint ends_with_slash (d : string) : bool :=
  match d with
  | EmptyString => true
  | String c EmptyString => Ascii.eqb c "/"%char
  | String _ rest => ends_with_slash rest
  end.

Definition path_join (d name : string) : string :=
  if ends_with_slash d then d +:+ name else d +:+ "/" +:+ name.

(** The double quote, for the texts that contain one. *)
Definition dq : string := String (Ascii.ascii_of_nat 34) EmptyString.

Definition LF : ascii := Ascii.ascii_of_nat 10.
Definition COLON : ascii := ":"%char.
Definition nl : string := String LF EmptyString.

End Py.

(** ** The chain parser *)

Definition BEGIN_CERTIFICATE : string := "-----BEGIN CERTIFICATE-----".
Definition END_CERTIFICATE : string := "-----END CERTIFICATE-----".

(** The three locals of the scanning loop. *)
Record scan := Scan {
  certs : list string;
  current_cert : list string;
  in_cert : bool
}.

Definition scan_init : scan := Scan [] [] false.

(** One iteration of the loop; [reset] tells whether the END branch also
    executes [current_cert = []].  [extract_root_cert] (both files) and
    the loop inside [generate_stores] of app.py do; [parse_cert_chain] of
    main.py and the loop inside [analyze_cert] of app.py do not. *)
Definition scan_line (reset : bool) (st : scan) (line : string) : scan :=
  if Py.contains BEGIN_CERTIFICATE line then
    Scan (certs st) [line] true
  else if Py.contains END_CERTIFICATE line then
    let cur := current_cert st ++ [line] in
    Scan (certs st ++ [Py.join Py.nl cur]) (if reset then [] else cur) false
  else if in_cert st then
    Scan (certs st) (current_cert st ++ [line]) (in_cert st)
  else st.

Definition scan_lines (reset : bool) (lines : list string) : scan :=
  fold_left (scan_line reset) lines scan_init.

(** main.py, [parse_cert_chain] (lines 91-108). *)
Definition parse_cert_chain (content : string) : list string :=
  certs (scan_lines false (Py.split Py.LF content)).

(** The loop of app.py [generate_stores] (lines 84-98), which is also the
    loop of [extract_root_cert]. *)
Definition extract_certs (content : string) : list string :=
  certs (scan_lines true (Py.split Py.LF content)).

(** [extract_root_cert]: [certs[0] if certs else None]. *)
Definition extract_root_cert (ca_chain_content : string) : option string :=
  head (extract_certs ca_chain_content).

(** ** Exceptions, processes and the host *)

Inductive exn_class :=
  OSError | TimeoutExpired | ValueError | UnicodeDecodeError | KeyError
| AttributeError | RuntimeError | HTTPException (status_code : nat).

(** An exception object: its class and [str(e)]. *)
Record exn := Exn { exn_kind : exn_class; exn_text : string }.

Definition is_timeout (e : exn) : bool :=
  match exn_kind e with TimeoutExpired => true | _ => false end.

Inductive result (A : Type) :=
| Ok (a : A)
| Err (e : exn).
Arguments Ok {A} a.
Arguments Err {A} e.

(** What [subprocess.run(..., capture_output=True, text=True)] returns. *)
Record CompletedProcess := {
  returncode : Z;
  stdout : string;
  stderr : string
}.

(** The keyword arguments of [subprocess.run] that vary between calls. *)
Record run_kwargs := {
  cwd : option string;
  timeout : option nat;
  input : option string
}.

Definition plain : run_kwargs := {| cwd := None; timeout := None; input := None |}.

(** The host the program runs on.  [os_write p c] is
    [with open(p, 'w' or 'wb') as f: f.write(c)], [os_read p] is
    [with open(p, 'rb') as f: f.read()], [os_run] is [subprocess.run],
    [os_which] is [shutil.which], [os_rmtree d] is
    [shutil.rmtree(d, ignore_errors=True)], [os_mkdtemp] is
    [tempfile.mkdtemp()].

    Scope.  [tempfile.mkdtemp()] is the first statement of the four
    functions that use it and stands before their [try]: when it raises,
    the exception leaves the function and nothing else is done.  A
    [Host] answers the call with a directory, so the runs described
    here are the runs in which the work directory was created;
    everything after that call may fail. *)
Record Host := {
  World : Type;
  os_mkdtemp : World -> string * World;
  os_write : string -> string -> World -> result unit * World;
  os_read : string -> World -> result string * World;
  os_run : list string -> run_kwargs -> World -> result CompletedProcess * World;
  os_which : string -> World -> option string * World;
  os_rmtree : string -> World -> World
}.

(** One call to the host, with what it answered. *)
Inductive event :=
| EMkdtemp (path : string)
| EWrite (path content : string) (r : result unit)
| ERead (path : string) (r : result string)
| ERun (argv : list string) (kw : run_kwargs) (r : result CompletedProcess)
| EWhich (name : string) (r : option string)
| ERmtree (path : string).

(** The world together with the calls made so far, newest first. *)
Record Sys (h : Host) := MkSys { world : World h; trace : list event }.
Arguments MkSys {h} world trace.
Arguments world {h} s.
Arguments trace {h} s.

Definition boot {h : Host} (w : World h) : Sys h := MkSys w [].

(** The calls in the order they were made. *)
Definition history {h : Host} (s : Sys h) : list event := rev (trace s).

(** The sub-processes of a history, and its reads. *)
Definition runs (evs : list event) : list (list string * result CompletedProcess) :=
  omap (fun e => match e with ERun argv _ r => Some (argv, r) | _ => None end) evs.

Definition reads (evs : list event) : list (string * result string) :=
  omap (fun e => match e with ERead p r => Some (p, r) | _ => None end) evs.

(** Files written without error. *)
Definition written (l : list (string * string)) : list event :=
  map (fun pc => EWrite (fst pc) (snd pc) (Ok tt)) l.

Definition exit_zero (r : result CompletedProcess) : Prop :=
  match r with Ok p => returncode p = 0%Z | Err _ => False end.

(** ** Control flow: a state monad with [return] and [raise] *)

(** How a block of statements ends: it falls through with a value, it
    executes [return r], or it raises. *)
Inductive ctl (R A : Type) :=
| Val (a : A)
| Return (r : R)
| Raise (e : exn).
Arguments Val {R A} a.
Arguments Return {R A} r.
Arguments Raise {R A} e.

(** A block over the host [h] with local variables [L], inside a function
    returning [R]. *)
Definition M (h : Host) (L R A : Type) : Type :=
  Sys h * L -> ctl R A * (Sys h * L).

Section Monad.
Context {h : Host} {L R : Type}.

Definition ret {A} (a : A) : M h L R A := fun st => (Val a, st).

Definition bind {A B} (m : M h L R A) (k : A -> M h L R B) : M h L R B :=
  fun st =>
    match m st with
    | (Val a, st') => k a st'
    | (Return r, st') => (Return r, st')
    | (Raise e, st') => (Raise e, st')
    end.

Definition return_ {A} (r : R) : M h L R A := fun st => (Return r, st).
Definition raise {A} (e : exn) : M h L R A := fun st => (Raise e, st).

(** Assignment to the locals. *)
Definition modify (f : L -> L) : M h L R unit :=
  fun st => (Val tt, (fst st, f (snd st))).

Definition locals : M h L R L := fun st => (Val (snd st), st).

(** A pure computation that may raise. *)
Definition lift_result {A} (r : result A) : M h L R A :=
  match r with Ok a => ret a | Err e => raise e end.

(** [if c: block] *)
Definition when (c : bool) (block : M h L R unit) : M h L R unit :=
  if c then block else ret tt.

(** [try: body / except Exception as e: handler e] *)
Definition try_except {A} (body : M h L R A) (handler : exn -> M h L R A)
  : M h L R A :=
  fun st =>
    match body st with
    | (Raise e, st') => handler e st'
    | other => other
    end.

(** [try: body / finally: cleanup], for a cleanup that cannot raise. *)
Definition try_finally {A} (body : M h L R A) (cleanup : Sys h -> Sys h)
  : M h L R A :=
  fun st =>
    let '(c, (s, l)) := body st in (c, (cleanup s, l)).

(** The calls to the host. *)
Definition log (e : event) (w : World h) (s : Sys h) : Sys h :=
  MkSys w (e :: trace s).

Definition sys_write (path content : string) : M h L R unit :=
  fun '(s, l) =>
    let '(r, w) := os_write h path content (world s) in
    (match r with Ok _ => Val tt | Err e => Raise e end,
     (log (EWrite path content r) w s, l)).

Definition sys_read (path : string) : M h L R string :=
  fun '(s, l) =>
    let '(r, w) := os_read h path (world s) in
    (match r with Ok b => Val b | Err e => Raise e end,
     (log (ERead path r) w s, l)).

Definition sys_run (argv : list string) (kw : run_kwargs)
  : M h L R CompletedProcess :=
  fun '(s, l) =>
    let '(r, w) := os_run h argv kw (world s) in
    (match r with Ok p => Val p | Err e => Raise e end,
     (log (ERun argv kw r) w s, l)).

Definition sys_which (name : string) : M h L R (option string) :=
  fun '(s, l) =>
    let '(r, w) := os_which h name (world s) in
    (Val r, (log (EWhich name r) w s, l)).

End Monad.

Definition sys_mkdtemp {h : Host} (s : Sys h) : string * Sys h :=
  let '(d, w) := os_mkdtemp h (world s) in (d, log (EMkdtemp d) w s).

Definition sys_rmtree {h : Host} (d : string) (s : Sys h) : Sys h :=
  log (ERmtree d) (os_rmtree h d (world s)) s.

(** What a function returns when its body, which never falls through, ends
    with [c]: the value of the [return], or the exception that escapes. *)
Definition returned {R} (c : ctl R Empty_set) : result R :=
  match c with
  | Val v => match v with end
  | Return r => Ok r
  | Raise e => Err e
  end.

Declare Scope py_scope.
Delimit Scope py_scope with py.
Notation "x <- m ;; k" := (bind m (fun x => k))
  (at level 100, m at next level, right associativity) : py_scope.
Notation "m ;; k" := (bind m (fun _ => k))
  (at level 100, right associativity) : py_scope.

Definition call {h : Host} {L R A} (f : Sys h -> A * Sys h) : M h L R A :=
  fun '(s, l) => let '(a, s') := f s in (Val a, (s', l)).

(** ** Libraries: the codec and the certificate decoder *)

(** [utf8_decode] is [bytes.decode('utf-8')]; the rest is the part of
    [cryptography.x509] the sources use: [load_pem_x509_certificate],
    [cert.subject.rfc4514_string()], [cert.issuer.rfc4514_string()], the
    pair [not_valid_before_utc.isoformat()], [not_valid_after_utc.isoformat()]
    (an [AttributeError] where the installed version lacks them) and the
    older pair without [_utc]. *)
Record Lib := {
  utf8_decode : string -> result string;
  Certificate : Type;
  load_pem_x509_certificate : string -> result Certificate;
  subject_rfc4514 : Certificate -> string;
  issuer_rfc4514 : Certificate -> string;
  validity_utc : Certificate -> result (string * string);
  validity_naive : Certificate -> result (string * string)
}.

(** ** The endpoint split shared by both probes

    [host, port = bootstrap.split(':') if ':' in bootstrap else (bootstrap, '443')] *)

Definition unpack2 (parts : list string) : result (string * string) :=
  match parts with
  | [a; b] => Ok (a, b)
  | _ :: _ :: _ :: _ =>
      Err (Exn ValueError "too many values to unpack (expected 2)")
  | _ =>
      Err (Exn ValueError
             ("not enough values to unpack (expected 2, got "
              +:+ Py.str_nat (length parts) +:+ ")"))
  end.

Definition bootstrap_host_port (bootstrap : string) : result (string * string) :=
  if Py.contains ":" bootstrap then unpack2 (Py.split Py.COLON bootstrap)
  else Ok (bootstrap, "443").

(** [shutil.which(a) or shutil.which(b)] and the test [if kafka_bin:]. *)
Definition opt_truthy (o : option string) : bool :=
  match o with Some s => Py.truthy s | None => false end.

Definition find_kafka_bin {h : Host} {L R} : M h L R (option string) :=
  (a <- sys_which "kafka-topics.sh" ;;
   if opt_truthy a then ret a else sys_which "kafka-topics")%py.

(** [[t.strip() for t in out.strip().split('\n') if t.strip()]] *)
Definition parse_topics (out : string) : list string :=
  map Py.strip
      (List.filter (fun t => Py.truthy (Py.strip t))
                   (Py.split Py.LF (Py.strip out))).

(** ** src/frontend/backend/main.py *)

Module Main.

Record CertificateInfo := {
  index : nat;
  subject : string;
  issuer : string;
  not_before : string;
  not_after : string;
  is_root : bool
}.

Record AnalyzeResponse := {
  success : bool;
  certificates : list CertificateInfo;
  error : option string
}.

Record TestResult := {
  t_success : bool;
  message : string;
  details : option string;
  topics : option (list string)
}.

Section WithLib.
Context (x : Lib).

(** [get_cert_info] (lines 75-88). *)
Definition get_cert_info (cert_pem : string) (index : nat)
  : result CertificateInfo :=
  match load_pem_x509_certificate x cert_pem with
  | Err e => Err e
  | Ok cert =>
      let subject := subject_rfc4514 x cert in
      let issuer := issuer_rfc4514 x cert in
      match validity_utc x cert with
      | Err e => Err e
      | Ok (nb, na) =>
          Ok {| index := index; subject := subject; issuer := issuer;
                not_before := nb; not_after := na;
                is_root := String.eqb subject issuer |}
      end
  end.

(** The loop of [analyze_certificate] (lines 124-130): a certificate that
    fails to decode is skipped. *)
Fixpoint collect_infos (i : nat) (certs : list string)
  (certificates : list CertificateInfo) : list CertificateInfo :=
  match certs with
  | [] => certificates
  | cert_pem :: rest =>
      match get_cert_info cert_pem i with
      | Ok info => collect_infos (S i) rest (certificates ++ [info])
      | Err _ => collect_infos (S i) rest certificates
      end
  end.

(** [analyze_certificate] (lines 117-134); [cert] is the uploaded bytes. *)
Definition analyze_certificate (cert : string) : AnalyzeResponse :=
  match utf8_decode x cert with
  | Err e => {| success := false; certificates := []; error := Some (exn_text e) |}
  | Ok content =>
      let certs := parse_cert_chain content in
      {| success := true; certificates := collect_infos 0 certs [];
         error := None |}
  end.

End WithLib.

Section WithHost.
Context {h : Host} (x : Lib).
Local Open Scope py_scope.

Definition properties_content (password bootstrap : string) : string :=
  Py.join Py.nl
    [ "# Kafka SSL Configuration";
      "# Generated by mTLS Configurator";
      EmptyString;
      "security.protocol=SSL";
      EmptyString;
      "ssl.truststore.location=/path/to/truststore.jks";
      "ssl.truststore.password=" +:+ password;
      EmptyString;
      "ssl.keystore.location=/path/to/keystore.p12";
      "ssl.keystore.password=" +:+ password;
      "ssl.keystore.type=PKCS12";
      "ssl.key.password=" +:+ password;
      EmptyString;
      "ssl.endpoint.identification.algorithm=";
      EmptyString;
      "bootstrap.servers=" +:+ bootstrap;
      EmptyString ].

Definition cmd_truststore (ca_root_path alias truststore_path password : string)
  : list string :=
  [ "keytool"; "-import"; "-file"; ca_root_path;
    "-alias"; alias +:+ "-ca";
    "-keystore"; truststore_path;
    "-storepass"; password;
    "-noprompt" ].

Definition cmd_p12 (cert_path key_path bundle_path alias keystore_p12_path password : string)
  : list string :=
  [ "openssl"; "pkcs12"; "-export";
    "-in"; cert_path;
    "-inkey"; key_path;
    "-certfile"; bundle_path;
    "-name"; alias;
    "-out"; keystore_p12_path;
    "-passout"; "pass:" +:+ password ].

(** The [try] block of [generate_stores] (lines 150-238); the value
    returned stands for the ZIP archive: its entries in order. *)
Definition generate_stores_body
  (ca_chain cert key bundle alias password bootstrap work_dir : string)
  : M h unit (list (string * string)) Empty_set :=
  ca_chain_content <- lift_result (utf8_decode x ca_chain) ;;
  cert_content <- lift_result (utf8_decode x cert) ;;
  key_content <- lift_result (utf8_decode x key) ;;
  bundle_content <- lift_result (utf8_decode x bundle) ;;
  match extract_root_cert ca_chain_content with
  | None =>
      raise (Exn (HTTPException 400)
                 "Could not extract root certificate from CA chain")
  | Some root_cert =>
      if negb (Py.truthy root_cert) then
        raise (Exn (HTTPException 400)
                   "Could not extract root certificate from CA chain")
      else
        let ca_root_path := Py.path_join work_dir "CA_root.pem" in
        let cert_path := Py.path_join work_dir "cert.pem" in
        let key_path := Py.path_join work_dir "key.pem" in
        let bundle_path := Py.path_join work_dir "bundle.pem" in
        let truststore_path := Py.path_join work_dir "truststore.jks" in
        let keystore_p12_path := Py.path_join work_dir "keystore.p12" in
        sys_write ca_root_path root_cert ;;
        sys_write cert_path cert_content ;;
        sys_write key_path key_content ;;
        sys_write bundle_path bundle_content ;;
        result <- sys_run (cmd_truststore ca_root_path alias truststore_path password) plain ;;
        if negb (returncode result =? 0)%Z then
          raise (Exn (HTTPException 500)
                     ("Truststore creation failed: " +:+ stderr result))
        else
          result <- sys_run (cmd_p12 cert_path key_path bundle_path alias
                                     keystore_p12_path password) plain ;;
          if negb (returncode result =? 0)%Z then
            raise (Exn (HTTPException 500)
                       ("Keystore creation failed: " +:+ stderr result))
          else
            truststore <- sys_read truststore_path ;;
            keystore <- sys_read keystore_p12_path ;;
            return_ [ ("truststore.jks", truststore);
                      ("keystore.p12", keystore);
                      ("client-ssl.properties", properties_content password bootstrap);
                      ("CA_root.pem", root_cert) ]
  end.

(** [generate_stores] (lines 137-241): the response, or the exception
    that leaves the handler. *)
Definition generate_stores
  (ca_chain cert key bundle alias password bootstrap : string) (s : Sys h)
  : result (list (string * string)) * Sys h :=
  let '(work_dir, s) := sys_mkdtemp s in
  let '(c, (s, _)) :=
    try_finally
      (generate_stores_body ca_chain cert key bundle alias password bootstrap work_dir)
      (sys_rmtree work_dir) (s, tt) in
  (returned c, s).

Definition test_properties_content (truststore_path keystore_path password : string)
  : string :=
  Py.join Py.nl
    [ "security.protocol=SSL";
      "ssl.truststore.location=" +:+ truststore_path;
      "ssl.truststore.password=" +:+ password;
      "ssl.keystore.location=" +:+ keystore_path;
      "ssl.keystore.password=" +:+ password;
      "ssl.keystore.type=PKCS12";
      "ssl.key.password=" +:+ password;
      "ssl.endpoint.identification.algorithm=";
      EmptyString ].

Definition cmd_kafka (kafka_bin properties_path bootstrap : string) : list string :=
  [ kafka_bin; "--list";
    "--command-config"; properties_path;
    "--bootstrap-server"; bootstrap ].

Definition cmd_ssl (host port : string) : list string :=
  [ "openssl"; "s_client"; "-connect"; host +:+ ":" +:+ port; "-brief" ].

(** The fallback of [test_kafka_connection] (lines 303-334). *)
Definition ssl_fallback (bootstrap : string) : M h unit TestResult Empty_set :=
  hp <- lift_result (bootstrap_host_port bootstrap) ;;
  let '(host, port) := hp in
  try_except
    (result <- sys_run (cmd_ssl host port)
                 {| cwd := None; timeout := Some 10; input := Some EmptyString |} ;;
     if Py.contains "CONNECTED" (stdout result)
        || Py.contains "CONNECTED" (stderr result) then
       return_ {| t_success := true;
                  message := "SSL handshake successful with " +:+ host +:+ ":" +:+ port;
                  details := Some "Kafka CLI not available - performed basic SSL connectivity test only";
                  topics := None |}
     else
       return_ {| t_success := false;
                  message := "Cannot establish SSL connection to " +:+ host +:+ ":" +:+ port;
                  details := Some (if Py.truthy (stderr result)
                                   then Py.slice_to 500 (stderr result)
                                   else "Unknown error");
                  topics := None |})
    (fun e =>
       if is_timeout e then
         return_ {| t_success := false;
                    message := "Connection timeout to " +:+ host +:+ ":" +:+ port;
                    details := Some "The server did not respond within 10 seconds";
                    topics := None |}
       else raise e).

(** The outer [try] block of [test_kafka_connection] (lines 255-334). *)
Definition test_kafka_connection_body
  (truststore keystore password bootstrap work_dir : string)
  : M h unit TestResult Empty_set :=
  let truststore_path := Py.path_join work_dir "truststore.jks" in
  let keystore_path := Py.path_join work_dir "keystore.p12" in
  let properties_path := Py.path_join work_dir "client-ssl.properties" in
  sys_write truststore_path truststore ;;
  sys_write keystore_path keystore ;;
  sys_write properties_path
            (test_properties_content truststore_path keystore_path password) ;;
  kafka_bin <- find_kafka_bin ;;
  match kafka_bin with
  | Some bin =>
      if Py.truthy bin then
        result <- sys_run (cmd_kafka bin properties_path bootstrap)
                    {| cwd := None; timeout := Some 30; input := None |} ;;
        if (returncode result =? 0)%Z then
          let topics := parse_topics (stdout result) in
          return_ {| t_success := true;
                     message := "Connection successful! Found "
                                +:+ Py.str_nat (length topics) +:+ " topics.";
                     details := None;
                     topics := Some topics |}
        else
          return_ {| t_success := false;
                     message := "Kafka connection failed";
                     details := Some (Py.str_or (stderr result) (stdout result));
                     topics := None |}
      else ssl_fallback bootstrap
  | None => ssl_fallback bootstrap
  end.

(** [test_kafka_connection] (lines 244-339). *)
Definition test_kafka_connection
  (truststore keystore password bootstrap : string) (s : Sys h)
  : result TestResult * Sys h :=
  let '(work_dir, s) := sys_mkdtemp s in
  let '(c, (s, _)) :=
    try_finally
      (try_except
         (test_kafka_connection_body truststore keystore password bootstrap work_dir)
         (fun e => return_ {| t_success := false; message := "Test failed";
                              details := Some (exn_text e); topics := None |}))
      (sys_rmtree work_dir) (s, tt) in
  (returned c, s).

End WithHost.
End Main.

(** ** src/app.py *)

(** What [jsonify] is given. *)
#[local] Set Warnings "-register-all".
Inductive json :=
| JBool (b : bool)
| JStr (s : string)
| JInt (n : nat)
| JList (items : list json)
| JObj (fields : list (string * json)).

(** A Flask response: the JSON body and the status code. *)
Definition Response : Type := list (string * json) * nat.

(** An uploaded file; it is falsy when it has no file name. *)
Record FileStorage := { filename : string; payload : string }.

(** [request.form] and [request.files]. *)
Record Request := {
  form : gmap string string;
  uploads : gmap string FileStorage
}.

Definition present (f : option FileStorage) : option FileStorage :=
  match f with
  | Some file => if Py.truthy (filename file) then Some file else None
  | None => None
  end.

(** [if truststore_file and keystore_file] and
    [elif all([ca_chain, bundle, key])]: the files, when all are truthy. *)
Definition uploaded_stores (req : Request) : option (FileStorage * FileStorage) :=
  match present (uploads req !! "truststore"), present (uploads req !! "keystore") with
  | Some truststore_file, Some keystore_file => Some (truststore_file, keystore_file)
  | _, _ => None
  end.

Definition uploaded_certs (req : Request)
  : option (FileStorage * FileStorage * FileStorage) :=
  match present (uploads req !! "ca_chain"), present (uploads req !! "bundle"),
        present (uploads req !! "key") with
  | Some ca_chain, Some bundle, Some key => Some (ca_chain, bundle, key)
  | _, _, _ => None
  end.

Module App.

(** The dictionary [results] of [generate_stores]. *)
Record Results := {
  success : bool;
  files : gmap string string;
  errors : list string;
  info : list string;
  pem_files : option (string * string * string);
  passwords : option (string * string)
}.

Definition results_init : Results :=
  {| success := false; files := ∅; errors := []; info := [];
     pem_files := None; passwords := None |}.

Definition add_error (msg : string) (r : Results) : Results :=
  {| success := success r; files := files r; errors := errors r ++ [msg];
     info := info r; pem_files := pem_files r; passwords := passwords r |}.

Definition add_info (msg : string) (r : Results) : Results :=
  {| success := success r; files := files r; errors := errors r;
     info := info r ++ [msg]; pem_files := pem_files r;
     passwords := passwords r |}.

Definition set_file (name content : string) (r : Results) : Results :=
  {| success := success r; files := <[name := content]> (files r);
     errors := errors r; info := info r; pem_files := pem_files r;
     passwords := passwords r |}.

Definition set_pem_files (p : string * string * string) (r : Results) : Results :=
  {| success := success r; files := files r; errors := errors r;
     info := info r; pem_files := Some p; passwords := passwords r |}.

Definition set_passwords (p : string * string) (r : Results) : Results :=
  {| success := success r; files := files r; errors := errors r;
     info := info r; pem_files := pem_files r; passwords := Some p |}.

Definition set_success (b : bool) (r : Results) : Results :=
  {| success := b; files := files r; errors := errors r; info := info r;
     pem_files := pem_files r; passwords := passwords r |}.

Section WithLib.
Context (x : Lib).

(** [get_cert_info] (lines 40-59): the dictionary it returns. *)
Definition get_cert_info (cert_pem : string) : list (string * json) :=
  match load_pem_x509_certificate x cert_pem with
  | Err e => [("error", JStr (exn_text e))]
  | Ok cert =>
      let validity :=
        match validity_utc x cert with
        | Ok v => Ok v
        | Err e =>
            match exn_kind e with
            | AttributeError => validity_naive x cert
            | _ => Err e
            end
        end in
      match validity with
      | Err e => [("error", JStr (exn_text e))]
      | Ok (not_before, not_after) =>
          [ ("subject", JStr (subject_rfc4514 x cert));
            ("issuer", JStr (issuer_rfc4514 x cert));
            ("not_before", JStr not_before);
            ("not_after", JStr not_after) ]
      end
  end.

(** The second loop of [analyze_cert] (lines 326-331). *)
Fixpoint analyze_loop (i : nat) (certs : list string) (results : list json)
  : list json :=
  match certs with
  | [] => results
  | cert_pem :: rest =>
      let info := get_cert_info cert_pem in
      let info := info ++ [("index", JInt i)] in
      let info := info ++ [("is_root", JBool (Nat.eqb i 0))] in
      analyze_loop (S i) rest (results ++ [JObj info])
  end.

(** [analyze_cert] (lines 300-336); its scanning loop is the one of
    [parse_cert_chain]. *)
Definition analyze_cert (req : Request) : Response :=
  match present (uploads req !! "cert") with
  | None => ([("success", JBool false); ("error", JStr "No certificate provided")], 400)
  | Some cert_file =>
      match utf8_decode x (payload cert_file) with
      | Err e => ([("success", JBool false); ("error", JStr (exn_text e))], 500)
      | Ok cert_content =>
          let certs := parse_cert_chain cert_content in
          let results := analyze_loop 0 certs [] in
          ([("success", JBool true); ("certificates", JList results)], 200)
      end
  end.

End WithLib.

Section WithHost.
Context {h : Host} (x : Lib).
Local Open Scope py_scope.

Definition cmd_truststore (cert_temp_path alias : string) (i : nat)
  (truststore_path truststore_password : string) : list string :=
  [ "keytool"; "-import"; "-file"; cert_temp_path;
    "-alias"; alias +:+ "-ca-" +:+ Py.str_nat i;
    "-keystore"; truststore_path;
    "-storepass"; truststore_password;
    "-noprompt" ].

Definition cmd_p12 (bundle_path key_path alias keystore_p12_path keystore_password : string)
  : list string :=
  [ "openssl"; "pkcs12"; "-export";
    "-in"; bundle_path;
    "-inkey"; key_path;
    "-name"; alias;
    "-out"; keystore_p12_path;
    "-passout"; "pass:" +:+ keystore_password ].

Definition cmd_jks (keystore_p12_path keystore_password keystore_jks_path alias : string)
  : list string :=
  [ "keytool"; "-importkeystore";
    "-srckeystore"; keystore_p12_path;
    "-srcstoretype"; "pkcs12";
    "-srcstorepass"; keystore_password;
    "-destkeystore"; keystore_jks_path;
    "-deststoretype"; "jks";
    "-deststorepass"; keystore_password;
    "-alias"; alias ].

Definition cert_temp_path (work_dir : string) (i : nat) : string :=
  Py.path_join work_dir ("ca_" +:+ Py.str_nat i +:+ ".pem").

(** Step 1 of [generate_stores] (lines 105-120), from position [i] on. *)
Fixpoint import_certs (work_dir alias truststore_password : string)
  (i : nat) (certs : list string) : M h Results unit unit :=
  match certs with
  | [] => ret tt
  | cert_pem :: rest =>
      sys_write (cert_temp_path work_dir i) cert_pem ;;
      result <- sys_run (cmd_truststore (cert_temp_path work_dir i) alias i
                           (Py.path_join work_dir "truststore.jks")
                           truststore_password) plain ;;
      if negb (returncode result =? 0)%Z then
        modify (add_error ("Truststore creation failed for cert "
                           +:+ Py.str_nat i +:+ ": " +:+ stderr result)) ;;
        return_ tt
      else import_certs work_dir alias truststore_password (S i) rest
  end.

(** The [try] block of [generate_stores] (lines 68-175). *)
Definition generate_stores_body
  (ca_chain bundle key alias truststore_password keystore_password work_dir : string)
  : M h Results unit unit :=
  let ca_chain_path := Py.path_join work_dir "CA_chain" in
  let bundle_path := Py.path_join work_dir "bundle" in
  let key_path := Py.path_join work_dir "key" in
  let truststore_path := Py.path_join work_dir "truststore.jks" in
  let keystore_p12_path := Py.path_join work_dir "keystore.p12" in
  let keystore_jks_path := Py.path_join work_dir "keystore.jks" in
  sys_write ca_chain_path ca_chain ;;
  sys_write bundle_path bundle ;;
  sys_write key_path key ;;
  let certs := extract_certs ca_chain in
  match certs with
  | [] =>
      modify (add_error "Could not extract certificates from CA chain") ;;
      return_ tt
  | _ :: _ =>
      import_certs work_dir alias truststore_password 0 certs ;;
      modify (add_info ("Truststore created successfully with "
                        +:+ Py.str_nat (length certs) +:+ " CA certificates")) ;;
      result <- sys_run (cmd_p12 bundle_path key_path alias keystore_p12_path
                                 keystore_password) plain ;;
      if negb (returncode result =? 0)%Z then
        modify (add_error ("P12 creation failed: " +:+ stderr result)) ;;
        return_ tt
      else
        modify (add_info "P12 keystore created successfully") ;;
        result <- sys_run (cmd_jks keystore_p12_path keystore_password
                                   keystore_jks_path alias) plain ;;
        if negb (returncode result =? 0)%Z then
          modify (add_error ("JKS conversion failed: " +:+ stderr result)) ;;
          return_ tt
        else
          modify (add_info "JKS keystore created successfully") ;;
          truststore <- sys_read truststore_path ;;
          modify (set_file "truststore.jks" truststore) ;;
          keystore_jks <- sys_read keystore_jks_path ;;
          modify (set_file "keystore.jks" keystore_jks) ;;
          keystore_p12 <- sys_read keystore_p12_path ;;
          modify (set_file "keystore.p12" keystore_p12) ;;
          modify (set_pem_files (ca_chain, bundle, key)) ;;
          modify (set_passwords (truststore_password, keystore_password)) ;;
          modify (set_success true)
  end.

(** [generate_stores] (lines 62-182).  [return results] hands back the
    dictionary as the block left it, whichever way the block ended. *)
Definition generate_stores
  (ca_chain bundle key alias truststore_password keystore_password : string)
  (s : Sys h) : Results * Sys h :=
  let '(work_dir, s) := sys_mkdtemp s in
  let '(_, (s, results)) :=
    try_finally
      (try_except
         (generate_stores_body ca_chain bundle key alias truststore_password
                               keystore_password work_dir)
         (fun e => modify (add_error (exn_text e))))
      (sys_rmtree work_dir) (s, results_init) in
  (results, s).

(** *** The runs of [generate_stores], case by case

    [import_cmds] and [import_events] list what step 1 does from position
    [i] on when every import exits with status zero; [gs_run] lists the
    ways the [try] block can go: the calls it makes, in order, and the
    dictionary it leaves. *)

Section Outcomes.
Variables (ca_chain bundle key alias truststore_password keystore_password : string).
Variable work_dir : string.

Definition truststore_path : string := Py.path_join work_dir "truststore.jks".
Definition keystore_p12_path : string := Py.path_join work_dir "keystore.p12".
Definition keystore_jks_path : string := Py.path_join work_dir "keystore.jks".

Definition import_cmd (i : nat) : list string :=
  cmd_truststore (cert_temp_path work_dir i) alias i truststore_path
                 truststore_password.

Definition export_cmd : list string :=
  cmd_p12 (Py.path_join work_dir "bundle") (Py.path_join work_dir "key") alias
          keystore_p12_path keystore_password.

Definition convert_cmd : list string :=
  cmd_jks keystore_p12_path keystore_password keystore_jks_path alias.

Fixpoint import_cmds (i : nat) (certs : list string) : list (list string) :=
  match certs with
  | [] => []
  | _ :: rest => import_cmd i :: import_cmds (S i) rest
  end.

(** Every sub-process of a complete run, in order. *)
Definition pipeline_cmds (certs : list string) : list (list string) :=
  import_cmds 0 certs ++ [export_cmd; convert_cmd].

Fixpoint import_events (i : nat) (certs : list string)
  (procs : list CompletedProcess) : list event :=
  match certs, procs with
  | cert_pem :: rest, p :: ps =>
      EWrite (cert_temp_path work_dir i) cert_pem (Ok tt)
      :: ERun (import_cmd i) plain (Ok p)
      :: import_events (S i) rest ps
  | _, _ => []
  end.

Definition staging : list (string * string) :=
  [ (Py.path_join work_dir "CA_chain", ca_chain);
    (Py.path_join work_dir "bundle", bundle);
    (Py.path_join work_dir "key", key) ].

Definition zero_exit (p : CompletedProcess) : Prop := returncode p = 0%Z.

Definition count_msg (certs : list string) : string :=
  "Truststore created successfully with "
  +:+ Py.str_nat (length certs) +:+ " CA certificates".

Definition imported (certs : list string) : Results :=
  add_info (count_msg certs) results_init.

Definition exported (certs : list string) : Results :=
  add_info "P12 keystore created successfully" (imported certs).

Definition converted (certs : list string) : Results :=
  add_info "JKS keystore created successfully" (exported certs).

(** Steps 2 and 3 and the reading of the stores. *)
Inductive gs_tail : list event -> Results -> Prop :=
| gs_export_error e :
    gs_tail [ERun export_cmd plain (Err e)]
            (add_error (exn_text e) (imported (extract_certs ca_chain)))
| gs_export_nonzero p :
    returncode p <> 0%Z ->
    gs_tail [ERun export_cmd plain (Ok p)]
            (add_error ("P12 creation failed: " +:+ stderr p)
                       (imported (extract_certs ca_chain)))
| gs_convert_error p e :
    zero_exit p ->
    gs_tail [ERun export_cmd plain (Ok p); ERun convert_cmd plain (Err e)]
            (add_error (exn_text e) (exported (extract_certs ca_chain)))
| gs_convert_nonzero p q :
    zero_exit p -> returncode q <> 0%Z ->
    gs_tail [ERun export_cmd plain (Ok p); ERun convert_cmd plain (Ok q)]
            (add_error ("JKS conversion failed: " +:+ stderr q)
                       (exported (extract_certs ca_chain)))
| gs_read_truststore_error p q e :
    zero_exit p -> zero_exit q ->
    gs_tail [ ERun export_cmd plain (Ok p); ERun convert_cmd plain (Ok q);
              ERead truststore_path (Err e) ]
            (add_error (exn_text e) (converted (extract_certs ca_chain)))
| gs_read_jks_error p q t e :
    zero_exit p -> zero_exit q ->
    gs_tail [ ERun export_cmd plain (Ok p); ERun convert_cmd plain (Ok q);
              ERead truststore_path (Ok t); ERead keystore_jks_path (Err e) ]
            (add_error (exn_text e)
               (set_file "truststore.jks" t (converted (extract_certs ca_chain))))
| gs_read_p12_error p q t k e :
    zero_exit p -> zero_exit q ->
    gs_tail [ ERun export_cmd plain (Ok p); ERun convert_cmd plain (Ok q);
              ERead truststore_path (Ok t); ERead keystore_jks_path (Ok k);
              ERead keystore_p12_path (Err e) ]
            (add_error (exn_text e)
               (set_file "keystore.jks" k
                  (set_file "truststore.jks" t (converted (extract_certs ca_chain)))))
| gs_complete p q t k b :
    zero_exit p -> zero_exit q ->
    gs_tail [ ERun export_cmd plain (Ok p); ERun convert_cmd plain (Ok q);
              ERead truststore_path (Ok t); ERead keystore_jks_path (Ok k);
              ERead keystore_p12_path (Ok b) ]
            (set_success true
               (set_passwords (truststore_password, keystore_password)
                  (set_pem_files (ca_chain, bundle, key)
                     (set_file "keystore.p12" b
                        (set_file "keystore.jks" k
                           (set_file "truststore.jks" t
                              (converted (extract_certs ca_chain)))))))).

(** The whole [try] block. *)
Inductive gs_run : list event -> Results -> Prop :=
| gs_stage_error k path content e :
    staging !! k = Some (path, content) ->
    gs_run (written (take k staging) ++ [EWrite path content (Err e)])
           (add_error (exn_text e) results_init)
| gs_no_certs :
    extract_certs ca_chain = [] ->
    gs_run (written staging)
           (add_error "Could not extract certificates from CA chain" results_init)
| gs_import_nonzero k cert_pem procs p :
    extract_certs ca_chain !! k = Some cert_pem ->
    length procs = k -> Forall zero_exit procs ->
    returncode p <> 0%Z ->
    gs_run (written staging
            ++ import_events 0 (take k (extract_certs ca_chain)) procs
            ++ [ EWrite (cert_temp_path work_dir k) cert_pem (Ok tt);
                 ERun (import_cmd k) plain (Ok p) ])
           (add_error ("Truststore creation failed for cert "
                       +:+ Py.str_nat k +:+ ": " +:+ stderr p) results_init)
| gs_import_write_error k cert_pem procs e :
    extract_certs ca_chain !! k = Some cert_pem ->
    length procs = k -> Forall zero_exit procs ->
    gs_run (written staging
            ++ import_events 0 (take k (extract_certs ca_chain)) procs
            ++ [ EWrite (cert_temp_path work_dir k) cert_pem (Err e) ])
           (add_error (exn_text e) results_init)
| gs_import_run_error k cert_pem procs e :
    extract_certs ca_chain !! k = Some cert_pem ->
    length procs = k -> Forall zero_exit procs ->
    gs_run (written staging
            ++ import_events 0 (take k (extract_certs ca_chain)) procs
            ++ [ EWrite (cert_temp_path work_dir k) cert_pem (Ok tt);
                 ERun (import_cmd k) plain (Err e) ])
           (add_error (exn_text e) results_init)
| gs_after_import procs tail r :
    extract_certs ca_chain <> [] ->
    length procs = length (extract_certs ca_chain) -> Forall zero_exit procs ->
    gs_tail tail r ->
    gs_run (written staging ++ import_events 0 (extract_certs ca_chain) procs ++ tail) r.

End Outcomes.

Definition test_properties_content (truststore_path keystore_path password : string)
  : string :=
  Py.join Py.nl
    [ "security.protocol=SSL";
      "ssl.truststore.location=" +:+ truststore_path;
      "ssl.truststore.password=" +:+ password;
      "ssl.keystore.location=" +:+ keystore_path;
      "ssl.keystore.password=" +:+ password;
      "ssl.key.password=" +:+ password;
      "ssl.endpoint.identification.algorithm=";
      EmptyString ].

Definition cmd_kafka (kafka_bin properties_path bootstrap : string) : list string :=
  [ kafka_bin; "--list";
    "--command-config"; properties_path;
    "--bootstrap-server"; bootstrap ].

(** The text of [SSLTest.java] (lines 441-470). *)
Definition java_test_code (truststore_path keystore_path password host port : string)
  : string :=
  Py.join Py.nl
    [ EmptyString;
      "import javax.net.ssl.*;";
      "import java.io.*;";
      "import java.security.*;";
      EmptyString;
      "public class SSLTest {";
      "    public static void main(String[] args) {";
      "        System.setProperty(" +:+ Py.dq +:+ "javax.net.ssl.trustStore" +:+ Py.dq +:+ ", " +:+ Py.dq +:+ truststore_path +:+ Py.dq +:+ ");";
      "        System.setProperty(" +:+ Py.dq +:+ "javax.net.ssl.trustStorePassword" +:+ Py.dq +:+ ", " +:+ Py.dq +:+ password +:+ Py.dq +:+ ");";
      "        System.setProperty(" +:+ Py.dq +:+ "javax.net.ssl.keyStore" +:+ Py.dq +:+ ", " +:+ Py.dq +:+ keystore_path +:+ Py.dq +:+ ");";
      "        System.setProperty(" +:+ Py.dq +:+ "javax.net.ssl.keyStorePassword" +:+ Py.dq +:+ ", " +:+ Py.dq +:+ password +:+ Py.dq +:+ ");";
      EmptyString;
      "        try {";
      "            SSLSocketFactory factory = (SSLSocketFactory) SSLSocketFactory.getDefault();";
      "            SSLSocket socket = (SSLSocket) factory.createSocket(" +:+ Py.dq +:+ host +:+ Py.dq +:+ ", " +:+ port +:+ ");";
      "            socket.startHandshake();";
      EmptyString;
      "            System.out.println(" +:+ Py.dq +:+ "SUCCESS: SSL handshake completed" +:+ Py.dq +:+ ");";
      "            System.out.println(" +:+ Py.dq +:+ "Protocol: " +:+ Py.dq +:+ " + socket.getSession().getProtocol());";
      "            System.out.println(" +:+ Py.dq +:+ "CipherSuite: " +:+ Py.dq +:+ " + socket.getSession().getCipherSuite());";
      EmptyString;
      "            socket.close();";
      "        } catch (Exception e) {";
      "            System.err.println(" +:+ Py.dq +:+ "ERROR: " +:+ Py.dq +:+ " + e.getMessage());";
      "            e.printStackTrace();";
      "            System.exit(1);";
      "        }";
      "    }";
      "}";
      EmptyString ].

Definition cmd_javac (java_file_path : string) : list string :=
  [ "javac"; java_file_path ].

Definition cmd_java (work_dir : string) : list string :=
  [ "java"; "-cp"; work_dir; "SSLTest" ].

(** Lines 368-396 of [test_kafka]: the stores are put in the work
    directory, from uploaded stores or from uploaded certificates. *)
Definition stage_stores (req : Request) (password truststore_path keystore_path : string)
  : M h unit Response unit :=
  match uploaded_stores req with
  | Some (truststore_file, keystore_file) =>
      sys_write truststore_path (payload truststore_file) ;;
      sys_write keystore_path (payload keystore_file)
  | None =>
      match uploaded_certs req with
      | Some (ca_chain, bundle, key) =>
          ca_chain_content <- lift_result (utf8_decode x (payload ca_chain)) ;;
          bundle_content <- lift_result (utf8_decode x (payload bundle)) ;;
          key_content <- lift_result (utf8_decode x (payload key)) ;;
          result <- call (generate_stores ca_chain_content bundle_content key_content
                            "kafka-test" password password) ;;
          if negb (success result) then
            return_ ([ ("success", JBool false);
                       ("error", JStr "Failed to generate stores");
                       ("details", JList (map JStr (errors result))) ], 400)
          else
            match files result !! "truststore.jks" with
            | None => raise (Exn KeyError "'truststore.jks'")
            | Some truststore =>
                sys_write truststore_path truststore ;;
                match files result !! "keystore.jks" with
                | None => raise (Exn KeyError "'keystore.jks'")
                | Some keystore => sys_write keystore_path keystore
                end
            end
      | None =>
          return_ ([ ("success", JBool false);
                     ("error", JStr "Please provide either JKS files (truststore + keystore) or certificate files (ca_chain, bundle, key)") ],
                   400)
      end
  end.

(** Lines 437-527 of [test_kafka]: the handshake by a compiled Java
    program. *)
Definition java_fallback (bootstrap password work_dir truststore_path keystore_path : string)
  : M h unit Response Empty_set :=
  hp <- lift_result (bootstrap_host_port bootstrap) ;;
  let '(host, port) := hp in
  let java_file_path := Py.path_join work_dir "SSLTest.java" in
  sys_write java_file_path
            (java_test_code truststore_path keystore_path password host port) ;;
  try_except
    (compile_result <- sys_run (cmd_javac java_file_path)
                         {| cwd := Some work_dir; timeout := Some 10; input := None |} ;;
     if negb (returncode compile_result =? 0)%Z then
       return_ ([ ("success", JBool false);
                  ("error", JStr "Failed to compile SSL test");
                  ("details", JStr (stderr compile_result)) ], 500)
     else
       run_result <- sys_run (cmd_java work_dir)
                       {| cwd := None; timeout := Some 30; input := None |} ;;
       if (returncode run_result =? 0)%Z then
         return_ ([ ("success", JBool true);
                    ("message", JStr ("mTLS connection successful to "
                                      +:+ host +:+ ":" +:+ port));
                    ("details", JStr "Certificate verification passed using generated JKS files");
                    ("ssl_info", JStr (stdout run_result)) ], 200)
       else
         let error_msg := Py.str_or (stderr run_result) (stdout run_result) in
         return_ ([ ("success", JBool false);
                    ("error", JStr ("SSL connection failed to "
                                    +:+ host +:+ ":" +:+ port));
                    ("details", JStr (Py.slice_to 800 error_msg)) ], 200))
    (fun e =>
       if is_timeout e then
         return_ ([ ("success", JBool false);
                    ("error", JStr ("Connection timeout to "
                                    +:+ host +:+ ":" +:+ port));
                    ("details", JStr "The server did not respond within 30 seconds") ],
                  200)
       else
         return_ ([ ("success", JBool false);
                    ("error", JStr "Test execution failed");
                    ("details", JStr (exn_text e)) ], 500)).

(** The outer [try] block of [test_kafka] (lines 344-527). *)
Definition test_kafka_body (req : Request) (work_dir : string)
  : M h unit Response Empty_set :=
  let password := default "changeit" (form req !! "password") in
  let missing : M h unit Response Empty_set :=
    return_ ([ ("success", JBool false);
               ("error", JStr "Bootstrap server is required") ], 400) in
  match form req !! "bootstrap" with
  | None => missing
  | Some bootstrap =>
      if negb (Py.truthy bootstrap) then missing
      else
        let truststore_path := Py.path_join work_dir "truststore.jks" in
        let keystore_path := Py.path_join work_dir "keystore.jks" in
        let properties_path := Py.path_join work_dir "client-ssl.properties" in
        stage_stores req password truststore_path keystore_path ;;
        sys_write properties_path
                  (test_properties_content truststore_path keystore_path password) ;;
        kafka_bin <- find_kafka_bin ;;
        let fallback :=
          java_fallback bootstrap password work_dir truststore_path keystore_path in
        match kafka_bin with
        | Some bin =>
            if Py.truthy bin then
              result <- sys_run (cmd_kafka bin properties_path bootstrap)
                          {| cwd := None; timeout := Some 30; input := None |} ;;
              if (returncode result =? 0)%Z then
                let topics := parse_topics (stdout result) in
                return_ ([ ("success", JBool true);
                           ("message", JStr "Connection successful!");
                           ("topics", JList (map JStr topics));
                           ("topics_count", JInt (length topics)) ], 200)
              else
                return_ ([ ("success", JBool false);
                           ("error", JStr "Kafka connection failed");
                           ("details", JStr (Py.str_or (stderr result) (stdout result))) ],
                         200)
            else fallback
        | None => fallback
        end
  end.

(** [test_kafka] (lines 339-532). *)
Definition test_kafka (req : Request) (s : Sys h) : result Response * Sys h :=
  let '(work_dir, s) := sys_mkdtemp s in
  let '(c, (s, _)) :=
    try_finally
      (try_except
         (test_kafka_body req work_dir)
         (fun e => return_ ([ ("success", JBool false);
                              ("error", JStr (exn_text e)) ], 500)))
      (sys_rmtree work_dir) (s, tt) in
  (returned c, s).

End WithHost.
End App.

(** ** The runs of the probes, case by case *)

(** The look-up of the Kafka command-line client: the calls made and
    what [kafka_bin] is bound to. *)
Inductive kafka_lookup : list event -> option string -> Prop :=
| lookup_first a :
    opt_truthy a = true ->
    kafka_lookup [EWhich "kafka-topics.sh" a] a
| lookup_second a b :
    opt_truthy a = false ->
    kafka_lookup [EWhich "kafka-topics.sh" a; EWhich "kafka-topics" b] b.

Section MainProbe.
Variables (truststore keystore password bootstrap work_dir : string).

Definition tkc_staging : list (string * string) :=
  [ (Py.path_join work_dir "truststore.jks", truststore);
    (Py.path_join work_dir "keystore.p12", keystore);
    (Py.path_join work_dir "client-ssl.properties",
     Main.test_properties_content (Py.path_join work_dir "truststore.jks")
                                  (Py.path_join work_dir "keystore.p12") password) ].

Definition tkc_cmd_kafka (bin : string) : list string :=
  Main.cmd_kafka bin (Py.path_join work_dir "client-ssl.properties") bootstrap.

Definition test_failed (e : exn) : Main.TestResult :=
  {| Main.t_success := false; Main.message := "Test failed";
     Main.details := Some (exn_text e); Main.topics := None |}.

(** The fallback of [test_kafka_connection]. *)
Inductive tkc_ssl : list event -> Main.TestResult -> Prop :=
| tkc_split_error e :
    bootstrap_host_port bootstrap = Err e ->
    tkc_ssl [] (test_failed e)
| tkc_ssl_timeout host port e :
    bootstrap_host_port bootstrap = Ok (host, port) ->
    is_timeout e = true ->
    tkc_ssl [ERun (Main.cmd_ssl host port)
                  {| cwd := None; timeout := Some 10; input := Some EmptyString |}
                  (Err e)]
            {| Main.t_success := false;
               Main.message := "Connection timeout to " +:+ host +:+ ":" +:+ port;
               Main.details := Some "The server did not respond within 10 seconds";
               Main.topics := None |}
| tkc_ssl_error host port e :
    bootstrap_host_port bootstrap = Ok (host, port) ->
    is_timeout e = false ->
    tkc_ssl [ERun (Main.cmd_ssl host port)
                  {| cwd := None; timeout := Some 10; input := Some EmptyString |}
                  (Err e)]
            (test_failed e)
| tkc_ssl_connected host port p :
    bootstrap_host_port bootstrap = Ok (host, port) ->
    Py.contains "CONNECTED" (stdout p) || Py.contains "CONNECTED" (stderr p) = true ->
    tkc_ssl [ERun (Main.cmd_ssl host port)
                  {| cwd := None; timeout := Some 10; input := Some EmptyString |}
                  (Ok p)]
            {| Main.t_success := true;
               Main.message := "SSL handshake successful with " +:+ host +:+ ":" +:+ port;
               Main.details := Some "Kafka CLI not available - performed basic SSL connectivity test only";
               Main.topics := None |}
| tkc_ssl_refused host port p :
    bootstrap_host_port bootstrap = Ok (host, port) ->
    Py.contains "CONNECTED" (stdout p) || Py.contains "CONNECTED" (stderr p) = false ->
    tkc_ssl [ERun (Main.cmd_ssl host port)
                  {| cwd := None; timeout := Some 10; input := Some EmptyString |}
                  (Ok p)]
            {| Main.t_success := false;
               Main.message := "Cannot establish SSL connection to " +:+ host +:+ ":" +:+ port;
               Main.details := Some (if Py.truthy (stderr p)
                                     then Py.slice_to 500 (stderr p)
                                     else "Unknown error");
               Main.topics := None |}.

(** The [try] block of [test_kafka_connection] with its handler. *)
Inductive tkc_run : list event -> Main.TestResult -> Prop :=
| tkc_stage_error k path content e :
    tkc_staging !! k = Some (path, content) ->
    tkc_run (written (take k tkc_staging) ++ [EWrite path content (Err e)])
            (test_failed e)
| tkc_cli_error found bin e :
    kafka_lookup found (Some bin) -> Py.truthy bin = true ->
    tkc_run (written tkc_staging ++ found
             ++ [ERun (tkc_cmd_kafka bin)
                      {| cwd := None; timeout := Some 30; input := None |} (Err e)])
            (test_failed e)
| tkc_cli_ok found bin p :
    kafka_lookup found (Some bin) -> Py.truthy bin = true ->
    returncode p = 0%Z ->
    tkc_run (written tkc_staging ++ found
             ++ [ERun (tkc_cmd_kafka bin)
                      {| cwd := None; timeout := Some 30; input := None |} (Ok p)])
            {| Main.t_success := true;
               Main.message := "Connection successful! Found "
                               +:+ Py.str_nat (length (parse_topics (stdout p)))
                               +:+ " topics.";
               Main.details := None;
               Main.topics := Some (parse_topics (stdout p)) |}
| tkc_cli_failed found bin p :
    kafka_lookup found (Some bin) -> Py.truthy bin = true ->
    returncode p <> 0%Z ->
    tkc_run (written tkc_staging ++ found
             ++ [ERun (tkc_cmd_kafka bin)
                      {| cwd := None; timeout := Some 30; input := None |} (Ok p)])
            {| Main.t_success := false;
               Main.message := "Kafka connection failed";
               Main.details := Some (Py.str_or (stderr p) (stdout p));
               Main.topics := None |}
| tkc_fallback found bin tail r :
    kafka_lookup found bin -> opt_truthy bin = false ->
    tkc_ssl tail r ->
    tkc_run (written tkc_staging ++ found ++ tail) r.

End MainProbe.

Section AppProbe.
Variable x : Lib.
Variables (req : Request) (work_dir : string).

Definition tk_password : string := default "changeit" (form req !! "password").
Definition tk_truststore_path : string := Py.path_join work_dir "truststore.jks".
Definition tk_keystore_path : string := Py.path_join work_dir "keystore.jks".
Definition tk_properties_path : string := Py.path_join work_dir "client-ssl.properties".
Definition tk_java_file_path : string := Py.path_join work_dir "SSLTest.java".

Definition internal_error (e : exn) : Response :=
  ([("success", JBool false); ("error", JStr (exn_text e))], 500).

(** The three uploads decoded in turn. *)
Definition decode3 (ca_chain bundle key : FileStorage)
  : result (string * string * string) :=
  match utf8_decode x (payload ca_chain) with
  | Err e => Err e
  | Ok ca_chain_content =>
      match utf8_decode x (payload bundle) with
      | Err e => Err e
      | Ok bundle_content =>
          match utf8_decode x (payload key) with
          | Err e => Err e
          | Ok key_content => Ok (ca_chain_content, bundle_content, key_content)
          end
      end
  end.

(** Writing the two generated stores. *)
Inductive tk_copy : string -> string -> list event -> ctl Response unit -> Prop :=
| tk_copied t j :
    tk_copy t j [ EWrite tk_truststore_path t (Ok tt);
                  EWrite tk_keystore_path j (Ok tt) ] (Val tt)
| tk_copy_error_1 t j e :
    tk_copy t j [ EWrite tk_truststore_path t (Err e) ] (Raise e)
| tk_copy_error_2 t j e :
    tk_copy t j [ EWrite tk_truststore_path t (Ok tt);
                  EWrite tk_keystore_path j (Err e) ] (Raise e).

(** Putting the stores in the work directory. *)
Inductive tk_stage : list event -> ctl Response unit -> Prop :=
| tk_uploaded t k :
    uploaded_stores req = Some (t, k) ->
    tk_stage [ EWrite tk_truststore_path (payload t) (Ok tt);
               EWrite tk_keystore_path (payload k) (Ok tt) ] (Val tt)
| tk_uploaded_error_1 t k e :
    uploaded_stores req = Some (t, k) ->
    tk_stage [ EWrite tk_truststore_path (payload t) (Err e) ] (Raise e)
| tk_uploaded_error_2 t k e :
    uploaded_stores req = Some (t, k) ->
    tk_stage [ EWrite tk_truststore_path (payload t) (Ok tt);
               EWrite tk_keystore_path (payload k) (Err e) ] (Raise e)
| tk_nothing_uploaded :
    uploaded_stores req = None -> uploaded_certs req = None ->
    tk_stage []
      (Return ([ ("success", JBool false);
                 ("error", JStr "Please provide either JKS files (truststore + keystore) or certificate files (ca_chain, bundle, key)") ],
               400))
| tk_decode_error c b k e :
    uploaded_stores req = None -> uploaded_certs req = Some (c, b, k) ->
    decode3 c b k = Err e ->
    tk_stage [] (Raise e)
| tk_generate_failed c b k cc bc kc inner body result :
    uploaded_stores req = None -> uploaded_certs req = Some (c, b, k) ->
    decode3 c b k = Ok (cc, bc, kc) ->
    App.gs_run cc bc kc "kafka-test" tk_password tk_password inner body result ->
    App.success result = false ->
    tk_stage (EMkdtemp inner :: body ++ [ERmtree inner])
      (Return ([ ("success", JBool false);
                 ("error", JStr "Failed to generate stores");
                 ("details", JList (map JStr (App.errors result))) ], 400))
| tk_generated c b k cc bc kc inner body result t j tail ending :
    uploaded_stores req = None -> uploaded_certs req = Some (c, b, k) ->
    decode3 c b k = Ok (cc, bc, kc) ->
    App.gs_run cc bc kc "kafka-test" tk_password tk_password inner body result ->
    App.success result = true ->
    App.files result !! "truststore.jks" = Some t ->
    App.files result !! "keystore.jks" = Some j ->
    tk_copy t j tail ending ->
    tk_stage (EMkdtemp inner :: body ++ [ERmtree inner] ++ tail) ending.

(** The inner [try] of the fallback: compiling and running the Java
    program. *)
Inductive tk_java (host port : string) : list event -> Response -> Prop :=
| tk_javac_timeout e :
    is_timeout e = true ->
    tk_java host port
      [ERun (App.cmd_javac tk_java_file_path)
            {| cwd := Some work_dir; timeout := Some 10; input := None |} (Err e)]
      ([ ("success", JBool false);
         ("error", JStr ("Connection timeout to " +:+ host +:+ ":" +:+ port));
         ("details", JStr "The server did not respond within 30 seconds") ], 200)
| tk_javac_error e :
    is_timeout e = false ->
    tk_java host port
      [ERun (App.cmd_javac tk_java_file_path)
            {| cwd := Some work_dir; timeout := Some 10; input := None |} (Err e)]
      ([ ("success", JBool false);
         ("error", JStr "Test execution failed");
         ("details", JStr (exn_text e)) ], 500)
| tk_javac_failed p :
    returncode p <> 0%Z ->
    tk_java host port
      [ERun (App.cmd_javac tk_java_file_path)
            {| cwd := Some work_dir; timeout := Some 10; input := None |} (Ok p)]
      ([ ("success", JBool false);
         ("error", JStr "Failed to compile SSL test");
         ("details", JStr (stderr p)) ], 500)
| tk_java_timeout p e :
    returncode p = 0%Z -> is_timeout e = true ->
    tk_java host port
      [ERun (App.cmd_javac tk_java_file_path)
            {| cwd := Some work_dir; timeout := Some 10; input := None |} (Ok p);
       ERun (App.cmd_java work_dir)
            {| cwd := None; timeout := Some 30; input := None |} (Err e)]
      ([ ("success", JBool false);
         ("error", JStr ("Connection timeout to " +:+ host +:+ ":" +:+ port));
         ("details", JStr "The server did not respond within 30 seconds") ], 200)
| tk_java_error p e :
    returncode p = 0%Z -> is_timeout e = false ->
    tk_java host port
      [ERun (App.cmd_javac tk_java_file_path)
            {| cwd := Some work_dir; timeout := Some 10; input := None |} (Ok p);
       ERun (App.cmd_java work_dir)
            {| cwd := None; timeout := Some 30; input := None |} (Err e)]
      ([ ("success", JBool false);
         ("error", JStr "Test execution failed");
         ("details", JStr (exn_text e)) ], 500)
| tk_java_connected p q :
    returncode p = 0%Z -> returncode q = 0%Z ->
    tk_java host port
      [ERun (App.cmd_javac tk_java_file_path)
            {| cwd := Some work_dir; timeout := Some 10; input := None |} (Ok p);
       ERun (App.cmd_java work_dir)
            {| cwd := None; timeout := Some 30; input := None |} (Ok q)]
      ([ ("success", JBool true);
         ("message", JStr ("mTLS connection successful to " +:+ host +:+ ":" +:+ port));
         ("details", JStr "Certificate verification passed using generated JKS files");
         ("ssl_info", JStr (stdout q)) ], 200)
| tk_java_failed p q :
    returncode p = 0%Z -> returncode q <> 0%Z ->
    tk_java host port
      [ERun (App.cmd_javac tk_java_file_path)
            {| cwd := Some work_dir; timeout := Some 10; input := None |} (Ok p);
       ERun (App.cmd_java work_dir)
            {| cwd := None; timeout := Some 30; input := None |} (Ok q)]
      ([ ("success", JBool false);
         ("error", JStr ("SSL connection failed to " +:+ host +:+ ":" +:+ port));
         ("details", JStr (Py.slice_to 800 (Py.str_or (stderr q) (stdout q)))) ], 200).

Definition tk_properties : string :=
  App.test_properties_content tk_truststore_path tk_keystore_path tk_password.

Definition tk_cmd_kafka (bootstrap bin : string) : list string :=
  App.cmd_kafka bin tk_properties_path bootstrap.

(** From the properties file on. *)
Inductive tk_probe (bootstrap : string) : list event -> Response -> Prop :=
| tk_properties_error e :
    tk_probe bootstrap [EWrite tk_properties_path tk_properties (Err e)]
             (internal_error e)
| tk_cli_error found bin e :
    kafka_lookup found (Some bin) -> Py.truthy bin = true ->
    tk_probe bootstrap
      (EWrite tk_properties_path tk_properties (Ok tt) :: found
       ++ [ERun (tk_cmd_kafka bootstrap bin)
                {| cwd := None; timeout := Some 30; input := None |} (Err e)])
      (internal_error e)
| tk_cli_ok found bin p :
    kafka_lookup found (Some bin) -> Py.truthy bin = true ->
    returncode p = 0%Z ->
    tk_probe bootstrap
      (EWrite tk_properties_path tk_properties (Ok tt) :: found
       ++ [ERun (tk_cmd_kafka bootstrap bin)
                {| cwd := None; timeout := Some 30; input := None |} (Ok p)])
      ([ ("success", JBool true);
         ("message", JStr "Connection successful!");
         ("topics", JList (map JStr (parse_topics (stdout p))));
         ("topics_count", JInt (length (parse_topics (stdout p)))) ], 200)
| tk_cli_failed found bin p :
    kafka_lookup found (Some bin) -> Py.truthy bin = true ->
    returncode p <> 0%Z ->
    tk_probe bootstrap
      (EWrite tk_properties_path tk_properties (Ok tt) :: found
       ++ [ERun (tk_cmd_kafka bootstrap bin)
                {| cwd := None; timeout := Some 30; input := None |} (Ok p)])
      ([ ("success", JBool false);
         ("error", JStr "Kafka connection failed");
         ("details", JStr (Py.str_or (stderr p) (stdout p))) ], 200)
| tk_split_error found bin e :
    kafka_lookup found bin -> opt_truthy bin = false ->
    bootstrap_host_port bootstrap = Err e ->
    tk_probe bootstrap
      (EWrite tk_properties_path tk_properties (Ok tt) :: found)
      (internal_error e)
| tk_java_file_error found bin host port e :
    kafka_lookup found bin -> opt_truthy bin = false ->
    bootstrap_host_port bootstrap = Ok (host, port) ->
    tk_probe bootstrap
      (EWrite tk_properties_path tk_properties (Ok tt) :: found
       ++ [EWrite tk_java_file_path
                  (App.java_test_code tk_truststore_path tk_keystore_path
                                      tk_password host port) (Err e)])
      (internal_error e)
| tk_handshake found bin host port tail r :
    kafka_lookup found bin -> opt_truthy bin = false ->
    bootstrap_host_port bootstrap = Ok (host, port) ->
    tk_java host port tail r ->
    tk_probe bootstrap
      (EWrite tk_properties_path tk_properties (Ok tt) :: found
       ++ EWrite tk_java_file_path
                 (App.java_test_code tk_truststore_path tk_keystore_path
                                     tk_password host port) (Ok tt)
          :: tail)
      r.

(** The [try] block of [test_kafka] with its handler. *)
Inductive tk_run : list event -> Response -> Prop :=
| tk_no_bootstrap :
    opt_truthy (form req !! "bootstrap") = false ->
    tk_run [] ([ ("success", JBool false);
                 ("error", JStr "Bootstrap server is required") ], 400)
| tk_stage_returns bootstrap evs r :
    form req !! "bootstrap" = Some bootstrap -> Py.truthy bootstrap = true ->
    tk_stage evs (Return r) ->
    tk_run evs r
| tk_stage_raises bootstrap evs e :
    form req !! "bootstrap" = Some bootstrap -> Py.truthy bootstrap = true ->
    tk_stage evs (Raise e) ->
    tk_run evs (internal_error e)
| tk_probes bootstrap evs tail r :
    form req !! "bootstrap" = Some bootstrap -> Py.truthy bootstrap = true ->
    tk_stage evs (Val tt) ->
    tk_probe bootstrap tail r ->
    tk_run (evs ++ tail) r.

End AppProbe.

(** ** Shapes of parser inputs *)

Fixpoint has_char (c : ascii) (s : string) : bool :=
  match s with
  | EmptyString => false
  | String d rest => Ascii.eqb d c || has_char c rest
  end.

Fixpoint count_char (c : ascii) (s : string) : nat :=
  match s with
  | EmptyString => 0
  | String d rest => (if Ascii.eqb d c then 1 else 0) + count_char c rest
  end.

(** A line holds no line feed. *)
Definition is_line (s : string) : Prop := has_char Py.LF s = false.

(** A line that opens a block, one that closes it, and one that does
    neither. *)
Definition begin_line (l : string) : Prop :=
  Py.contains BEGIN_CERTIFICATE l = true.

Definition end_line (l : string) : Prop :=
  Py.contains BEGIN_CERTIFICATE l = false /\ Py.contains END_CERTIFICATE l = true.

Definition plain_line (l : string) : Prop :=
  Py.contains BEGIN_CERTIFICATE l = false /\ Py.contains END_CERTIFICATE l = false.

(** A PEM block as lines: the BEGIN line, the lines of the body, the END
    line. *)
Record pem_block := PemBlock {
  first_line : string;
  body : list string;
  last_line : string
}.

Definition block_lines (b : pem_block) : list string :=
  first_line b :: body b ++ [last_line b].

(** The slice of the input from the BEGIN line to the END line, both
    included. *)
Definition block_text (b : pem_block) : string :=
  Py.join Py.nl (block_lines b).

Definition well_formed (b : pem_block) : Prop :=
  begin_line (first_line b) /\ Forall plain_line (body b) /\ end_line (last_line b).

(** The lines of a chain: lines before the first block, then each block
    followed by the lines between it and the next one. *)
Definition chain_lines (before : list string) (items : list (pem_block * list string))
  : list string :=
  before ++ concat (map (fun it => block_lines (fst it) ++ snd it) items).

Definition chain_text (before : list string) (items : list (pem_block * list string))
  : string :=
  Py.join Py.nl (chain_lines before items).

(** ** Hosts to run the functions on *)

(** A host without state: every call is answered from its arguments. *)
Definition scripted_host (work_dir : string)
  (on_write : string -> string -> result unit)
  (on_read : string -> result string)
  (on_run : list string -> result CompletedProcess)
  (on_which : string -> option string) : Host :=
  {| World := unit;
     os_mkdtemp := fun w => (work_dir, w);
     os_write := fun p c w => (on_write p c, w);
     os_read := fun p w => (on_read p, w);
     os_run := fun argv _ w => (on_run argv, w);
     os_which := fun n w => (on_which n, w);
     os_rmtree := fun _ w => w |}.

Definition exited (code : Z) (out err : string) : CompletedProcess :=
  {| returncode := code; stdout := out; stderr := err |}.

(** Certificates given as the pair of their rendered subject and issuer;
    the PEM text is looked up in a table. *)
Definition table_lib (table : list (string * (string * string))) : Lib :=
  {| utf8_decode := fun b => Ok b;
     Certificate := string * string;
     load_pem_x509_certificate := fun pem =>
       match List.find (fun e => String.eqb (fst e) pem) table with
       | Some e => Ok (snd e)
       | None => Err (Exn ValueError "Unable to load PEM file")
       end;
     subject_rfc4514 := fst;
     issuer_rfc4514 := snd;
     validity_utc := fun _ => Ok ("2024-01-01T00:00:00+00:00", "2034-01-01T00:00:00+00:00");
     validity_naive := fun _ => Ok ("2024-01-01T00:00:00", "2034-01-01T00:00:00") |}.

(** ** Sample inputs *)

Definition sample_block_1 : pem_block :=
  PemBlock "-----BEGIN CERTIFICATE-----" ["MIIBszCCAVmgAwIB"; "AgIUQ0Yw"]
           "-----END CERTIFICATE-----".

Definition sample_block_2 : pem_block :=
  PemBlock "-----BEGIN CERTIFICATE-----" ["MIIC"] "-----END CERTIFICATE-----".

(** The first block decodes to a self-signed certificate, the second to
    one issued by it. *)
Definition sample_lib : Lib :=
  table_lib [ (block_text sample_block_1, ("CN=Root CA", "CN=Root CA"));
              (block_text sample_block_2, ("CN=Issuing CA", "CN=Root CA")) ].

Definition sample_chain : string :=
  chain_text [] [(sample_block_1, []); (sample_block_2, [])].

(** The same two certificates, the self-signed one last. *)
Definition sample_chain_reversed : string :=
  chain_text [] [(sample_block_2, []); (sample_block_1, [])].

(** A host on which everything succeeds: every tool exits with status 0
    and prints nothing, every file can be written and read, and the Kafka
    command-line client is not installed. *)
Definition ok_host : Host :=
  scripted_host "/tmp/tmpk3v0a9xq"
    (fun _ _ => Ok tt)
    (fun path => Ok ("<" +:+ path +:+ ">"))
    (fun _ => Ok (exited 0 EmptyString EmptyString))
    (fun _ => None).

(** The same host, except that [keystore.jks] cannot be read back. *)
Definition read_fault_host : Host :=
  scripted_host "/tmp/tmpk3v0a9xq"
    (fun _ _ => Ok tt)
    (fun path =>
       if String.eqb path "/tmp/tmpk3v0a9xq/keystore.jks"
       then Err (Exn OSError "[Errno 5] Input/output error")
       else Ok ("<" +:+ path +:+ ">"))
    (fun _ => Ok (exited 0 EmptyString EmptyString))
    (fun _ => None).

(** A host whose disk is full: no file can be written. *)
Definition write_fault_host : Host :=
  scripted_host "/tmp/tmpk3v0a9xq"
    (fun _ _ => Err (Exn OSError "[Errno 28] No space left on device"))
    (fun path => Ok ("<" +:+ path +:+ ">"))
    (fun _ => Ok (exited 0 EmptyString EmptyString))
    (fun _ => None).

(** A host on which [keytool] rejects the second certificate. *)
Definition import_fault_host : Host :=
  scripted_host "/tmp/tmpk3v0a9xq"
    (fun _ _ => Ok tt)
    (fun path => Ok ("<" +:+ path +:+ ">"))
    (fun argv =>
       if Py.contains "-ca-1" (Py.join " " argv)
       then Ok (exited 1 EmptyString "keytool error: java.lang.Exception: Input not an X.509 certificate")
       else Ok (exited 0 EmptyString EmptyString))
    (fun _ => None).

(** ** More shapes and runs *)

(** A line on which the scanning loop emits an entry: it holds the END
    marker and not the BEGIN marker. *)
Definition closes_block (l : string) : bool :=
  negb (Py.contains BEGIN_CERTIFICATE l) && Py.contains END_CERTIFICATE l.

(** What an entry of the resetting loop looks like: the text of a block
    whose lines are lines (one BEGIN line, lines without a marker, one
    END line, none of them holding a line feed), or one END line. *)
Definition block_or_end_line (e : string) : Prop :=
  (exists b, well_formed b /\ Forall is_line (block_lines b) /\ e = block_text b)
  \/ (end_line e /\ is_line e).

(** The locals of the resetting loop between two lines. *)
Definition scan_consistent (st : scan) : Prop :=
  Forall block_or_end_line (certs st)
  /\ Forall is_line (current_cert st)
  /\ (if in_cert st
      then exists opener rest,
             current_cert st = opener :: rest
             /\ begin_line opener /\ Forall plain_line rest
      else current_cert st = []).

(** The name of a file of a directory: it holds no separator and is
    neither empty nor one of the names of the directory itself and of its
    parent. *)
Definition file_name (name : string) : Prop :=
  has_char "/" name = false
  /\ name <> EmptyString /\ name <> "." /\ name <> "..".

(** A call that stays inside the work directory: a file written or read
    lies directly in it, that is, its path is [os.path.join] of the work
    directory and a file name; creating or removing a directory does
    not. *)
Definition in_work_dir (work_dir : string) (e : event) : Prop :=
  match e with
  | EWrite path _ _ | ERead path _ =>
      exists name, file_name name /\ path = Py.path_join work_dir name
  | ERun _ _ _ | EWhich _ _ => True
  | EMkdtemp _ | ERmtree _ => False
  end.

(** A call the staging step of the probe of app.py can make: a file
    written or read, a directory created or removed, one of the two
    store tools started with default options. *)
Definition staging_call (e : event) : Prop :=
  (exists path content res, e = EWrite path content res)
  \/ (exists path res, e = ERead path res)
  \/ (exists d, e = EMkdtemp d) \/ (exists d, e = ERmtree d)
  \/ (exists tool rest res,
        e = ERun (tool :: rest) plain res /\ (tool = "keytool" \/ tool = "openssl")).

(** What the decoding loop of [analyze_certificate] keeps of the
    certificate at position [i]. *)
Definition decoded_at (x : Lib) (i : nat) (cert_pem : string)
  : option Main.CertificateInfo :=
  match Main.get_cert_info x cert_pem i with
  | Ok info => Some info
  | Err _ => None
  end.

(** The entry [analyze_cert] of app.py builds for the certificate at
    position [i]. *)
Definition app_entry (x : Lib) (i : nat) (cert_pem : string) : json :=
  JObj ((App.get_cert_info x cert_pem ++ [("index", JInt i)])
        ++ [("is_root", JBool (Nat.eqb i 0))]).

(** *** The runs of [generate_stores] of main.py *)

Section MainGenerate.
Variable x : Lib.
Variables (ca_chain cert key bundle alias password bootstrap work_dir : string).

(** The four uploads decoded in turn. *)
Definition decode4 : result (string * string * string * string) :=
  match utf8_decode x ca_chain with
  | Err e => Err e
  | Ok ca_chain_content =>
      match utf8_decode x cert with
      | Err e => Err e
      | Ok cert_content =>
          match utf8_decode x key with
          | Err e => Err e
          | Ok key_content =>
              match utf8_decode x bundle with
              | Err e => Err e
              | Ok bundle_content =>
                  Ok (ca_chain_content, cert_content, key_content, bundle_content)
              end
          end
      end
  end.

(** [root_cert] when [if not root_cert] lets it through. *)
Definition usable_root (ca_chain_content : string) : option string :=
  match extract_root_cert ca_chain_content with
  | Some root_cert => if Py.truthy root_cert then Some root_cert else None
  | None => None
  end.

Definition no_root_cert : exn :=
  Exn (HTTPException 400) "Could not extract root certificate from CA chain".

Definition mgs_staging (root_cert cert_content key_content bundle_content : string)
  : list (string * string) :=
  [ (Py.path_join work_dir "CA_root.pem", root_cert);
    (Py.path_join work_dir "cert.pem", cert_content);
    (Py.path_join work_dir "key.pem", key_content);
    (Py.path_join work_dir "bundle.pem", bundle_content) ].

Definition mgs_import_cmd : list string :=
  Main.cmd_truststore (Py.path_join work_dir "CA_root.pem") alias
                      (Py.path_join work_dir "truststore.jks") password.

Definition mgs_export_cmd : list string :=
  Main.cmd_p12 (Py.path_join work_dir "cert.pem") (Py.path_join work_dir "key.pem")
               (Py.path_join work_dir "bundle.pem") alias
               (Py.path_join work_dir "keystore.p12") password.

(** The two tools and the two reads of the archive. *)
Inductive mgs_tail (root_cert : string)
  : list event -> result (list (string * string)) -> Prop :=
| mgs_import_error e :
    mgs_tail root_cert [ERun mgs_import_cmd plain (Err e)] (Err e)
| mgs_import_failed p :
    returncode p <> 0%Z ->
    mgs_tail root_cert [ERun mgs_import_cmd plain (Ok p)]
      (Err (Exn (HTTPException 500) ("Truststore creation failed: " +:+ stderr p)))
| mgs_export_error p e :
    returncode p = 0%Z ->
    mgs_tail root_cert
      [ERun mgs_import_cmd plain (Ok p); ERun mgs_export_cmd plain (Err e)] (Err e)
| mgs_export_failed p q :
    returncode p = 0%Z -> returncode q <> 0%Z ->
    mgs_tail root_cert
      [ERun mgs_import_cmd plain (Ok p); ERun mgs_export_cmd plain (Ok q)]
      (Err (Exn (HTTPException 500) ("Keystore creation failed: " +:+ stderr q)))
| mgs_read_truststore_error p q e :
    returncode p = 0%Z -> returncode q = 0%Z ->
    mgs_tail root_cert
      [ ERun mgs_import_cmd plain (Ok p); ERun mgs_export_cmd plain (Ok q);
        ERead (Py.path_join work_dir "truststore.jks") (Err e) ] (Err e)
| mgs_read_keystore_error p q t e :
    returncode p = 0%Z -> returncode q = 0%Z ->
    mgs_tail root_cert
      [ ERun mgs_import_cmd plain (Ok p); ERun mgs_export_cmd plain (Ok q);
        ERead (Py.path_join work_dir "truststore.jks") (Ok t);
        ERead (Py.path_join work_dir "keystore.p12") (Err e) ] (Err e)
| mgs_archived p q t k :
    returncode p = 0%Z -> returncode q = 0%Z ->
    mgs_tail root_cert
      [ ERun mgs_import_cmd plain (Ok p); ERun mgs_export_cmd plain (Ok q);
        ERead (Py.path_join work_dir "truststore.jks") (Ok t);
        ERead (Py.path_join work_dir "keystore.p12") (Ok k) ]
      (Ok [ ("truststore.jks", t);
            ("keystore.p12", k);
            ("client-ssl.properties", Main.properties_content password bootstrap);
            ("CA_root.pem", root_cert) ]).

(** The [try] block of [generate_stores] of main.py. *)
Inductive mgs_run : list event -> result (list (string * string)) -> Prop :=
| mgs_decode_error e :
    decode4 = Err e ->
    mgs_run [] (Err e)
| mgs_no_root cc c k b :
    decode4 = Ok (cc, c, k, b) -> usable_root cc = None ->
    mgs_run [] (Err no_root_cert)
| mgs_stage_error cc c k b root_cert n path content e :
    decode4 = Ok (cc, c, k, b) -> usable_root cc = Some root_cert ->
    mgs_staging root_cert c k b !! n = Some (path, content) ->
    mgs_run (written (take n (mgs_staging root_cert c k b))
             ++ [EWrite path content (Err e)]) (Err e)
| mgs_staged cc c k b root_cert tail r :
    decode4 = Ok (cc, c, k, b) -> usable_root cc = Some root_cert ->
    mgs_tail root_cert tail r ->
    mgs_run (written (mgs_staging root_cert c k b) ++ tail) r.

End MainGenerate.

(** *** More hosts *)

(** [n] times the letter x. *)
Fixpoint filler (n : nat) : string :=
  match n with
  | O => EmptyString
  | S m => String "x"%char (filler m)
  end.

(** A host without the Kafka client on which [javac] succeeds and the
    compiled program exits with status 1 after writing 1000 characters
    to its error stream. *)
Definition java_fault_host : Host :=
  scripted_host "/tmp/tmpk3v0a9xq"
    (fun _ _ => Ok tt)
    (fun path => Ok ("<" +:+ path +:+ ">"))
    (fun argv =>
       match argv with
       | "java" :: _ => Ok (exited 1 EmptyString (filler 1000))
       | _ => Ok (exited 0 EmptyString EmptyString)
       end)
    (fun _ => None).


(** A host on which [openssl] rejects the key. *)
Definition export_fault_host : Host :=
  scripted_host "/tmp/tmpk3v0a9xq"
    (fun _ _ => Ok tt)
    (fun path => Ok ("<" +:+ path +:+ ">"))
    (fun argv =>
       match argv with
       | "openssl" :: _ => Ok (exited 1 EmptyString "No certificate matches private key")
       | _ => Ok (exited 0 EmptyString EmptyString)
       end)
    (fun _ => None).

(** Requests to the probe of app.py. *)
Definition stores_request (bootstrap : string) : Request :=
  {| form := {[ "bootstrap" := bootstrap ]};
     uploads := {[ "truststore" := {| filename := "truststore.jks"; payload := "TRUST" |} ]}
                ∪ {[ "keystore" := {| filename := "keystore.jks"; payload := "KEYS" |} ]} |}.

Definition certs_request (bootstrap : string) : Request :=
  {| form := {[ "bootstrap" := bootstrap ]};
     uploads := {[ "ca_chain" := {| filename := "ca.pem"; payload := sample_chain |} ]}
                ∪ {[ "bundle" := {| filename := "bundle.pem"; payload := "BUNDLE" |} ]}
                ∪ {[ "key" := {| filename := "key.pem"; payload := "KEY" |} ]} |}.


(** * Properties of the chain parser *)

Section Lines.

Lemma split_line (s : string) :
  is_line s -> Py.split Py.LF s = [s].
Proof.
  unfold is_line. induction s as [|c s IH]; simpl; [done|].
  intros H. apply orb_false_iff in H as [Hc Hs].
  rewrite Hc, (IH Hs). done.
Qed.

Lemma split_cons_line (s rest : string) :
  is_line s ->
  Py.split Py.LF (s +:+ String Py.LF rest) = s :: Py.split Py.LF rest.
Proof.
  unfold is_line. induction s as [|c s IH]; simpl.
  - intros _. done.
  - intros H. apply orb_false_iff in H as [Hc Hs].
    rewrite Hc, (IH Hs). done.
Qed.

(** Splitting the text of one or more lines gives the lines back. *)
Lemma split_join (l : string) (ls : list string) :
  Forall is_line (l :: ls) ->
  Py.split Py.LF (Py.join Py.nl (l :: ls)) = l :: ls.
Proof.
  revert l. induction ls as [|l' ls IH]; intros l H.
  - apply split_line. by inversion H.
  - inversion H as [|? ? Hl Hrest]; subst.
    change (Py.join Py.nl (l :: l' :: ls))
      with (l +:+ String Py.LF (Py.join Py.nl (l' :: ls))).
    rewrite split_cons_line by done. by rewrite IH.
Qed.

End Lines.

Section Scan.
Variable reset : bool.

Lemma scan_lines_app (xs ys : list string) (st : scan) :
  fold_left (scan_line reset) (xs ++ ys) st
  = fold_left (scan_line reset) ys (fold_left (scan_line reset) xs st).
Proof. apply fold_left_app. Qed.

(** Outside a block, lines without a marker leave the three locals as
    they are. *)
Lemma scan_plain_outside (ls : list string) (st : scan) :
  Forall plain_line ls -> in_cert st = false ->
  fold_left (scan_line reset) ls st = st.
Proof.
  induction ls as [|l ls IH]; intros H Hout; [done|].
  inversion H as [|? ? [Hb He] Hrest]; subst. simpl.
  unfold scan_line at 2. rewrite Hb, He, Hout. by apply IH.
Qed.

(** Inside a block, they are appended to the block being read. *)
Lemma scan_plain_inside (ls : list string) (cs cur : list string) :
  Forall plain_line ls ->
  fold_left (scan_line reset) ls (Scan cs cur true) = Scan cs (cur ++ ls) true.
Proof.
  revert cur. induction ls as [|l ls IH]; intros cur H; simpl.
  - by rewrite app_nil_r.
  - inversion H as [|? ? [Hb He] Hrest]; subst.
    unfold scan_line at 2. rewrite Hb, He. simpl.
    rewrite IH by done. by rewrite <- app_assoc.
Qed.

(** A well-formed block is emitted whole, whatever came before. *)
Lemma scan_block (b : pem_block) (st : scan) :
  well_formed b ->
  fold_left (scan_line reset) (block_lines b) st
  = Scan (certs st ++ [block_text b])
         (if reset then [] else block_lines b) false.
Proof.
  intros (Hb & Hbody & Hnb & He). unfold block_lines. simpl.
  unfold scan_line at 2. unfold begin_line in Hb. rewrite Hb.
  rewrite scan_lines_app, scan_plain_inside by done. simpl.
  unfold scan_line. rewrite Hnb, He. simpl. done.
Qed.

(** An opened block that no END line closes emits nothing. *)
Lemma scan_unterminated (opener : string) (rest : list string) (st : scan) :
  begin_line opener -> Forall plain_line rest ->
  certs (fold_left (scan_line reset) (opener :: rest) st) = certs st.
Proof.
  intros Hb Hrest. simpl. unfold scan_line at 2.
  unfold begin_line in Hb. rewrite Hb.
  by rewrite scan_plain_inside.
Qed.

Lemma scan_items (items : list (pem_block * list string)) (st : scan) :
  Forall (fun it => well_formed (fst it) /\ Forall plain_line (snd it)) items ->
  in_cert st = false ->
  let st' := fold_left (scan_line reset)
               (concat (map (fun it => block_lines (fst it) ++ snd it) items)) st in
  certs st' = certs st ++ map (fun it => block_text (fst it)) items
  /\ in_cert st' = false.
Proof.
  revert st. induction items as [|[b junk] items IH]; intros st H Hout.
  - simpl. by rewrite app_nil_r.
  - inversion H as [|? ? [Hwf Hjunk] Hrest]; subst.
    cbn [List.map concat fst snd] in *.
    rewrite !scan_lines_app, scan_block by done.
    rewrite (scan_plain_outside junk (Scan _ _ false) Hjunk eq_refl).
    destruct (IH (Scan (certs st ++ [block_text b])
                       (if reset then [] else block_lines b) false) Hrest eq_refl)
      as [Hc Hi].
    cbn [certs] in Hc. rewrite Hc, Hi. by rewrite <- app_assoc.
Qed.

Lemma scan_chain (before : list string) (items : list (pem_block * list string)) :
  Forall plain_line before ->
  Forall (fun it => well_formed (fst it) /\ Forall plain_line (snd it)) items ->
  certs (scan_lines reset (chain_lines before items))
  = map (fun it => block_text (fst it)) items
  /\ in_cert (scan_lines reset (chain_lines before items)) = false.
Proof.
  intros Hb Hitems. unfold scan_lines, chain_lines.
  rewrite scan_lines_app, (scan_plain_outside before scan_init Hb eq_refl).
  by destruct (scan_items items scan_init Hitems eq_refl).
Qed.

(** The scan of a text is the scan of its lines. *)
Lemma scan_text (ls : list string) :
  Forall is_line ls ->
  scan_lines reset (Py.split Py.LF (Py.join Py.nl ls)) = scan_lines reset ls.
Proof.
  destruct ls as [|l ls]; intros H.
  - reflexivity.
  - by rewrite split_join.
Qed.

End Scan.

Section Slices.

Lemma join_cons (l l' : string) (ls : list string) :
  Py.join Py.nl (l :: l' :: ls) = l +:+ Py.nl +:+ Py.join Py.nl (l' :: ls).
Proof. reflexivity. Qed.

Lemma string_app_cons (x : ascii) (a b : string) :
  String x a +:+ b = String x (a +:+ b).
Proof. reflexivity. Qed.

Lemma string_app_assoc (a b c : string) : (a +:+ b) +:+ c = a +:+ (b +:+ c).
Proof.
  induction a as [|x a IH]; [done|].
  rewrite !string_app_cons. f_equal. exact IH.
Qed.

Lemma string_app_nil_r (a : string) : a +:+ EmptyString = a.
Proof.
  induction a as [|x a IH]; [done|].
  rewrite string_app_cons. f_equal. exact IH.
Qed.

Lemma join_app (xs ys : list string) (y : string) :
  xs <> [] ->
  Py.join Py.nl (xs ++ y :: ys)
  = Py.join Py.nl xs +:+ Py.nl +:+ Py.join Py.nl (y :: ys).
Proof.
  induction xs as [|x xs IH]; intros Hne; [done|].
  destruct xs as [|x' xs].
  - reflexivity.
  - change ((x :: x' :: xs) ++ y :: ys) with (x :: (x' :: xs) ++ y :: ys).
    change ((x' :: xs) ++ y :: ys) with (x' :: (xs ++ y :: ys)) at 1.
    rewrite join_cons.
    change (x' :: xs ++ y :: ys) with ((x' :: xs) ++ y :: ys).
    rewrite IH by done. rewrite join_cons.
    by rewrite !string_app_assoc.
Qed.

(** The text of a run of lines is a slice of the text of any list of
    lines that holds the run. *)
Lemma join_slice (xs ms ys : list string) :
  ms <> [] ->
  exists pre post,
    Py.join Py.nl (xs ++ ms ++ ys) = pre +:+ Py.join Py.nl ms +:+ post.
Proof.
  intros Hms. destruct ms as [|m ms]; [done|].
  assert (Hright : exists post,
             Py.join Py.nl ((m :: ms) ++ ys) = Py.join Py.nl (m :: ms) +:+ post).
  { destruct ys as [|y ys].
    - exists EmptyString. by rewrite app_nil_r, string_app_nil_r.
    - exists (Py.nl +:+ Py.join Py.nl (y :: ys)). by apply join_app. }
  destruct Hright as [post Hpost].
  destruct xs as [|x xs].
  - exists EmptyString, post. exact Hpost.
  - exists (Py.join Py.nl (x :: xs) +:+ Py.nl), post.
    change ((m :: ms) ++ ys) with (m :: (ms ++ ys)).
    rewrite join_app by done.
    change (m :: ms ++ ys) with ((m :: ms) ++ ys).
    rewrite Hpost. by rewrite !string_app_assoc.
Qed.

Lemma chain_lines_split (before : list string)
  (items : list (pem_block * list string)) (i : nat) (b : pem_block)
  (junk : list string) :
  items !! i = Some (b, junk) ->
  exists xs ys, chain_lines before items = xs ++ block_lines b ++ ys.
Proof.
  unfold chain_lines. revert before i.
  induction items as [|[b' junk'] items IH]; intros before i Hi; [done|].
  destruct i as [|i]; simpl in Hi.
  - injection Hi as -> ->. cbn [List.map concat fst snd].
    eexists before, _. by rewrite <- app_assoc.
  - destruct (IH (before ++ block_lines b' ++ junk') i Hi) as (xs & ys & E).
    exists xs, ys. rewrite <- E. cbn [List.map concat fst snd].
    by rewrite <- !app_assoc.
Qed.

End Slices.

(** X29: on a text made of N well-formed PEM blocks, with lines that
    hold neither marker allowed before, between and after them,
    [parse_cert_chain] (and the loop of [generate_stores] and
    [extract_root_cert]) returns exactly N entries, in the order of the
    input, the i-th being the text from the i-th BEGIN line to its END
    line, both included, which is a slice of the input. *)
Theorem parse_chain_well_formed_blocks
  (before : list string) (items : list (pem_block * list string)) :
  Forall plain_line before ->
  Forall (fun it => well_formed (fst it) /\ Forall plain_line (snd it)) items ->
  Forall is_line (chain_lines before items) ->
  parse_cert_chain (chain_text before items)
    = map (fun it => block_text (fst it)) items
  /\ extract_certs (chain_text before items)
    = map (fun it => block_text (fst it)) items
  /\ length (parse_cert_chain (chain_text before items)) = length items
  /\ (forall i b junk, items !! i = Some (b, junk) ->
        parse_cert_chain (chain_text before items) !! i = Some (block_text b)
        /\ exists pre post,
             chain_text before items = pre +:+ block_text b +:+ post).
Proof.
  intros Hb Hitems Hlines.
  assert (P : parse_cert_chain (chain_text before items)
              = map (fun it => block_text (fst it)) items).
  { unfold parse_cert_chain, chain_text. rewrite scan_text by done.
    by destruct (scan_chain false before items Hb Hitems). }
  split; [exact P|]. split.
  { unfold extract_certs, chain_text. rewrite scan_text by done.
    by destruct (scan_chain true before items Hb Hitems). }
  split; [by rewrite P, length_map|].
  intros i b junk Hi. split.
  - rewrite P, list_lookup_fmap, Hi. done.
  - destruct (chain_lines_split before items i b junk Hi) as (xs & ys & E).
    unfold chain_text, block_text. rewrite E.
    apply join_slice. done.
Qed.

Lemma parse_chain_well_formed_blocks_witness :
  parse_cert_chain
    (chain_text ["# root first"] [(sample_block_1, ["subject=CN=inter"]); (sample_block_2, [])])
  = [block_text sample_block_1; block_text sample_block_2].
Proof.
  apply (parse_chain_well_formed_blocks
           ["# root first"]
           [(sample_block_1, ["subject=CN=inter"]); (sample_block_2, [])]).
  - repeat constructor.
  - repeat constructor.
  - repeat constructor.
Defined.

(** X30: when the last block of the input is opened by a BEGIN line,
    followed by lines that hold neither marker, the parser returns what
    it returns on the lines before that BEGIN line, so the open block is
    left out; when those lines are a chain of well-formed blocks
    separated by lines that hold neither marker, exactly these
    blocks. *)
Theorem parse_chain_unterminated_block
  (pre : list string) (opener : string) (rest : list string) :
  begin_line opener ->
  Forall plain_line rest ->
  Forall is_line (pre ++ opener :: rest) ->
  parse_cert_chain (Py.join Py.nl (pre ++ opener :: rest))
    = parse_cert_chain (Py.join Py.nl pre)
  /\ extract_certs (Py.join Py.nl (pre ++ opener :: rest))
    = extract_certs (Py.join Py.nl pre)
  /\ (forall before items,
        pre = chain_lines before items ->
        Forall plain_line before ->
        Forall (fun it => well_formed (fst it) /\ Forall plain_line (snd it)) items ->
        parse_cert_chain (Py.join Py.nl (pre ++ opener :: rest))
          = map (fun it => block_text (fst it)) items).
Proof.
  intros Hop Hrest Hlines.
  assert (Hpre : Forall is_line pre) by (by apply Forall_app in Hlines as [? _]).
  assert (P : forall reset,
             certs (scan_lines reset (Py.split Py.LF (Py.join Py.nl (pre ++ opener :: rest))))
             = certs (scan_lines reset (Py.split Py.LF (Py.join Py.nl pre)))).
  { intros reset. rewrite !scan_text by done. unfold scan_lines.
    rewrite scan_lines_app. by apply scan_unterminated. }
  split; [exact (P false)|]. split; [exact (P true)|].
  intros before items -> Hb Hitems.
  unfold parse_cert_chain. rewrite (P false), scan_text by done.
  by destruct (scan_chain false before items Hb Hitems).
Qed.

Lemma parse_chain_unterminated_block_witness :
  parse_cert_chain
    (Py.join Py.nl (block_lines sample_block_1
                    ++ "-----BEGIN CERTIFICATE-----" :: ["MIIC"; "AgIU"]))
  = parse_cert_chain (Py.join Py.nl (block_lines sample_block_1)).
Proof.
  apply (parse_chain_unterminated_block
           (block_lines sample_block_1) "-----BEGIN CERTIFICATE-----" ["MIIC"; "AgIU"]).
  - reflexivity.
  - repeat constructor.
  - repeat constructor.
Defined.

(** C5, evaluated where it fails: a line that holds the END marker and
    lies outside every block is not ignored.  Alone, it is emitted as a
    block by both variants of the loop; after a complete block,
    [parse_cert_chain], which does not empty [current_cert], emits the
    block a second time with the stray line appended. *)
Theorem parse_chain_stray_end_line :
  parse_cert_chain "-----END CERTIFICATE-----" = ["-----END CERTIFICATE-----"]
  /\ extract_certs "-----END CERTIFICATE-----" = ["-----END CERTIFICATE-----"]
  /\ parse_cert_chain
       (Py.join Py.nl (block_lines sample_block_2 ++ ["-----END CERTIFICATE-----"]))
     = [ block_text sample_block_2;
         block_text sample_block_2 +:+ Py.nl +:+ "-----END CERTIFICATE-----" ]
  /\ extract_certs
       (Py.join Py.nl (block_lines sample_block_2 ++ ["-----END CERTIFICATE-----"]))
     = [ block_text sample_block_2; "-----END CERTIFICATE-----" ].
Proof. repeat split; vm_compute; reflexivity. Qed.

(** Lines without a marker that lie outside every block are ignored:
    removing them does not change what the parser returns. *)
Lemma parse_chain_ignores_plain_lines
  (before : list string) (items : list (pem_block * list string)) :
  Forall plain_line before ->
  Forall (fun it => well_formed (fst it) /\ Forall plain_line (snd it)) items ->
  Forall is_line (chain_lines before items) ->
  Forall is_line (chain_lines [] (map (fun it => (fst it, [])) items)) ->
  parse_cert_chain (chain_text before items)
  = parse_cert_chain (chain_text [] (map (fun it => (fst it, [])) items)).
Proof.
  intros Hb Hitems Hl Hl'.
  unfold parse_cert_chain, chain_text. rewrite !scan_text by done.
  destruct (scan_chain false before items Hb Hitems) as [-> _].
  destruct (scan_chain false [] (map (fun it => (fst it, [])) items)) as [-> _].
  - constructor.
  - apply Forall_forall. intros it Hin. apply list_elem_of_fmap in Hin.
    destruct Hin as (it' & -> & Hin'). simpl. split; [|constructor].
    rewrite Forall_forall in Hitems. by apply Hitems.
  - by rewrite map_map.
Qed.


(** * Properties of the metadata extractor *)

Section Extractor.
Variable x : Lib.

(** What a successful [get_cert_info] holds. *)
Lemma get_cert_info_ok (cert_pem : string) (i : nat) (info : Main.CertificateInfo) :
  Main.get_cert_info x cert_pem i = Ok info ->
  exists cert,
    load_pem_x509_certificate x cert_pem = Ok cert
    /\ Main.index info = i
    /\ Main.subject info = subject_rfc4514 x cert
    /\ Main.issuer info = issuer_rfc4514 x cert
    /\ Main.is_root info = String.eqb (subject_rfc4514 x cert) (issuer_rfc4514 x cert).
Proof.
  unfold Main.get_cert_info.
  destruct (load_pem_x509_certificate x cert_pem) as [cert|e]; [|discriminate].
  destruct (validity_utc x cert) as [[nb na]|e]; [|discriminate].
  intros [= <-]. exists cert. simpl. repeat split; reflexivity.
Qed.



End Extractor.



(** The loop of [analyze_cert] in app.py sets [is_root] by position, not
    by comparing subject and issuer: the two agree on a chain whose
    self-signed certificate comes first and differ when it comes last. *)
Lemma app_analyze_cert_flags_by_position :
  (forall (x : Lib) (certs : list string) (i : nat) (acc : list json),
     App.analyze_loop x i certs acc
     = acc ++ imap (fun k pem =>
                      JObj ((App.get_cert_info x pem ++ [("index", JInt (i + k))])
                            ++ [("is_root", JBool (Nat.eqb (i + k) 0))])) certs)
  /\ map Main.is_root
       (Main.certificates (Main.analyze_certificate sample_lib sample_chain_reversed))
     = [false; true]
  /\ (exists first second,
        App.analyze_cert sample_lib
          {| form := ∅;
             uploads := {[ "cert" := {| filename := "chain.pem";
                                        payload := sample_chain_reversed |} ]} |}
        = ([("success", JBool true); ("certificates", JList [JObj first; JObj second])], 200)
        /\ last first = Some ("is_root", JBool true)
        /\ last second = Some ("is_root", JBool false)).
Proof.
  split; [|split].
  - intros x certs. induction certs as [|pem0 certs IH]; intros i acc.
    + simpl. by rewrite app_nil_r.
    + simpl. rewrite IH, <- app_assoc, Nat.add_0_r. simpl.
      do 2 f_equal. apply imap_ext. intros k pem _. simpl.
      by replace (i + S k) with (S (i + k)) by lia.
  - vm_compute. reflexivity.
  - eexists _, _. split; [vm_compute; reflexivity|]. split; reflexivity.
Qed.


(** * Properties of the store assembly pipeline *)

Section Traces.
Context {h : Host}.

Lemma history_log (e : event) (w : World h) (s : Sys h) :
  history (log e w s) = history s ++ [e].
Proof. reflexivity. Qed.

Lemma history_rmtree (d : string) (s : Sys h) :
  history (sys_rmtree d s) = history s ++ [ERmtree d].
Proof. reflexivity. Qed.

Lemma runs_app (a b : list event) : runs (a ++ b) = runs a ++ runs b.
Proof. apply omap_app. Qed.

Lemma reads_app (a b : list event) : reads (a ++ b) = reads a ++ reads b.
Proof. apply omap_app. Qed.

(** Inversion of the calls to the host at the head of a block. *)
Section Steps.
Context {L R A : Type}.
Implicit Types (s : Sys h) (l : L) (out : ctl R A * (Sys h * L)).
Local Open Scope py_scope.

Lemma write_then path content (k : unit -> M h L R A) s l out :
  bind (sys_write path content) k (s, l) = out ->
  (exists w, k tt (log (EWrite path content (Ok tt)) w s, l) = out)
  \/ (exists e w, out = (Raise e, (log (EWrite path content (Err e)) w s, l))).
Proof.
  unfold bind, sys_write.
  destruct (os_write h path content (world s)) as [[[]|e] w]; intros <-; eauto.
Qed.

Lemma run_then argv kw (k : CompletedProcess -> M h L R A) s l out :
  bind (sys_run argv kw) k (s, l) = out ->
  (exists p w, k p (log (ERun argv kw (Ok p)) w s, l) = out)
  \/ (exists e w, out = (Raise e, (log (ERun argv kw (Err e)) w s, l))).
Proof.
  unfold bind, sys_run.
  destruct (os_run h argv kw (world s)) as [[p|e] w]; intros <-; eauto.
Qed.

Lemma read_then path (k : string -> M h L R A) s l out :
  bind (sys_read path) k (s, l) = out ->
  (exists b w, k b (log (ERead path (Ok b)) w s, l) = out)
  \/ (exists e w, out = (Raise e, (log (ERead path (Err e)) w s, l))).
Proof.
  unfold bind, sys_read.
  destruct (os_read h path (world s)) as [[b|e] w]; intros <-; eauto.
Qed.

Lemma which_then name (k : option string -> M h L R A) s l out :
  bind (sys_which name) k (s, l) = out ->
  exists r w, k r (log (EWhich name r) w s, l) = out.
Proof.
  unfold bind, sys_which.
  destruct (os_which h name (world s)) as [r w]; intros <-; eauto.
Qed.

Lemma modify_then (f : L -> L) (k : unit -> M h L R A) s l :
  bind (modify f) k (s, l) = k tt (s, f l).
Proof. reflexivity. Qed.

Lemma lift_then {B} (v : result B) (k : B -> M h L R A) s l out :
  bind (lift_result v) k (s, l) = out ->
  (exists b, v = Ok b /\ k b (s, l) = out)
  \/ (exists e, v = Err e /\ out = (Raise e, (s, l))).
Proof. destruct v as [b|e]; intros <-; eauto. Qed.

End Steps.

End Traces.

Section Pipeline.
Context {h : Host}.
Variables (ca_chain bundle key alias truststore_password keystore_password : string).

Abbreviation import_events := (App.import_events alias truststore_password).
Abbreviation import_cmd := (App.import_cmd alias truststore_password).

(** Step 1 from position [i] on: the imports that exit with zero, then
    how the loop ends. *)
Lemma import_certs_run (work_dir : string) (certs : list string) :
  forall (i : nat) (s s' : Sys h) (r r' : App.Results) (c : ctl unit unit),
  App.import_certs work_dir alias truststore_password i certs (s, r) = (c, (s', r')) ->
  exists k procs tail,
    history s' = history s ++ import_events work_dir i (take k certs) procs ++ tail
    /\ length procs = k /\ Forall App.zero_exit procs
    /\ match c with
       | Val _ => k = length certs /\ tail = [] /\ r' = r
       | Return _ =>
           exists cert_pem p,
             certs !! k = Some cert_pem
             /\ tail = [ EWrite (App.cert_temp_path work_dir (i + k)) cert_pem (Ok tt);
                         ERun (import_cmd work_dir (i + k)) plain (Ok p) ]
             /\ returncode p <> 0%Z
             /\ r' = App.add_error ("Truststore creation failed for cert "
                                    +:+ Py.str_nat (i + k) +:+ ": " +:+ stderr p) r
       | Raise e =>
           exists cert_pem,
             certs !! k = Some cert_pem /\ r' = r
             /\ (tail = [ EWrite (App.cert_temp_path work_dir (i + k)) cert_pem (Err e) ]
                 \/ tail = [ EWrite (App.cert_temp_path work_dir (i + k)) cert_pem (Ok tt);
                             ERun (import_cmd work_dir (i + k)) plain (Err e) ])
       end.
Proof.
  assert (Hist : forall e1 w1 e2 w2 (s : Sys h),
             history (log e2 w2 (log e1 w1 s)) = history s ++ [] ++ [e1; e2]).
  { intros. rewrite !history_log, <- app_assoc. done. }
  induction certs as [|cert_pem rest IH]; intros i s s' r r' c H.
  - cbn in H. injection H as <- <- <-. exists 0, [], []. simpl.
    rewrite app_nil_r. done.
  - simpl in H. unfold bind, sys_write, sys_run in H.
    destruct (os_write h (App.cert_temp_path work_dir i) cert_pem (world s))
      as [[[]|e] w1] eqn:Hw.
    + cbn [world log] in H.
      match type of H with context [os_run h ?a ?k ?w] =>
        destruct (os_run h a k w) as [[p|e] w2] eqn:Hr end.
      * destruct (negb (returncode p =? 0)%Z) eqn:Hrc.
        -- cbn in H. injection H as <- <- <-.
           exists 0, [], [ EWrite (App.cert_temp_path work_dir i) cert_pem (Ok tt);
                           ERun (import_cmd work_dir i) plain (Ok p) ].
           rewrite Nat.add_0_r.
           split; [apply Hist|]. split; [done|]. split; [constructor|].
           exists cert_pem, p. split_and!; try done.
           apply negb_true_iff, Z.eqb_neq in Hrc. done.
        -- apply IH in H as (k & procs & tail & Hh & Hlen & Hz & Hc).
           exists (S k), (p :: procs), tail.
           rewrite Hh, !history_log. split; [|split; [simpl; lia|split]].
           ++ simpl. rewrite <- !app_assoc. done.
           ++ constructor; [|done]. apply negb_false_iff, Z.eqb_eq in Hrc. done.
           ++ replace (i + S k) with (S i + k) by lia.
              destruct c; [|exact Hc|exact Hc].
              destruct Hc as (Hk & Ht & Hr'). simpl. by rewrite Hk.
      * injection H as <- <- <-.
        exists 0, [], [ EWrite (App.cert_temp_path work_dir i) cert_pem (Ok tt);
                        ERun (import_cmd work_dir i) plain (Err e) ].
        rewrite Nat.add_0_r.
           split; [apply Hist|]. split; [done|]. split; [constructor|].
        exists cert_pem. split_and!; try done. by right.
    + injection H as <- <- <-.
      exists 0, [], [ EWrite (App.cert_temp_path work_dir i) cert_pem (Err e) ].
      rewrite Nat.add_0_r.
      split; [by rewrite history_log|]. split; [done|]. split; [constructor|].
      exists cert_pem. split_and!; try done. by left.
Qed.


Local Ltac same_events :=
  rewrite ?history_rmtree, ?history_log, <- ?app_assoc;
  cbn [written App.staging firstn List.map fst snd app];
  reflexivity.

(** Every run of [generate_stores] is one of the runs of [gs_run],
    between the creation of the work directory and its removal. *)
Theorem generate_stores_runs (s0 : Sys h) :
  let work_dir := fst (os_mkdtemp h (world s0)) in
  let out := App.generate_stores ca_chain bundle key alias truststore_password
                                 keystore_password s0 in
  exists body,
    history (snd out) = history s0 ++ EMkdtemp work_dir :: body ++ [ERmtree work_dir]
    /\ App.gs_run ca_chain bundle key alias truststore_password keystore_password
                  work_dir body (fst out).
Proof.
  unfold App.generate_stores, sys_mkdtemp.
  destruct (os_mkdtemp h (world s0)) as [wd w0]. cbn [fst].
  unfold try_finally, try_except.
  match goal with |- context [App.generate_stores_body ?a ?b ?c ?d ?e ?f ?g ?st] =>
    destruct (App.generate_stores_body a b c d e f g st) as [c0 [s1 r1]] eqn:Hbody end.
  unfold App.generate_stores_body in Hbody.
  (* staging the three inputs *)
  apply write_then in Hbody as [[w1 Hbody]|(e & w & [= -> -> ->])]; cycle 1.
  { cbn [modify fst snd]. eexists. split; cycle 1.
    - by apply App.gs_stage_error with (k := 0).
    - same_events. }
  apply write_then in Hbody as [[w2 Hbody]|(e & w & [= -> -> ->])]; cycle 1.
  { cbn [modify fst snd]. eexists. split; cycle 1.
    - by apply App.gs_stage_error with (k := 1).
    - same_events. }
  apply write_then in Hbody as [[w3 Hbody]|(e & w & [= -> -> ->])]; cycle 1.
  { cbn [modify fst snd]. eexists. split; cycle 1.
    - by apply App.gs_stage_error with (k := 2).
    - same_events. }
  destruct (extract_certs ca_chain) as [|cert0 rest0] eqn:Hcerts.
  { rewrite modify_then in Hbody. injection Hbody as <- <- <-.
    cbn [modify fst snd]. eexists. split; cycle 1.
    - by apply App.gs_no_certs.
    - same_events. }
  (* step 1 *)
  rewrite <- Hcerts in Hbody.
  assert (Hne : extract_certs ca_chain <> []) by (by rewrite Hcerts).
  clear Hcerts cert0 rest0.
  unfold bind at 1 in Hbody.
  match type of Hbody with context [App.import_certs ?a ?b ?c ?d ?e ?st] =>
    destruct (App.import_certs a b c d e st) as [c' [s' r']] eqn:Hloop end.
  apply import_certs_run in Hloop as (k & procs & tail & Hh & Hlen & Hz & Hc).
  rewrite !history_log, <- !app_assoc in Hh.
  cbn [Nat.add] in Hc.
  destruct c' as [[]|[]|e].
  2:{ destruct Hc as (cert_pem & p & Hk & -> & Hrc & ->).
      injection Hbody as <- <- <-.
      cbn [modify fst snd]. eexists. split; cycle 1.
      - by apply App.gs_import_nonzero with (cert_pem := cert_pem) (procs := procs).
      - rewrite history_rmtree, Hh. same_events. }
  2:{ destruct Hc as (cert_pem & Hk & -> & [-> | ->]);
        injection Hbody as <- <- <-; cbn [modify fst snd]; eexists.
      - split; cycle 1.
        + by apply App.gs_import_write_error with (cert_pem := cert_pem) (procs := procs).
        + rewrite history_rmtree, Hh. same_events.
      - split; cycle 1.
        + by apply App.gs_import_run_error with (cert_pem := cert_pem) (procs := procs).
        + rewrite history_rmtree, Hh. same_events. }
  destruct Hc as (Hk & -> & ->). subst k.
  rewrite Hk, firstn_all, app_nil_r in Hh.
  assert (Tail : exists tail,
             history s1 = history s' ++ tail
             /\ App.gs_tail ca_chain bundle key alias truststore_password
                  keystore_password wd tail
                  (match c0 with
                   | Raise e => App.add_error (exn_text e) r1
                   | _ => r1
                   end)).
  { (* steps 2 and 3, then the reading of the stores *)
    rewrite modify_then in Hbody.
    apply run_then in Hbody as [(p & w4 & Hbody)|(e & w & [= -> -> ->])]; cycle 1.
    { eexists. split; [by rewrite history_log|]. apply App.gs_export_error. }
    destruct (negb (returncode p =? 0)%Z) eqn:Hp.
    { rewrite modify_then in Hbody. injection Hbody as <- <- <-.
      eexists. split; [by rewrite history_log|].
      apply App.gs_export_nonzero. by apply negb_true_iff, Z.eqb_neq in Hp. }
    apply negb_false_iff, Z.eqb_eq in Hp.
    rewrite modify_then in Hbody.
    apply run_then in Hbody as [(q & w5 & Hbody)|(e & w & [= -> -> ->])]; cycle 1.
    { eexists. split; [by rewrite !history_log, <- !app_assoc|].
      by apply App.gs_convert_error. }
    destruct (negb (returncode q =? 0)%Z) eqn:Hq.
    { rewrite modify_then in Hbody. injection Hbody as <- <- <-.
      eexists. split; [by rewrite !history_log, <- !app_assoc|].
      apply App.gs_convert_nonzero; [done|]. by apply negb_true_iff, Z.eqb_neq in Hq. }
    apply negb_false_iff, Z.eqb_eq in Hq.
    rewrite modify_then in Hbody.
    apply read_then in Hbody as [(t & w6 & Hbody)|(e & w & [= -> -> ->])]; cycle 1.
    { eexists. split; [by rewrite !history_log, <- !app_assoc|].
      by apply App.gs_read_truststore_error. }
    rewrite modify_then in Hbody.
    apply read_then in Hbody as [(kj & w7 & Hbody)|(e & w & [= -> -> ->])]; cycle 1.
    { eexists. split; [by rewrite !history_log, <- !app_assoc|].
      by apply App.gs_read_jks_error. }
    rewrite modify_then in Hbody.
    apply read_then in Hbody as [(b & w8 & Hbody)|(e & w & [= -> -> ->])]; cycle 1.
    { eexists. split; [by rewrite !history_log, <- !app_assoc|].
      by apply App.gs_read_p12_error. }
    rewrite !modify_then in Hbody. injection Hbody as <- <- <-.
    eexists. split; [by rewrite !history_log, <- !app_assoc|].
    by apply App.gs_complete. }
  destruct Tail as (tl & Htl & Hgs).
  exists (written (App.staging ca_chain bundle key wd)
          ++ import_events wd 0 (extract_certs ca_chain) procs ++ tl).
  split.
  - destruct c0 as [[]|[]|e]; cbn [modify fst snd];
      rewrite history_rmtree, Htl, Hh; same_events.
  - apply App.gs_after_import; try done.
    destruct c0 as [[]|[]|e]; exact Hgs.
Qed.

End Pipeline.

(** ** What a run shows: its sub-processes and its reads *)

Section Projections.

Lemma runs_nil : runs [] = [].
Proof. reflexivity. Qed.

Lemma runs_run argv kw r (l : list event) :
  runs (ERun argv kw r :: l) = (argv, r) :: runs l.
Proof. reflexivity. Qed.

Lemma runs_write path content r (l : list event) :
  runs (EWrite path content r :: l) = runs l.
Proof. reflexivity. Qed.

Lemma runs_read path r (l : list event) : runs (ERead path r :: l) = runs l.
Proof. reflexivity. Qed.

Lemma runs_mkdtemp d (l : list event) : runs (EMkdtemp d :: l) = runs l.
Proof. reflexivity. Qed.

Lemma runs_rmtree d (l : list event) : runs (ERmtree d :: l) = runs l.
Proof. reflexivity. Qed.

Lemma runs_which n r (l : list event) : runs (EWhich n r :: l) = runs l.
Proof. reflexivity. Qed.

Lemma reads_nil : reads [] = [].
Proof. reflexivity. Qed.

Lemma reads_read path r (l : list event) :
  reads (ERead path r :: l) = (path, r) :: reads l.
Proof. reflexivity. Qed.

Lemma reads_run argv kw r (l : list event) : reads (ERun argv kw r :: l) = reads l.
Proof. reflexivity. Qed.

Lemma reads_write path content r (l : list event) :
  reads (EWrite path content r :: l) = reads l.
Proof. reflexivity. Qed.

Lemma reads_mkdtemp d (l : list event) : reads (EMkdtemp d :: l) = reads l.
Proof. reflexivity. Qed.

Lemma reads_rmtree d (l : list event) : reads (ERmtree d :: l) = reads l.
Proof. reflexivity. Qed.

Lemma reads_which n r (l : list event) : reads (EWhich n r :: l) = reads l.
Proof. reflexivity. Qed.

Lemma runs_written (l : list (string * string)) : runs (written l) = [].
Proof. induction l as [|[p c] l IH]; [done|]. simpl. exact IH. Qed.

Lemma reads_written (l : list (string * string)) : reads (written l) = [].
Proof. induction l as [|[p c] l IH]; [done|]. simpl. exact IH. Qed.

Variables (alias truststore_password work_dir : string).

Lemma runs_import_events (certs : list string) :
  forall (i : nat) (procs : list CompletedProcess),
  runs (App.import_events alias truststore_password work_dir i certs procs)
  = zip (App.import_cmds alias truststore_password work_dir i certs) (map Ok procs).
Proof.
  induction certs as [|c certs IH]; intros i [|p procs]; try done.
  cbn [App.import_events App.import_cmds List.map].
  rewrite runs_write, runs_run, IH. done.
Qed.

Lemma reads_import_events (certs : list string) :
  forall (i : nat) (procs : list CompletedProcess),
  reads (App.import_events alias truststore_password work_dir i certs procs) = [].
Proof.
  induction certs as [|c certs IH]; intros i [|p procs]; try done.
  cbn [App.import_events]. rewrite reads_write, reads_run. apply IH.
Qed.

Lemma zip_exit_zero (cmds : list (list string)) (procs : list CompletedProcess) :
  Forall App.zero_exit procs ->
  Forall (fun c : list string * result CompletedProcess => exit_zero (snd c))
         (zip cmds (map Ok procs)).
Proof.
  intros H. revert cmds. induction H as [|p procs Hp _ IH]; intros [|c cmds];
    simpl; constructor; auto.
Qed.

Lemma import_events_write (certs : list string) :
  forall (i j : nat) (procs : list CompletedProcess) (cert_pem : string),
  j < length procs -> certs !! j = Some cert_pem ->
  EWrite (App.cert_temp_path work_dir (i + j)) cert_pem (Ok tt)
  ∈ App.import_events alias truststore_password work_dir i certs procs.
Proof.
  induction certs as [|c certs IH]; intros i j [|p procs] cert_pem Hj Hc;
    simpl in *; try done; try lia.
  destruct j as [|j].
  - injection Hc as ->. rewrite Nat.add_0_r. apply list_elem_of_here.
  - do 2 apply list_elem_of_further.
    replace (i + S j) with (S i + j) by lia. apply IH; [lia|done].
Qed.

Section Zipped.
Variables (cmds : list (list string)) (procs : list CompletedProcess) (k : nat).
Hypothesis Hk : k <= length cmds.
Hypothesis Hl : length procs = k.

Lemma length_zipped : length (zip (take k cmds) (map Ok procs)) = k.
Proof. rewrite length_zip_with, length_take, length_map. lia. Qed.

Lemma fst_zipped : map fst (zip (take k cmds) (map Ok procs)) = take k cmds.
Proof. apply fst_zip. rewrite length_take, length_map. lia. Qed.

Lemma lookup_zipped (j : nat) (argv : list string) (res : result CompletedProcess) :
  zip (take k cmds) (map Ok procs) !! j = Some (argv, res) ->
  exists p, procs !! j = Some p /\ res = Ok p.
Proof.
  intros H. apply lookup_zip_with_Some in H as (a & b & [= -> ->] & _ & Hb).
  apply list_lookup_fmap_Some in Hb as (p & -> & Hp). eauto.
Qed.

Lemma take_prefix_app (rest : list (list string)) :
  take k cmds `prefix_of` cmds ++ rest.
Proof.
  exists (drop k cmds ++ rest). by rewrite app_assoc, take_drop.
Qed.

End Zipped.

Lemma length_import_cmds (certs : list string) (i : nat) :
  length (App.import_cmds alias truststore_password work_dir i certs) = length certs.
Proof.
  revert i. induction certs as [|c certs IH]; intros i; [done|].
  simpl. by rewrite IH.
Qed.

Lemma import_cmds_lookup (certs : list string) :
  forall (i k : nat), k < length certs ->
  App.import_cmds alias truststore_password work_dir i certs !! k
  = Some (App.import_cmd alias truststore_password work_dir (i + k)).
Proof.
  induction certs as [|c certs IH]; intros i k Hk; simpl in Hk; [lia|].
  destruct k as [|k]; simpl.
  - by rewrite Nat.add_0_r.
  - rewrite IH by lia. by replace (i + S k) with (S i + k) by lia.
Qed.

Lemma import_cmds_take (certs : list string) :
  forall (i k : nat),
  App.import_cmds alias truststore_password work_dir i (take k certs)
  = take k (App.import_cmds alias truststore_password work_dir i certs).
Proof.
  induction certs as [|c certs IH]; intros i [|k]; try done.
  simpl. by rewrite IH.
Qed.

End Projections.

#[local] Set Warnings "-implicit-create-rewrite-hint-db".
#[local] Hint Rewrite @runs_app @reads_app runs_nil reads_nil
  runs_run runs_write runs_read runs_mkdtemp runs_rmtree runs_which
  reads_read reads_run reads_write reads_mkdtemp reads_rmtree reads_which
  runs_written reads_written runs_import_events reads_import_events : trace.

Section Runs.
Context {h : Host}.
Variables (ca_chain bundle key alias truststore_password keystore_password : string).
Variable w : World h.

Let work_dir : string := fst (os_mkdtemp h w).
Let out : App.Results * Sys h :=
  App.generate_stores ca_chain bundle key alias truststore_password
                      keystore_password (boot w).
Let certs : list string := extract_certs ca_chain.

Lemma generate_stores_boot :
  exists body,
    history (snd out) = EMkdtemp work_dir :: body ++ [ERmtree work_dir]
    /\ App.gs_run ca_chain bundle key alias truststore_password keystore_password
                  work_dir body (fst out).
Proof.
  exact (generate_stores_runs ca_chain bundle key alias truststore_password
                              keystore_password (boot w)).
Qed.

Lemma length_pipeline_cmds :
  length (App.pipeline_cmds alias truststore_password keystore_password work_dir certs)
  = length certs + 2.
Proof.
  unfold App.pipeline_cmds. by rewrite length_app, length_import_cmds.
Qed.

(** X20: [generate_stores] of app.py sets [success] exactly when every
    sub-process of the pipeline (one import per certificate of the chain,
    then the export and the conversion of the key store) ran and exited
    with zero and the three stores were read back from the work
    directory. *)
Lemma generate_stores_success_iff :
  App.success (fst out) = true <->
    map fst (runs (history (snd out)))
      = App.pipeline_cmds alias truststore_password keystore_password work_dir certs
    /\ Forall (fun c => exit_zero (snd c)) (runs (history (snd out)))
    /\ exists t k b,
         reads (history (snd out))
         = [ (App.truststore_path work_dir, Ok t);
             (App.keystore_jks_path work_dir, Ok k);
             (App.keystore_p12_path work_dir, Ok b) ].
Proof.
  destruct generate_stores_boot as (body & -> & Hgs).
  autorewrite with trace. rewrite !app_nil_r.
  destruct Hgs as [| | | | |procs tail r Hne Hlen Hz Htail].
  1-5: autorewrite with trace; (split; [discriminate|]);
       intros (_ & _ & t & k' & b & Hr); discriminate Hr.
  destruct Htail; autorewrite with trace; cbn [app].
  1-7: (split; [discriminate|]);
       intros (_ & _ & t' & k' & b' & Hr); discriminate Hr.
  split; [intros _|reflexivity].
  split; [|split].
  - rewrite map_app, fst_zip by (rewrite length_map, length_import_cmds; lia).
    reflexivity.
  - apply Forall_app. split; [by apply zip_exit_zero|].
    repeat constructor; done.
  - by exists t, k, b.
Qed.

(** X21: as long as [generate_stores] of app.py has read no store back
    from the work directory, its result holds no artifact. *)
Lemma generate_stores_no_artifact_before_read_back :
  (forall path b, (path, Ok b) ∉ reads (history (snd out))) ->
  App.files (fst out) = ∅.
Proof.
  destruct generate_stores_boot as (body & -> & Hgs).
  autorewrite with trace. rewrite !app_nil_r.
  destruct Hgs as [| | | | |procs tail r Hne Hlen Hz Htail]; try reflexivity.
  destruct Htail; try reflexivity; autorewrite with trace; cbn [app];
    intros Hno; exfalso; eapply Hno; apply list_elem_of_here.
Qed.

(** A run on a chain without a certificate block: nothing is started and
    nothing is read, whatever the host does. *)
Lemma generate_stores_no_certs_run :
  certs = [] ->
  App.success (fst out) = false
  /\ App.files (fst out) = ∅
  /\ App.info (fst out) = []
  /\ runs (history (snd out)) = []
  /\ reads (history (snd out)) = []
  /\ ((forall path content e, EWrite path content (Err e) ∉ history (snd out)) ->
      App.errors (fst out) = ["Could not extract certificates from CA chain"])
  /\ (App.errors (fst out) = ["Could not extract certificates from CA chain"]
      \/ exists path content e,
           EWrite path content (Err e) ∈ history (snd out)
           /\ App.errors (fst out) = [exn_text e]).
Proof.
  intros Hnone. unfold certs in Hnone.
  destruct generate_stores_boot as (body & -> & Hgs).
  autorewrite with trace. rewrite !app_nil_r.
  destruct Hgs as [k path content e Hk| |k c procs p Hk|k c procs e Hk|k c procs e Hk
                  |procs tail r Hne Hlen Hz Htail].
  - autorewrite with trace. split_and!; try reflexivity.
    + intros Hno. exfalso. apply (Hno path content e).
      apply list_elem_of_further, elem_of_app. left.
      apply elem_of_app. right. apply list_elem_of_here.
    + right. exists path, content, e. split; [|reflexivity].
      apply list_elem_of_further, elem_of_app. left.
      apply elem_of_app. right. apply list_elem_of_here.
  - autorewrite with trace. split_and!; try reflexivity. by left.
  - rewrite Hnone in Hk. discriminate Hk.
  - rewrite Hnone in Hk. discriminate Hk.
  - rewrite Hnone in Hk. discriminate Hk.
  - contradiction.
Qed.

(** The sub-processes of a run: [k] imports that exit with zero, then
    how the run goes on. *)
Lemma generate_stores_imports :
  exists k procs extra,
    runs (history (snd out))
    = zip (take k (App.import_cmds alias truststore_password work_dir 0 certs))
          (map Ok procs) ++ extra
    /\ length procs = k /\ k <= length certs /\ Forall App.zero_exit procs
    /\ (forall j cert_pem, j < k -> certs !! j = Some cert_pem ->
          EWrite (App.cert_temp_path work_dir j) cert_pem (Ok tt)
          ∈ history (snd out))
    /\ ((k = length certs /\ certs <> []
         /\ head (App.info (fst out)) = Some (App.count_msg certs)
         /\ extra <> []
         /\ map fst extra `prefix_of`
              [ App.export_cmd alias keystore_password work_dir;
                App.convert_cmd alias keystore_password work_dir ])
        \/ (exists cert_pem p,
              certs !! k = Some cert_pem
              /\ extra = [(App.import_cmd alias truststore_password work_dir k, Ok p)]
              /\ returncode p <> 0%Z
              /\ EWrite (App.cert_temp_path work_dir k) cert_pem (Ok tt)
                 ∈ history (snd out)
              /\ fst out = App.add_error
                             ("Truststore creation failed for cert "
                              +:+ Py.str_nat k +:+ ": " +:+ stderr p)
                             App.results_init)
        \/ (exists cert_pem e,
              certs !! k = Some cert_pem
              /\ extra = [(App.import_cmd alias truststore_password work_dir k, Err e)]
              /\ EWrite (App.cert_temp_path work_dir k) cert_pem (Ok tt)
                 ∈ history (snd out)
              /\ fst out = App.add_error (exn_text e) App.results_init)
        \/ (exists path content e,
              extra = [] /\ (certs = [] \/ k < length certs)
              /\ EWrite path content (Err e) ∈ history (snd out)
              /\ fst out = App.add_error (exn_text e) App.results_init)
        \/ (certs = [] /\ k = 0 /\ extra = []
            /\ fst out = App.add_error "Could not extract certificates from CA chain"
                                       App.results_init)).
Proof.
  destruct generate_stores_boot as (body & -> & Hgs).
  autorewrite with trace. rewrite !app_nil_r. fold certs in Hgs |- *.
  assert (Hin : forall (mid : list event) e,
             e ∈ mid -> e ∈ EMkdtemp work_dir :: (written
               (App.staging ca_chain bundle key work_dir) ++ mid)
                              ++ [ERmtree work_dir]).
  { intros mid e He. apply list_elem_of_further, elem_of_app. left.
    apply elem_of_app. by right. }
  assert (Hwr : forall j k cert_pem procs post,
             length procs = k -> j < k -> take k certs !! j = Some cert_pem ->
             EWrite (App.cert_temp_path work_dir j) cert_pem (Ok tt)
             ∈ EMkdtemp work_dir :: (written
                 (App.staging ca_chain bundle key work_dir)
                 ++ App.import_events alias truststore_password work_dir 0
                      (take k certs) procs ++ post) ++ [ERmtree work_dir]).
  { intros j k cert_pem procs post Hl Hj Hc. apply Hin.
    apply elem_of_app. left.
    apply (import_events_write alias truststore_password work_dir _ 0 j);
      [lia|done]. }
  destruct Hgs as [k path content e Hk|Hnone|k c procs p Hk Hl Hz Hp
                  |k c procs e Hk Hl Hz|k c procs e Hk Hl Hz
                  |procs tail r Hne Hlen Hz Htail].
  - exists 0, [], []. autorewrite with trace.
    split_and!; try done; try lia; try (by constructor); try (intros; lia).
    do 3 right. left. exists path, content, e. split_and!; try done.
    + destruct certs; [by left|right; simpl; lia].
    + apply list_elem_of_further, elem_of_app. left.
      apply elem_of_app. right. apply list_elem_of_here.
  - exists 0, [], []. autorewrite with trace. fold certs in Hnone.
    split_and!; try done; try lia; try (by constructor); try (intros; lia).
    do 4 right. done.
  - fold certs in Hk. pose proof (lookup_lt_Some _ _ _ Hk) as Hlt.
    exists k, procs, [(App.import_cmd alias truststore_password work_dir k, Ok p)].
    autorewrite with trace. rewrite import_cmds_take. cbn [app].
    split_and!; try done; try lia.
    + intros j cert_pem Hj Hc. apply Hwr; try done.
      by rewrite lookup_take_lt.
    + right. left. exists c, p. split_and!; try done.
      apply Hin. apply elem_of_app. right. apply list_elem_of_here.
  - fold certs in Hk. pose proof (lookup_lt_Some _ _ _ Hk) as Hlt.
    exists k, procs, []. autorewrite with trace. rewrite import_cmds_take.
    split_and!; try done; try lia.
    + intros j cert_pem Hj Hc. apply Hwr; try done.
      by rewrite lookup_take_lt.
    + do 3 right. left. eexists _, _, e. split_and!; try done; [by right|].
      apply Hin. apply elem_of_app. right. apply list_elem_of_here.
  - fold certs in Hk. pose proof (lookup_lt_Some _ _ _ Hk) as Hlt.
    exists k, procs, [(App.import_cmd alias truststore_password work_dir k, Err e)].
    autorewrite with trace. rewrite import_cmds_take. cbn [app].
    split_and!; try done; try lia.
    + intros j cert_pem Hj Hc. apply Hwr; try done.
      by rewrite lookup_take_lt.
    + do 2 right. left. exists c, e. split_and!; try done.
      apply Hin. apply elem_of_app. right. apply list_elem_of_here.
  - fold certs in Hne, Hlen.
    exists (length certs), procs, (runs tail). autorewrite with trace.
    rewrite firstn_all2 by (rewrite length_import_cmds; lia). cbn [app].
    split_and!; try done.
    + intros j cert_pem Hj Hc.
      pose proof (Hwr j (length certs) cert_pem procs tail Hlen Hj) as Hj'.
      rewrite firstn_all in Hj'. by apply Hj'.
    + left. split_and!; try done.
      * destruct Htail; reflexivity.
      * destruct Htail; autorewrite with trace; discriminate.
      * destruct Htail; autorewrite with trace; cbn [List.map fst].
        1-2: by exists [App.convert_cmd alias keystore_password work_dir].
        all: by exists [].
Qed.

End Runs.

(** C1, evaluated where it fails: all four sub-processes exit with zero,
    [truststore.jks] is read back, reading [keystore.jks] raises.  The
    result has [success] false and one error, yet its artifact map is not
    empty: it holds the trust-store read before the failure. *)
Theorem generate_stores_read_fault_keeps_artifact :
  let out := App.generate_stores (h := read_fault_host) sample_chain
               "BUNDLE" "KEY" "kafka-client" "changeit" "changeit"
               (boot (tt : World read_fault_host)) in
  App.success (fst out) = false
  /\ App.errors (fst out) = ["[Errno 5] Input/output error"]
  /\ Forall (fun c => exit_zero (snd c)) (runs (history (snd out)))
  /\ length (runs (history (snd out))) = 4
  /\ App.files (fst out) !! "truststore.jks" = Some "</tmp/tmpk3v0a9xq/truststore.jks>"
  /\ App.files (fst out) <> ∅.
Proof.
  intros out. split_and!.
  - vm_compute. reflexivity.
  - vm_compute. reflexivity.
  - vm_compute. repeat constructor.
  - vm_compute. reflexivity.
  - vm_compute. reflexivity.
  - intros H.
    assert (E : App.files (fst out) !! "truststore.jks"
                = Some "</tmp/tmpk3v0a9xq/truststore.jks>") by (vm_compute; reflexivity).
    rewrite H, lookup_empty in E. discriminate E.
Qed.

(** X22: on a CA chain from which the scanning loop of
    [generate_stores] of app.py returns no entry, the run ends with
    [success] false, no artifact, no informational message, and no tool
    started; the only error is "Could not extract certificates
    from CA chain" whenever the three inputs could be written to the work
    directory, and the text of the exception that stopped the writing
    otherwise. *)
Theorem generate_stores_no_certs (h : Host)
  (ca_chain bundle key alias truststore_password keystore_password : string)
  (w : World h) :
  extract_certs ca_chain = [] ->
  let out := App.generate_stores ca_chain bundle key alias truststore_password
                                 keystore_password (boot w) in
  App.success (fst out) = false
  /\ App.files (fst out) = ∅
  /\ App.info (fst out) = []
  /\ runs (history (snd out)) = []
  /\ reads (history (snd out)) = []
  /\ ((forall path content e, EWrite path content (Err e) ∉ history (snd out)) ->
      App.errors (fst out) = ["Could not extract certificates from CA chain"])
  /\ (App.errors (fst out) = ["Could not extract certificates from CA chain"]
      \/ exists path content e,
           EWrite path content (Err e) ∈ history (snd out)
           /\ App.errors (fst out) = [exn_text e]).
Proof. intros Hnone. by apply generate_stores_no_certs_run. Qed.

Lemma generate_stores_no_certs_witness :
  extract_certs "subject=CN=Root CA" = []
  /\ let out := App.generate_stores (h := ok_host) "subject=CN=Root CA" "BUNDLE" "KEY"
                  "kafka-client" "changeit" "changeit" (boot (tt : World ok_host)) in
     App.success (fst out) = false
     /\ App.errors (fst out) = ["Could not extract certificates from CA chain"]
     /\ runs (history (snd out)) = [].
Proof.
  split; [reflexivity|].
  destruct (generate_stores_no_certs ok_host "subject=CN=Root CA" "BUNDLE" "KEY"
              "kafka-client" "changeit" "changeit" tt eq_refl)
    as (Hs & _ & _ & Hr & _ & He & _).
  split_and!; [exact Hs| |exact Hr].
  apply He. intros path content e Hin. vm_compute in Hin.
  repeat (apply elem_of_cons in Hin as [Hin|Hin]; [discriminate Hin|]).
  by apply elem_of_nil in Hin.
Defined.

(** C3 as amended: step 1 of [generate_stores] of app.py starts the
    store-import tool on the certificates of the
    chain in their order, at most once each, the k-th under the alias
    [<alias>-ca-<k>] and on a file holding the k-th certificate; it goes
    on to the next certificate as long as the imports exit with zero and
    their files can be written; an import that exits with a non-zero
    status is the last sub-process of the run, which then fails with the
    error of that certificate and no artifact; when all N imports have
    exited with zero the message stating the count N is the first
    informational message. *)
Theorem generate_stores_imports_each_certificate (h : Host)
  (ca_chain bundle key alias truststore_password keystore_password : string)
  (w : World h) :
  let work_dir := fst (os_mkdtemp h w) in
  let out := App.generate_stores ca_chain bundle key alias truststore_password
                                 keystore_password (boot w) in
  let certs := extract_certs ca_chain in
  let tr := history (snd out) in
  map fst (runs tr)
    `prefix_of` App.pipeline_cmds alias truststore_password keystore_password
                                  work_dir certs
  /\ (forall k, k < length certs ->
        App.pipeline_cmds alias truststore_password keystore_password work_dir certs !! k
        = Some [ "keytool"; "-import"; "-file"; App.cert_temp_path work_dir k;
                 "-alias"; alias +:+ "-ca-" +:+ Py.str_nat k;
                 "-keystore"; Py.path_join work_dir "truststore.jks";
                 "-storepass"; truststore_password; "-noprompt" ])
  /\ (forall k argv res,
        k < length certs -> runs tr !! k = Some (argv, res) ->
        exists cert_pem,
          certs !! k = Some cert_pem
          /\ EWrite (App.cert_temp_path work_dir k) cert_pem (Ok tt) ∈ tr)
  /\ (forall k argv p,
        k < length certs -> runs tr !! k = Some (argv, Ok p) ->
        returncode p <> 0%Z ->
        length (runs tr) = S k
        /\ App.success (fst out) = false
        /\ App.files (fst out) = ∅
        /\ App.info (fst out) = []
        /\ App.errors (fst out)
           = ["Truststore creation failed for cert " +:+ Py.str_nat k
              +:+ ": " +:+ stderr p])
  /\ (certs <> [] ->
      (forall k, k < length certs ->
         exists argv p, runs tr !! k = Some (argv, Ok p) /\ returncode p = 0%Z) ->
      head (App.info (fst out))
      = Some ("Truststore created successfully with "
              +:+ Py.str_nat (length certs) +:+ " CA certificates"))
  /\ ((forall path content e, EWrite path content (Err e) ∉ tr) ->
      length (runs tr) < length certs ->
      exists argv res, last (runs tr) = Some (argv, res) /\ ~ exit_zero res).
Proof.
  intros work_dir out certs tr.
  destruct (generate_stores_imports ca_chain bundle key alias truststore_password
              keystore_password w)
    as (k & procs & extra & Hruns & Hl & Hk & Hz & Hw & Hend).
  fold work_dir out certs tr in Hruns, Hw, Hend.
  set (cmds := App.import_cmds alias truststore_password work_dir 0 certs) in *.
  assert (Hkc : k <= length cmds) by (unfold cmds; by rewrite length_import_cmds).
  assert (Hcmd : forall j, j < length certs ->
             cmds !! j = Some (App.import_cmd alias truststore_password work_dir j)).
  { intros j Hj. unfold cmds. by rewrite import_cmds_lookup. }
  assert (Hzero : forall j argv res,
             zip (take k cmds) (map Ok procs) !! j = Some (argv, res) ->
             exists p, res = Ok p /\ returncode p = 0%Z).
  { intros j argv res Hj. apply lookup_zipped in Hj as (p & Hp & ->).
    exists p. split; [done|]. rewrite Forall_forall in Hz. apply Hz.
    by apply list_elem_of_lookup_2 in Hp. }
  pose proof (length_zipped cmds procs k Hkc Hl) as Hlz.
  rewrite Hruns. split_and!.
  - (* order *)
    rewrite map_app, (fst_zipped cmds procs k Hkc Hl). unfold App.pipeline_cmds.
    fold cmds.
    destruct Hend as [(-> & _ & _ & _ & Hp)|[(c & p & Hc & -> & _)
                     |[(c & e & Hc & -> & _)|[(pa & co & e & -> & _)|(_ & _ & -> & _)]]]].
    + rewrite firstn_all2 by (unfold cmds; by rewrite length_import_cmds).
      by apply prefix_app.
    + simpl. rewrite <- (take_S_r cmds k _ (Hcmd k (lookup_lt_Some _ _ _ Hc))).
      apply take_prefix_app.
    + simpl. rewrite <- (take_S_r cmds k _ (Hcmd k (lookup_lt_Some _ _ _ Hc))).
      apply take_prefix_app.
    + simpl. rewrite app_nil_r. apply take_prefix_app.
    + simpl. rewrite app_nil_r. apply take_prefix_app.
  - (* aliases *)
    intros j Hj. unfold App.pipeline_cmds. fold cmds.
    rewrite lookup_app_l by (unfold cmds; by rewrite length_import_cmds).
    rewrite (Hcmd j Hj). reflexivity.
  - (* the file of the k-th import *)
    intros j argv res Hj Hlook.
    destruct (lookup_lt_is_Some_2 certs j Hj) as [cert_pem Hc].
    exists cert_pem. split; [done|].
    destruct (decide (j < k)) as [Hjk|Hjk]; [by apply Hw|].
    rewrite lookup_app_r in Hlook by lia. rewrite Hlz in Hlook.
    destruct Hend as [(-> & _)|[(c & p & Hc' & -> & _ & Hin & _)
                     |[(c & e & Hc' & -> & Hin & _)|[(pa & co & e & -> & _)|(_ & _ & -> & _)]]]].
    + lia.
    + destruct (j - k) as [|n] eqn:Hn; [|done].
      assert (j = k) as -> by lia. rewrite Hc in Hc'. by injection Hc' as <-.
    + destruct (j - k) as [|n] eqn:Hn; [|done].
      assert (j = k) as -> by lia. rewrite Hc in Hc'. by injection Hc' as <-.
    + done.
    + done.
  - (* an import that exits with a non-zero status *)
    intros j argv p Hj Hlook Hp.
    destruct (decide (j < k)) as [Hjk|Hjk].
    { rewrite lookup_app_l in Hlook by lia.
      apply Hzero in Hlook as (p' & [= <-] & Hp'). contradiction. }
    rewrite lookup_app_r in Hlook by lia. rewrite Hlz in Hlook.
    destruct Hend as [(-> & _)|[(c & p' & Hc' & -> & _ & _ & Hout)
                     |[(c & e & Hc' & -> & _)|[(pa & co & e & -> & _)|(_ & _ & -> & _)]]]].
    + lia.
    + destruct (j - k) as [|n] eqn:Hn; [|done].
      assert (j = k) as -> by lia. injection Hlook as _ <-.
      rewrite length_app, Hlz. rewrite Hout. split_and!; try reflexivity.
      simpl. lia.
    + destruct (j - k) as [|n] eqn:Hn; [|done]. done.
    + done.
    + done.
  - (* the count message *)
    intros Hne Hall.
    assert (HN : 0 < length certs) by (destruct certs; [done|simpl; lia]).
    destruct Hend as [(_ & _ & Hinfo & _)|[(c & p & Hc & -> & Hp & _)
                     |[(c & e & Hc & -> & _)|[(pa & co & e & -> & Hkn & _)|(Hnone & _)]]]].
    + exact Hinfo.
    + destruct (Hall k (lookup_lt_Some _ _ _ Hc)) as (argv & p' & Hlook & Hp').
      rewrite lookup_app_r, Hlz, Nat.sub_diag in Hlook by lia.
      injection Hlook as _ <-. contradiction.
    + destruct (Hall k (lookup_lt_Some _ _ _ Hc)) as (argv & p' & Hlook & Hp').
      rewrite lookup_app_r, Hlz, Nat.sub_diag in Hlook by lia.
      discriminate Hlook.
    + destruct Hkn as [Hkn|Hkn]; [contradiction|].
      destruct (Hall k Hkn) as (argv & p' & Hlook & Hp').
      rewrite app_nil_r in Hlook. apply lookup_lt_Some in Hlook. lia.
    + contradiction.
  - (* going on to the next certificate *)
    intros Hnow Hshort. rewrite length_app, Hlz in Hshort.
    destruct Hend as [(-> & _)|[(c & p & Hc & -> & Hp & _)
                     |[(c & e & Hc & -> & _)|[(pa & co & e & -> & _ & Hin & _)|(Hnone & _)]]]].
    + lia.
    + eexists _, _. rewrite last_snoc. split; [reflexivity|]. simpl. done.
    + eexists _, _. rewrite last_snoc. split; [reflexivity|]. simpl. tauto.
    + exfalso. by apply (Hnow pa co e).
    + rewrite Hnone in Hshort. simpl in Hshort. lia.
Qed.


(** * Properties of the connection probes *)

(** ** The endpoint split *)

Section Endpoint.

Lemma contains_char (c : ascii) (s : string) :
  Py.contains (String c EmptyString) s = has_char c s.
Proof.
  induction s as [|d s IH]; [reflexivity|].
  cbn [Py.contains has_char String.prefix]. rewrite IH.
  destruct (Ascii.ascii_dec c d) as [->|Hne].
  - rewrite Ascii.eqb_refl. by destruct s.
  - assert (Ascii.eqb d c = false) as -> by (apply Ascii.eqb_neq; congruence).
    reflexivity.
Qed.

Lemma has_char_count (c : ascii) (s : string) :
  has_char c s = false <-> count_char c s = 0.
Proof.
  induction s as [|d s IH]; [done|]. simpl.
  destruct (Ascii.eqb d c); simpl; [split; [done|lia]|exact IH].
Qed.

Lemma length_split (c : ascii) (s : string) :
  length (Py.split c s) = S (count_char c s).
Proof.
  induction s as [|d s IH]; [reflexivity|]. simpl.
  destruct (Ascii.eqb d c); simpl; [by rewrite IH|].
  destruct (Py.split c s) as [|w ws]; [discriminate IH|]. exact IH.
Qed.

Lemma split_none (c : ascii) (s : string) :
  count_char c s = 0 -> Py.split c s = [s].
Proof.
  induction s as [|d s IH]; [reflexivity|]. simpl.
  destruct (Ascii.eqb d c); simpl; [lia|].
  intros H. by rewrite (IH H).
Qed.

Lemma split_at (c : ascii) (a rest : string) :
  count_char c a = 0 ->
  Py.split c (a +:+ String c rest) = a :: Py.split c rest.
Proof.
  induction a as [|d a IH]; simpl.
  - intros _. by rewrite Ascii.eqb_refl.
  - destruct (Ascii.eqb d c); simpl; [lia|].
    intros H. by rewrite (IH H).
Qed.

Lemma count_char_app (c : ascii) (a b : string) :
  count_char c (a +:+ b) = count_char c a + count_char c b.
Proof.
  induction a as [|d a IH]; [reflexivity|]. simpl. rewrite IH. lia.
Qed.

(** No colon: the whole endpoint is the host and the port is 443. *)
Lemma host_port_default (bootstrap : string) :
  count_char ":" bootstrap = 0 ->
  bootstrap_host_port bootstrap = Ok (bootstrap, "443").
Proof.
  intros H. unfold bootstrap_host_port.
  rewrite (contains_char ":" bootstrap).
  apply has_char_count in H. by rewrite H.
Qed.

(** One colon: the text before it is the host, the text after it the
    port. *)
Lemma host_port_given (host port : string) :
  count_char ":" host = 0 -> count_char ":" port = 0 ->
  bootstrap_host_port (host +:+ ":" +:+ port) = Ok (host, port).
Proof.
  intros Hh Hp. unfold bootstrap_host_port.
  rewrite (contains_char ":" (host +:+ ":" +:+ port)).
  assert (has_char ":" (host +:+ ":" +:+ port) = true) as ->.
  { destruct (has_char ":" (host +:+ ":" +:+ port)) eqn:E; [done|].
    apply has_char_count in E. rewrite count_char_app in E. simpl in E. lia. }
  change (host +:+ ":" +:+ port) with (host +:+ String Py.COLON port).
  rewrite (split_at Py.COLON host port Hh), (split_none Py.COLON port Hp).
  reflexivity.
Qed.

(** Two colons or more: the unpacking raises. *)
Lemma host_port_too_many (bootstrap : string) :
  2 <= count_char ":" bootstrap ->
  bootstrap_host_port bootstrap
  = Err (Exn ValueError "too many values to unpack (expected 2)").
Proof.
  intros H. unfold bootstrap_host_port.
  rewrite (contains_char ":" bootstrap).
  assert (has_char ":" bootstrap = true) as ->.
  { destruct (has_char ":" bootstrap) eqn:E; [done|].
    apply has_char_count in E. lia. }
  pose proof (length_split Py.COLON bootstrap) as Hl.
  destruct (Py.split Py.COLON bootstrap) as [|a [|b [|c rest]]];
    simpl in Hl; change Py.COLON with ":"%char in Hl; try lia.
  reflexivity.
Qed.

(** X14: how both probes split the endpoint.  Without a colon the whole
    endpoint is the host and the port is 443; with exactly one colon the
    text before it is the host and the text after it the port; with two
    colons or more the unpacking raises [ValueError] "too many values to
    unpack (expected 2)".  It raises in no other case. *)
Lemma host_port_cases (bootstrap : string) :
  match bootstrap_host_port bootstrap with
  | Ok (host, port) =>
      (count_char ":" bootstrap = 0 /\ host = bootstrap /\ port = "443")
      \/ (count_char ":" bootstrap = 1 /\ bootstrap = host +:+ ":" +:+ port)
  | Err e =>
      2 <= count_char ":" bootstrap
      /\ e = Exn ValueError "too many values to unpack (expected 2)"
  end.
Proof.
  destruct (count_char ":" bootstrap) as [|[|n]] eqn:Hc.
  - rewrite host_port_default by done. by left.
  - assert (exists host port, bootstrap = host +:+ ":" +:+ port
                              /\ count_char ":" host = 0 /\ count_char ":" port = 0)
      as (host & port & -> & Hh & Hp).
    { clear -Hc. induction bootstrap as [|d s IH]; [discriminate Hc|].
      simpl in Hc. destruct (Ascii.eqb d ":") eqn:Hd.
      - apply Ascii.eqb_eq in Hd as ->. exists EmptyString, s.
        split_and!; [done|done|]. simpl in Hc. lia.
      - destruct (IH Hc) as (host & port & -> & Hh & Hp).
        exists (String d host), port. split_and!; [done| |done].
        simpl. by rewrite Hd. }
    rewrite host_port_given by done. right. done.
  - rewrite host_port_too_many by lia. split; [lia|done].
Qed.

Lemma length_slice_to (n : nat) (s : string) :
  String.length (Py.slice_to n s) <= n.
Proof.
  revert s. induction n as [|n IH]; intros [|c s]; simpl; try lia.
  specialize (IH s). lia.
Qed.

Lemma slice_to_prefix (n : nat) (s : string) :
  exists rest, s = Py.slice_to n s +:+ rest.
Proof.
  revert s. induction n as [|n IH]; intros [|c s]; simpl; eauto.
  destruct (IH s) as [rest E]. exists rest.
  change (String c (Py.slice_to n s) +:+ rest)
    with (String c (Py.slice_to n s +:+ rest)).
  by rewrite <- E.
Qed.

End Endpoint.

(** ** The runs of the probes *)

Section ProbeSteps.
Context {h : Host}.

Lemma find_kafka_then {L R A : Type} (k : option string -> M h L R A)
  (s : Sys h) (l : L) (out : ctl R A * (Sys h * L)) :
  bind find_kafka_bin k (s, l) = out ->
  exists found o s',
    kafka_lookup found o /\ history s' = history s ++ found
    /\ k o (s', l) = out.
Proof.
  unfold find_kafka_bin, bind, sys_which.
  destruct (os_which h "kafka-topics.sh" (world s)) as [a w1].
  destruct (opt_truthy a) eqn:Ha.
  - cbn. intros <-. eexists [_], a, _. split_and!; [by constructor| |reflexivity].
    by rewrite history_log.
  - cbn [world log].
    destruct (os_which h "kafka-topics" w1) as [b w2]. intros <-.
    eexists [_; _], b, _. split_and!; [by constructor| |reflexivity].
    by rewrite !history_log, <- app_assoc.
Qed.

Lemma call_then {L R A B : Type} (f : Sys h -> B * Sys h)
  (k : B -> M h L R A) (s : Sys h) (l : L) :
  bind (call f) k (s, l) = k (fst (f s)) (snd (f s), l).
Proof. unfold bind, call. by destruct (f s). Qed.

End ProbeSteps.

Section MainProbeRuns.
Context {h : Host}.
Variables (truststore keystore password bootstrap : string).

Local Ltac same_events :=
  rewrite ?history_rmtree, ?history_log, <- ?app_assoc;
  cbn [written tkc_staging firstn List.map fst snd app];
  reflexivity.

(** The fallback: what it leaves to the handler of the caller. *)
Lemma ssl_fallback_runs (s s1 : Sys h) (c : ctl Main.TestResult Empty_set) :
  Main.ssl_fallback bootstrap (s, tt) = (c, (s1, tt)) ->
  exists tail r,
    history s1 = history s ++ tail
    /\ tkc_ssl bootstrap tail r
    /\ match c with
       | Return r' => r' = r
       | Raise e => r = test_failed e
       | Val v => False
       end.
Proof.
  unfold Main.ssl_fallback. intros H.
  apply lift_then in H as [([host port] & Hhp & H)|(e & Hhp & [= -> ->])]; cycle 1.
  { exists [], (test_failed e). rewrite app_nil_r.
    split_and!; [done|by constructor|done]. }
  unfold try_except, bind, sys_run in H.
  match type of H with context [os_run h ?a ?k ?w] =>
    destruct (os_run h a k w) as [[p|e] w1] end.
  - destruct (Py.contains "CONNECTED" (stdout p)
              || Py.contains "CONNECTED" (stderr p)) eqn:Hc;
      injection H as <- <-; eexists [_], _;
      (split_and!; [by rewrite history_log| |reflexivity]).
    + by apply tkc_ssl_connected.
    + by apply tkc_ssl_refused.
  - destruct (is_timeout e) eqn:Ht; injection H as <- <-; eexists [_], _;
      (split_and!; [by rewrite history_log| |reflexivity]).
    + by apply tkc_ssl_timeout.
    + by apply tkc_ssl_error.
Qed.

(** Every run of [test_kafka_connection] returns a result and is one of
    the runs of [tkc_run], between the creation of the work directory and
    its removal. *)
Theorem test_kafka_connection_runs (s0 : Sys h) :
  let work_dir := fst (os_mkdtemp h (world s0)) in
  let out := Main.test_kafka_connection truststore keystore password bootstrap s0 in
  exists body r,
    fst out = Ok r
    /\ history (snd out) = history s0 ++ EMkdtemp work_dir :: body ++ [ERmtree work_dir]
    /\ tkc_run truststore keystore password bootstrap work_dir body r.
Proof.
  unfold Main.test_kafka_connection, sys_mkdtemp.
  destruct (os_mkdtemp h (world s0)) as [wd w0]. cbn [fst].
  unfold try_finally, try_except.
  match goal with |- context [Main.test_kafka_connection_body ?a ?b ?c ?d ?e ?st] =>
    destruct (Main.test_kafka_connection_body a b c d e st) as [c0 [s1 []]] eqn:Hbody end.
  unfold Main.test_kafka_connection_body in Hbody.
  apply write_then in Hbody as [[w1 Hbody]|(e & w & [= -> ->])]; cycle 1.
  { cbn [fst snd returned return_]. eexists _, _. split; [reflexivity|]. split; cycle 1.
    - by apply tkc_stage_error with (k := 0).
    - same_events. }
  apply write_then in Hbody as [[w2 Hbody]|(e & w & [= -> ->])]; cycle 1.
  { cbn [fst snd returned return_]. eexists _, _. split; [reflexivity|]. split; cycle 1.
    - by apply tkc_stage_error with (k := 1).
    - same_events. }
  apply write_then in Hbody as [[w3 Hbody]|(e & w & [= -> ->])]; cycle 1.
  { cbn [fst snd returned return_]. eexists _, _. split; [reflexivity|]. split; cycle 1.
    - by apply tkc_stage_error with (k := 2).
    - same_events. }
  apply find_kafka_then in Hbody as (found & o & s' & Hfound & Hh & Hbody).
  rewrite !history_log, <- !app_assoc in Hh.
  match goal with |- ?G =>
    assert (Done : opt_truthy o = false ->
                   Main.ssl_fallback bootstrap (s', tt) = (c0, (s1, tt)) -> G)
  end.
  { intros Ho Hf.
    apply ssl_fallback_runs in Hf as (tail & r & Ht & Hssl & Hc).
    exists (written (tkc_staging truststore keystore password wd) ++ found ++ tail), r.
    destruct c0 as [[]|r'|e]; [subst r'|subst r];
      cbn [fst snd returned return_];
      (split_and!; [done| |by apply tkc_fallback with (bin := o)]);
      rewrite history_rmtree, Ht, Hh; same_events. }
  destruct o as [bin|]; [|by apply Done].
  destruct (Py.truthy bin) eqn:Hbin; [|by apply Done].
  clear Done.
  apply run_then in Hbody as [(p & w4 & Hbody)|(e & w & [= -> ->])]; cycle 1.
  { cbn [fst snd returned return_]. eexists _, _. split; [reflexivity|]. split; cycle 1.
    - by apply tkc_cli_error with (found := found) (bin := bin).
    - rewrite history_rmtree, history_log, Hh. same_events. }
  destruct (returncode p =? 0)%Z eqn:Hp; injection Hbody as <- <-;
    cbn [fst snd returned return_]; eexists _, _; (split; [reflexivity|]).
  - split; cycle 1.
    + apply tkc_cli_ok with (found := found) (bin := bin); try done.
      by apply Z.eqb_eq.
    + rewrite history_rmtree, history_log, Hh. same_events.
  - split; cycle 1.
    + apply tkc_cli_failed with (found := found) (bin := bin); try done.
      by apply Z.eqb_neq.
    + rewrite history_rmtree, history_log, Hh. same_events.
Qed.

End MainProbeRuns.

Section AppProbeRuns.
Context {h : Host}.
Variable x : Lib.
Variable req : Request.

(** A successful [generate_stores] returns both stores the probe
    copies. *)
Lemma gs_run_success_files
  (ca_chain bundle key alias tp kp inner : string) (body : list event)
  (r : App.Results) :
  App.gs_run ca_chain bundle key alias tp kp inner body r ->
  App.success r = true ->
  exists t j,
    App.files r !! "truststore.jks" = Some t
    /\ App.files r !! "keystore.jks" = Some j.
Proof.
  intros Hgs Hs.
  destruct Hgs as [| | | | |procs tail r Hne Hlen Hz Htail]; try discriminate Hs.
  destruct Htail; try discriminate Hs.
  exists t, k. cbn [App.files App.set_success App.set_passwords App.set_pem_files
                    App.set_file].
  split.
  - rewrite lookup_insert_ne by done. rewrite lookup_insert_ne by done.
    by rewrite lookup_insert_eq.
  - rewrite lookup_insert_ne by done. by rewrite lookup_insert_eq.
Qed.

Local Ltac flat_events :=
  repeat first [rewrite <- app_assoc | progress (cbn [app])]; reflexivity.

Lemma stage_stores_runs (work_dir : string) (s s1 : Sys h) (c : ctl Response unit) :
  App.stage_stores x req (tk_password req) (tk_truststore_path work_dir)
                   (tk_keystore_path work_dir) (s, tt) = (c, (s1, tt)) ->
  exists evs,
    history s1 = history s ++ evs /\ tk_stage x req work_dir evs c.
Proof.
  unfold App.stage_stores. intros H.
  destruct (uploaded_stores req) as [[t k]|] eqn:Hst.
  { apply write_then in H as [[w1 H]|(e & w & [= -> ->])]; cycle 1.
    { eexists [_]. split; [by rewrite history_log|]. by eapply tk_uploaded_error_1. }
    unfold sys_write in H.
    match type of H with context [os_write h ?p ?c ?w] =>
      destruct (os_write h p c w) as [[[]|e] w2] end; injection H as <- <-.
    - eexists [_; _]. split; [by rewrite !history_log, <- app_assoc|].
      by eapply tk_uploaded.
    - eexists [_; _]. split; [by rewrite !history_log, <- app_assoc|].
      by eapply tk_uploaded_error_2. }
  destruct (uploaded_certs req) as [[[cf bf] kf]|] eqn:Hce; cycle 1.
  { injection H as <- <-. exists []. rewrite app_nil_r. split; [done|].
    by apply tk_nothing_uploaded. }
  assert (Hdec : forall e, decode3 x cf bf kf = Err e -> c = Raise e -> s1 = s ->
                 exists evs, history s1 = history s ++ evs
                             /\ tk_stage x req work_dir evs c).
  { intros e He -> ->. exists []. rewrite app_nil_r. split; [done|].
    by eapply tk_decode_error. }
  unfold decode3 in Hdec.
  apply lift_then in H as [(cc & Hcc & H)|(e & Hcc & [= Hc Hs])]; rewrite Hcc in Hdec;
    [|by eapply Hdec].
  apply lift_then in H as [(bc & Hbc & H)|(e & Hbc & [= Hc Hs])]; rewrite Hbc in Hdec;
    [|by eapply Hdec].
  apply lift_then in H as [(kc & Hkc & H)|(e & Hkc & [= Hc Hs])]; rewrite Hkc in Hdec;
    [|by eapply Hdec].
  clear Hdec.
  assert (Hd : decode3 x cf bf kf = Ok (cc, bc, kc)).
  { unfold decode3. by rewrite Hcc, Hbc, Hkc. }
  rewrite call_then in H.
  destruct (generate_stores_runs cc bc kc "kafka-test" (tk_password req)
              (tk_password req) s) as (body & Hh & Hgs).
  cbn zeta in Hh, Hgs.
  set (inner := fst (os_mkdtemp h (world s))) in *.
  match type of H with context [App.generate_stores ?a ?b ?c ?d ?e ?f ?s] =>
    set (gen := App.generate_stores a b c d e f s) in * end.
  destruct (App.success (fst gen)) eqn:Hsucc; cbn [negb] in H.
  2:{ injection H as <- <-. eexists. split; [exact Hh|].
      by eapply tk_generate_failed. }
  destruct (gs_run_success_files _ _ _ _ _ _ _ _ _ Hgs Hsucc) as (t & j & Ht & Hj).
  rewrite Ht in H.
  apply write_then in H as [[w1 H]|(e & w & [= -> ->])]; cycle 1.
  { eexists. split; cycle 1.
    - eapply tk_generated; try done. apply tk_copy_error_1.
    - rewrite history_log, Hh. flat_events. }
  rewrite Hj in H. unfold sys_write in H.
  match type of H with context [os_write h ?p ?c ?w] =>
    destruct (os_write h p c w) as [[[]|e] w2] end; injection H as <- <-.
  - eexists. split; cycle 1.
    + eapply tk_generated; try done. apply tk_copied.
    + rewrite !history_log, Hh. flat_events.
  - eexists. split; cycle 1.
    + eapply tk_generated; try done. apply tk_copy_error_2.
    + rewrite !history_log, Hh. flat_events.
Qed.

(** The inner [try] of the fallback always ends in a [return]. *)
Lemma java_try_runs (work_dir host port : string) (s s1 : Sys h)
  (c : ctl Response Empty_set) :
  try_except
    (bind (sys_run (App.cmd_javac (tk_java_file_path work_dir))
                   {| cwd := Some work_dir; timeout := Some 10; input := None |})
          (fun compile_result =>
             if negb (returncode compile_result =? 0)%Z then
               return_ ([ ("success", JBool false);
                          ("error", JStr "Failed to compile SSL test");
                          ("details", JStr (stderr compile_result)) ], 500)
             else
               bind (sys_run (App.cmd_java work_dir)
                             {| cwd := None; timeout := Some 30; input := None |})
                    (fun run_result =>
                       if (returncode run_result =? 0)%Z then
                         return_ ([ ("success", JBool true);
                                    ("message", JStr ("mTLS connection successful to "
                                                      +:+ host +:+ ":" +:+ port));
                                    ("details", JStr "Certificate verification passed using generated JKS files");
                                    ("ssl_info", JStr (stdout run_result)) ], 200)
                       else
                         let error_msg := Py.str_or (stderr run_result) (stdout run_result) in
                         return_ ([ ("success", JBool false);
                                    ("error", JStr ("SSL connection failed to "
                                                    +:+ host +:+ ":" +:+ port));
                                    ("details", JStr (Py.slice_to 800 error_msg)) ], 200))))
    (fun e =>
       if is_timeout e then
         return_ ([ ("success", JBool false);
                    ("error", JStr ("Connection timeout to "
                                    +:+ host +:+ ":" +:+ port));
                    ("details", JStr "The server did not respond within 30 seconds") ],
                  200)
       else
         return_ ([ ("success", JBool false);
                    ("error", JStr "Test execution failed");
                    ("details", JStr (exn_text e)) ], 500))
    (s, tt) = (c, (s1, tt)) ->
  exists tail r,
    c = Return r /\ history s1 = history s ++ tail
    /\ tk_java work_dir host port tail r.
Proof.
  unfold try_except, bind, sys_run. intros H.
  match type of H with context [os_run h ?a ?k ?w] =>
    destruct (os_run h a k w) as [[p|e] w1] end.
  - destruct (negb (returncode p =? 0)%Z) eqn:Hp.
    { injection H as <- <-. eexists [_], _.
      split_and!; [reflexivity|by rewrite history_log|].
      apply tk_javac_failed. by apply negb_true_iff, Z.eqb_neq in Hp. }
    apply negb_false_iff, Z.eqb_eq in Hp. cbn [world log] in H.
    match type of H with context [os_run h ?a ?k ?w] =>
      destruct (os_run h a k w) as [[q|e] w2] end.
    + destruct (returncode q =? 0)%Z eqn:Hq; injection H as <- <-;
        eexists [_; _], _;
        (split_and!; [reflexivity|by rewrite !history_log, <- app_assoc|]).
      * apply tk_java_connected; [done|by apply Z.eqb_eq].
      * apply tk_java_failed; [done|by apply Z.eqb_neq].
    + destruct (is_timeout e) eqn:He; injection H as <- <-;
        eexists [_; _], _;
        (split_and!; [reflexivity|by rewrite !history_log, <- app_assoc|]).
      * by apply tk_java_timeout.
      * by apply tk_java_error.
  - destruct (is_timeout e) eqn:He; injection H as <- <-;
      eexists [_], _; (split_and!; [reflexivity|by rewrite history_log|]).
    + by apply tk_javac_timeout.
    + by apply tk_javac_error.
Qed.

(** From the properties file on: the response, whether it is returned or
    produced by the handler of the function. *)
Lemma probe_runs (work_dir bootstrap : string) (s s1 : Sys h)
  (c : ctl Response Empty_set) :
  bind (sys_write (tk_properties_path work_dir) (tk_properties req work_dir))
       (fun _ =>
          bind find_kafka_bin
               (fun kafka_bin =>
                  let fallback :=
                    App.java_fallback bootstrap (tk_password req) work_dir
                      (tk_truststore_path work_dir) (tk_keystore_path work_dir) in
                  match kafka_bin with
                  | Some bin =>
                      if Py.truthy bin then
                        bind (sys_run (App.cmd_kafka bin (tk_properties_path work_dir) bootstrap)
                                      {| cwd := None; timeout := Some 30; input := None |})
                             (fun result =>
                                if (returncode result =? 0)%Z then
                                  let topics := parse_topics (stdout result) in
                                  return_ ([ ("success", JBool true);
                                             ("message", JStr "Connection successful!");
                                             ("topics", JList (map JStr topics));
                                             ("topics_count", JInt (length topics)) ], 200)
                                else
                                  return_ ([ ("success", JBool false);
                                             ("error", JStr "Kafka connection failed");
                                             ("details", JStr (Py.str_or (stderr result) (stdout result))) ],
                                           200))
                      else fallback
                  | None => fallback
                  end))
       (s, tt) = (c, (s1, tt)) ->
  exists tail r,
    history s1 = history s ++ tail
    /\ tk_probe req work_dir bootstrap tail r
    /\ (c = Return r \/ exists e, c = Raise e /\ r = internal_error e).
Proof.
  intros H.
  apply write_then in H as [[w1 H]|(e & w & [= -> ->])]; cycle 1.
  { eexists [_], _. split_and!; [by rewrite history_log|apply tk_properties_error|].
    right. by exists e. }
  apply find_kafka_then in H as (found & o & s' & Hfound & Hh & H).
  rewrite history_log, <- app_assoc in Hh. cbn zeta in H.
  assert (Fallback :
            opt_truthy o = false ->
            App.java_fallback bootstrap (tk_password req) work_dir
              (tk_truststore_path work_dir) (tk_keystore_path work_dir) (s', tt)
            = (c, (s1, tt)) ->
            exists tail r,
              history s1 = history s ++ tail
              /\ tk_probe req work_dir bootstrap tail r
              /\ (c = Return r \/ exists e, c = Raise e /\ r = internal_error e)).
  { intros Ho Hf. unfold App.java_fallback in Hf.
    apply lift_then in Hf as [([host port] & Hhp & Hf)|(e & Hhp & [= -> ->])]; cycle 1.
    { eexists _, _. split_and!; [exact Hh|by eapply tk_split_error|].
      right. by exists e. }
    apply write_then in Hf as [[w2 Hf]|(e & w & [= -> ->])]; cycle 1.
    { eexists _, _. split_and!; cycle 1.
      - by eapply tk_java_file_error.
      - right. by exists e.
      - rewrite history_log, Hh. cbn [app]. rewrite <- !app_assoc. reflexivity. }
    apply java_try_runs in Hf as (tail & r & -> & Ht & Hj).
    eexists _, r. split_and!; cycle 1.
    - by eapply tk_handshake.
    - by left.
    - rewrite Ht, history_log, Hh. cbn [app]. rewrite <- !app_assoc. reflexivity. }
  destruct o as [bin|]; [|by apply Fallback].
  destruct (Py.truthy bin) eqn:Hbin; [|by apply Fallback].
  clear Fallback.
  apply run_then in H as [(p & w4 & H)|(e & w & [= -> ->])]; cycle 1.
  { eexists _, _. split_and!; cycle 1.
    - by eapply tk_cli_error.
    - right. by exists e.
    - rewrite history_log, Hh. cbn [app]. rewrite <- !app_assoc. reflexivity. }
  destruct (returncode p =? 0)%Z eqn:Hp; injection H as <- <-.
  - eexists _, _. split_and!; cycle 1.
    + eapply tk_cli_ok; try done. by apply Z.eqb_eq.
    + by left.
    + rewrite history_log, Hh. cbn [app]. rewrite <- !app_assoc. reflexivity.
  - eexists _, _. split_and!; cycle 1.
    + eapply tk_cli_failed; try done. by apply Z.eqb_neq.
    + by left.
    + rewrite history_log, Hh. cbn [app]. rewrite <- !app_assoc. reflexivity.
Qed.

(** Every run of [test_kafka] returns a response and is one of the runs
    of [tk_run], between the creation of the work directory and its
    removal. *)
Theorem test_kafka_runs (s0 : Sys h) :
  let work_dir := fst (os_mkdtemp h (world s0)) in
  let out := App.test_kafka x req s0 in
  exists body r,
    fst out = Ok r
    /\ history (snd out) = history s0 ++ EMkdtemp work_dir :: body ++ [ERmtree work_dir]
    /\ tk_run x req work_dir body r.
Proof.
  unfold App.test_kafka, sys_mkdtemp.
  destruct (os_mkdtemp h (world s0)) as [wd w0]. cbn [fst].
  unfold try_finally, try_except.
  destruct (App.test_kafka_body x req wd (log (EMkdtemp wd) w0 s0, tt))
    as [c0 [s1 []]] eqn:Hbody.
  unfold App.test_kafka_body in Hbody. cbn zeta in Hbody.
  assert (Missing :
            opt_truthy (form req !! "bootstrap") = false ->
            c0 = Return ([ ("success", JBool false);
                           ("error", JStr "Bootstrap server is required") ], 400) ->
            s1 = log (EMkdtemp wd) w0 s0 ->
            exists body r,
              (let '(c, (s, _)) :=
                 let '(c, (s, l)) :=
                   match c0 with
                   | Val a => (Val a, (s1, tt))
                   | Return r0 => (Return r0, (s1, tt))
                   | Raise e =>
                       return_ ([ ("success", JBool false);
                                  ("error", JStr (exn_text e)) ], 500) (s1, tt)
                   end in (c, (sys_rmtree wd s, l)) in
               (returned c, s)).1 = Ok r
              /\ history
                   (let '(c, (s, _)) :=
                      let '(c, (s, l)) :=
                        match c0 with
                        | Val a => (Val a, (s1, tt))
                        | Return r0 => (Return r0, (s1, tt))
                        | Raise e =>
                            return_ ([ ("success", JBool false);
                                       ("error", JStr (exn_text e)) ], 500) (s1, tt)
                        end in (c, (sys_rmtree wd s, l)) in
                    (returned c, s)).2
                 = history s0 ++ EMkdtemp wd :: body ++ [ERmtree wd]
              /\ tk_run x req wd body r).
  { intros Hb -> ->. cbn [fst snd returned return_]. eexists [], _.
    split_and!; [reflexivity| |by apply tk_no_bootstrap].
    rewrite history_rmtree, history_log, <- app_assoc. reflexivity. }
  destruct (form req !! "bootstrap") as [bootstrap|] eqn:Hform; cycle 1.
  { injection Hbody as Hc Hs. by apply Missing. }
  destruct (Py.truthy bootstrap) eqn:Hb; cbn [negb] in Hbody; cycle 1.
  { injection Hbody as Hc Hs. by apply Missing. }
  clear Missing.
  unfold bind at 1 in Hbody.
  match type of Hbody with context [App.stage_stores ?a ?b ?c ?d ?e ?st] =>
    destruct (App.stage_stores a b c d e st) as [c' [s' []]] eqn:Hstage end.
  apply (stage_stores_runs wd) in Hstage as (evs & Hh & Hst).
  rewrite history_log in Hh.
  destruct c' as [[]|r|e].
  - apply (probe_runs wd bootstrap) in Hbody as (tail & r & Ht & Hp & Hc).
    exists (evs ++ tail), r.
    assert (Hrun : tk_run x req wd (evs ++ tail) r) by (by eapply tk_probes).
    destruct Hc as [->|(e & -> & ->)]; cbn [fst snd returned return_];
      (split_and!; [reflexivity| |exact Hrun]);
      rewrite history_rmtree, Ht, Hh; repeat first [rewrite <- app_assoc | progress (cbn [app])];
      reflexivity.
  - injection Hbody as <- <-. cbn [fst snd returned return_].
    exists evs, r. split_and!; [reflexivity| |by eapply tk_stage_returns].
    rewrite history_rmtree, Hh. repeat first [rewrite <- app_assoc | progress (cbn [app])].
    reflexivity.
  - injection Hbody as <- <-. cbn [fst snd returned return_].
    exists evs, (internal_error e). split_and!; [reflexivity| |by eapply tk_stage_raises].
    rewrite history_rmtree, Hh. repeat first [rewrite <- app_assoc | progress (cbn [app])].
    reflexivity.
Qed.

End AppProbeRuns.


(** * Further properties of the parsers *)

Section ScanInvariants.

(** Each line that closes a block adds one entry, whatever the state. *)
Lemma scan_count (reset : bool) (ls : list string) (st : scan) :
  length (certs (fold_left (scan_line reset) ls st))
  = length (certs st) + length (List.filter closes_block ls).
Proof.
  revert st. induction ls as [|l ls IH]; intros st; simpl; [lia|].
  rewrite IH. unfold scan_line, closes_block.
  destruct (Py.contains BEGIN_CERTIFICATE l); simpl; [lia|].
  destruct (Py.contains END_CERTIFICATE l); simpl.
  - rewrite length_app. simpl. lia.
  - destruct (in_cert st); simpl; lia.
Qed.

(** The pieces [split] returns hold no line feed. *)
Lemma split_lines (s : string) : Forall is_line (Py.split Py.LF s).
Proof.
  induction s as [|c s IH]; simpl; [by repeat constructor|].
  destruct (Ascii.eqb c Py.LF) eqn:E.
  - constructor; [reflexivity|exact IH].
  - destruct (Py.split Py.LF s) as [|w ws].
    + repeat constructor. unfold is_line. simpl. by rewrite E.
    + inversion IH as [|? ? Hw Hws]; subst. constructor; [|done].
      unfold is_line in *. simpl. by rewrite E, Hw.
Qed.

Lemma scan_line_consistent (st : scan) (l : string) :
  is_line l -> scan_consistent st -> scan_consistent (scan_line true st l).
Proof.
  intros Hl (Hc & Hlines & Hcur). unfold scan_line.
  destruct (Py.contains BEGIN_CERTIFICATE l) eqn:Hb.
  { split_and!; [done|by repeat constructor|].
    cbn [in_cert current_cert]. exists l, []. by split_and!. }
  destruct (Py.contains END_CERTIFICATE l) eqn:He.
  { split_and!; [|constructor|done]. cbn [certs]. apply Forall_app. split; [done|].
    constructor; [|constructor].
    destruct (in_cert st).
    - destruct Hcur as (opener & rest & E & Hop & Hrest). rewrite E in Hlines |- *.
      left. exists (PemBlock opener rest l). split_and!.
      + by split_and!.
      + unfold block_lines. cbn [first_line body last_line].
        rewrite app_comm_cons. apply Forall_app. split; [done|by repeat constructor].
      + reflexivity.
    - rewrite Hcur. right. by split. }
  destruct (in_cert st) eqn:Hin; [|by split_and!; [| |rewrite Hin]].
  split_and!; [done| |].
  - cbn [current_cert]. apply Forall_app. split; [done|by repeat constructor].
  - cbn [in_cert current_cert].
    destruct Hcur as (opener & rest & -> & Hop & Hrest).
    exists opener, (rest ++ [l]). split_and!; [done|done|].
    apply Forall_app. split; [done|]. by repeat constructor.
Qed.

Lemma scan_lines_consistent (ls : list string) (st : scan) :
  Forall is_line ls ->
  scan_consistent st -> scan_consistent (fold_left (scan_line true) ls st).
Proof.
  revert st. induction ls as [|l ls IH]; intros st Hls H; [done|].
  inversion Hls; subst. simpl. apply IH; [done|]. by apply scan_line_consistent.
Qed.

Lemma extract_certs_shape (content : string) :
  Forall block_or_end_line (extract_certs content).
Proof.
  unfold extract_certs, scan_lines.
  apply scan_lines_consistent; [apply split_lines|].
  split_and!; [constructor|constructor|reflexivity].
Qed.

Lemma contains_nonempty (needle hay : string) :
  Py.truthy needle = true -> Py.contains needle hay = true -> Py.truthy hay = true.
Proof.
  destruct hay; [|done]. destruct needle; [discriminate|]. simpl. discriminate.
Qed.

Lemma block_or_end_line_truthy (e : string) :
  block_or_end_line e -> Py.truthy e = true.
Proof.
  intros [(b & (Hb & _ & _) & _ & ->)|[[_ He] _]].
  - unfold block_text, block_lines, Py.join.
    assert (Hf : Py.truthy (first_line b) = true)
      by (by apply (contains_nonempty BEGIN_CERTIFICATE)).
    destruct (first_line b) as [|c f]; [discriminate|].
    cbn [String.concat]. by destruct (body b ++ [last_line b]).
  - by apply (contains_nonempty END_CERTIFICATE).
Qed.

Lemma filter_closes_nil (ls : list string) :
  length (List.filter closes_block ls) = 0
  <-> Forall (fun l => closes_block l = false) ls.
Proof.
  induction ls as [|l ls IH]; simpl.
  - split; [constructor|done].
  - destruct (closes_block l) eqn:E; simpl.
    + split; [lia|]. intros H. inversion H; congruence.
    + rewrite IH. split; [by constructor|]. intros H. by inversion H.
Qed.

End ScanInvariants.

(** X1: both variants of the scanning loop return exactly one entry for
    each input line that holds the END marker and not the BEGIN marker,
    whatever else the input holds. *)
Theorem parsers_count_closing_lines (content : string) :
  length (parse_cert_chain content)
  = length (List.filter closes_block (Py.split Py.LF content))
  /\ length (extract_certs content)
     = length (List.filter closes_block (Py.split Py.LF content)).
Proof.
  unfold parse_cert_chain, extract_certs, scan_lines.
  by rewrite !scan_count.
Qed.


(** X3: [extract_root_cert] returns [None] exactly when no line of the
    input holds the END marker without the BEGIN marker, and what it
    returns otherwise is never empty, so the test [if not root_cert] of
    [generate_stores] in main.py fires in that case only. *)
Theorem extract_root_cert_none_iff (content : string) :
  (extract_root_cert content = None
   <-> Forall (fun l => closes_block l = false) (Py.split Py.LF content))
  /\ usable_root content = extract_root_cert content.
Proof.
  split.
  - rewrite <- filter_closes_nil.
    unfold extract_root_cert, extract_certs, scan_lines.
    pose proof (scan_count true (Py.split Py.LF content) scan_init) as Hn.
    simpl in Hn. rewrite <- Hn.
    destruct (certs _); simpl; split; (done || lia).
  - unfold usable_root, extract_root_cert.
    pose proof (extract_certs_shape content) as Hs.
    destruct (extract_certs content) as [|e es]; [reflexivity|]. simpl.
    inversion Hs as [|? ? He _]; subst.
    by rewrite (block_or_end_line_truthy e He).
Qed.

(** X4: on a chain of well-formed blocks, with lines that hold no marker
    allowed around them, [extract_root_cert] returns the text of the
    first block of the input. *)
Theorem extract_root_cert_first_block
  (before : list string) (b : pem_block) (junk : list string)
  (items : list (pem_block * list string)) :
  Forall plain_line before ->
  Forall (fun it => well_formed (fst it) /\ Forall plain_line (snd it))
         ((b, junk) :: items) ->
  Forall is_line (chain_lines before ((b, junk) :: items)) ->
  extract_root_cert (chain_text before ((b, junk) :: items)) = Some (block_text b).
Proof.
  intros Hb Hitems Hlines.
  unfold extract_root_cert, extract_certs, chain_text.
  rewrite scan_text by done.
  by destruct (scan_chain true before ((b, junk) :: items) Hb Hitems) as [-> _].
Qed.

Lemma extract_root_cert_first_block_witness :
  extract_root_cert
    (chain_text ["# root first"] [(sample_block_1, ["subject=CN=inter"]); (sample_block_2, [])])
  = Some (block_text sample_block_1).
Proof.
  apply (extract_root_cert_first_block
           ["# root first"] sample_block_1 ["subject=CN=inter"] [(sample_block_2, [])]).
  - repeat constructor.
  - repeat constructor.
  - repeat constructor.
Defined.

(** * Further properties of the two analyzers *)

Section Analyzers.
Variable x : Lib.

(** The loop of [analyze_certificate] keeps what decodes, each under the
    position of its block. *)
Lemma collect_infos_kept (certs : list string) :
  forall (i : nat) (acc : list Main.CertificateInfo),
  Main.collect_infos x i certs acc
  = acc ++ omap (fun p => decoded_at x (fst p) (snd p))
                (imap (fun k pem => (i + k, pem)) certs).
Proof.
  induction certs as [|pem0 certs IH]; intros i acc.
  - simpl. by rewrite app_nil_r.
  - cbn [Main.collect_infos imap omap list_omap fst snd].
    rewrite Nat.add_0_r. unfold decoded_at at 1.
    assert (E : imap ((fun k pem => (i + k, pem)) ∘ S) certs
                = imap (fun k pem => (S i + k, pem)) certs).
    { apply imap_ext. intros k pem _. simpl. f_equal. lia. }
    rewrite E.
    destruct (Main.get_cert_info x pem0 i) as [info|e]; rewrite IH.
    + by rewrite <- app_assoc.
    + reflexivity.
Qed.

Lemma decoded_at_index (i : nat) (pem : string) (info : Main.CertificateInfo) :
  decoded_at x i pem = Some info -> Main.index info = i.
Proof.
  unfold decoded_at.
  destruct (Main.get_cert_info x pem i) as [info'|e] eqn:E; [|discriminate].
  intros [= <-]. by destruct (get_cert_info_ok x pem i info' E) as (_ & _ & Hi & _).
Qed.

Lemma kept_sorted (certs : list string) :
  forall i : nat,
  let kept := omap (fun p => decoded_at x (fst p) (snd p))
                   (imap (fun k pem => (i + k, pem)) certs) in
  Forall (fun info => i <= Main.index info) kept
  /\ StronglySorted lt (map Main.index kept)
  /\ length kept <= length certs.
Proof.
  induction certs as [|pem0 certs IH]; intros i kept.
  - subst kept. simpl. split_and!; [constructor|constructor|lia].
  - subst kept. cbn [imap omap list_omap fst snd].
    assert (E : imap ((fun k pem => (i + k, pem)) ∘ S) certs
                = imap (fun k pem => (S i + k, pem)) certs).
    { apply imap_ext. intros k pem _. simpl. f_equal. lia. }
    rewrite E, Nat.add_0_r.
    destruct (IH (S i)) as (Hge & Hsorted & Hlen).
    destruct (decoded_at x i pem0) as [info|] eqn:Hd.
    + apply decoded_at_index in Hd. cbn [List.map length]. split_and!.
      * constructor; [lia|]. eapply Forall_impl; [exact Hge|]. simpl. lia.
      * constructor; [exact Hsorted|]. rewrite Hd.
        apply Forall_fmap. eapply Forall_impl; [exact Hge|]. simpl. lia.
      * lia.
    + cbn [length]. split_and!; [|done|lia].
      eapply Forall_impl; [exact Hge|]. simpl. lia.
Qed.

End Analyzers.

(** X5: [analyze_certificate] of main.py reports an upload that is not
    UTF-8 as a failure with the text of the error; otherwise it succeeds
    and returns exactly the blocks that decode, a block that does not
    decode being skipped without a trace.  Each entry carries the
    position of its block in the chain, so the indices increase strictly
    and may have gaps. *)
Theorem analyze_certificate_skips_undecodable (x : Lib) (cert : string) :
  match utf8_decode x cert with
  | Err e =>
      Main.analyze_certificate x cert
      = {| Main.success := false; Main.certificates := [];
           Main.error := Some (exn_text e) |}
  | Ok content =>
      let r := Main.analyze_certificate x cert in
      Main.success r = true /\ Main.error r = None
      /\ (forall info,
            info ∈ Main.certificates r
            <-> exists i pem, parse_cert_chain content !! i = Some pem
                              /\ Main.get_cert_info x pem i = Ok info)
      /\ StronglySorted lt (map Main.index (Main.certificates r))
      /\ length (Main.certificates r) <= length (parse_cert_chain content)
  end.
Proof.
  unfold Main.analyze_certificate.
  destruct (utf8_decode x cert) as [content|e]; [|reflexivity].
  cbn [Main.success Main.error Main.certificates].
  rewrite collect_infos_kept. cbn [app].
  destruct (kept_sorted x (parse_cert_chain content) 0) as (_ & Hsorted & Hlen).
  split_and!; [done|done| |exact Hsorted|exact Hlen].
  intros info. rewrite list_elem_of_omap. split.
  - intros ([i pem] & Hin & Hd). apply elem_of_lookup_imap in Hin.
    destruct Hin as (k & pem' & [= -> ->] & Hk). exists k, pem'.
    split; [done|]. simpl in Hd. unfold decoded_at in Hd.
    destruct (Main.get_cert_info x pem' k); congruence.
  - intros (i & pem & Hi & Hinfo). exists (i, pem). split.
    + apply elem_of_lookup_imap. by exists i, pem.
    + simpl. unfold decoded_at. by rewrite Hinfo.
Qed.

(** X6: [analyze_cert] of app.py answers 400 when no certificate is
    uploaded and 500 when the upload is not UTF-8; otherwise it answers
    200 with one entry for every block, in order: a block that does not
    decode gets an entry too, and the entry of the block at position k
    ends with its index k and with [is_root] set exactly when k is 0,
    whatever its subject and issuer. *)
Theorem analyze_cert_one_entry_per_block (x : Lib) (req : Request) :
  match present (uploads req !! "cert") with
  | None =>
      App.analyze_cert x req
      = ([("success", JBool false); ("error", JStr "No certificate provided")], 400)
  | Some cert_file =>
      match utf8_decode x (payload cert_file) with
      | Err e =>
          App.analyze_cert x req
          = ([("success", JBool false); ("error", JStr (exn_text e))], 500)
      | Ok content =>
          exists results,
            App.analyze_cert x req
            = ([("success", JBool true); ("certificates", JList results)], 200)
            /\ length results = length (parse_cert_chain content)
            /\ (forall k pem,
                  parse_cert_chain content !! k = Some pem ->
                  results !! k
                  = Some (JObj (App.get_cert_info x pem
                                ++ [("index", JInt k); ("is_root", JBool (Nat.eqb k 0))])))
      end
  end.
Proof.
  unfold App.analyze_cert.
  destruct (present (uploads req !! "cert")) as [cert_file|]; [|reflexivity].
  destruct (utf8_decode x (payload cert_file)) as [content|e]; [|reflexivity].
  eexists. split; [reflexivity|].
  destruct app_analyze_cert_flags_by_position as [Hclosed _].
  rewrite Hclosed. cbn [app]. split.
  - by rewrite length_imap.
  - intros k pem Hk. rewrite list_lookup_imap, Hk. simpl.
    by rewrite <- app_assoc.
Qed.

(** * Further properties of [generate_stores] of app.py *)

#[local] Set Warnings "-implicit-create-rewrite-hint-db".
#[local] Hint Rewrite @runs_app @reads_app runs_nil reads_nil
  runs_run runs_write runs_read runs_mkdtemp runs_rmtree runs_which
  reads_read reads_run reads_write reads_mkdtemp reads_rmtree reads_which
  runs_written reads_written runs_import_events reads_import_events : events.

Section FileNames.

Lemma has_char_app (c : ascii) (a b : string) :
  has_char c (a +:+ b) = has_char c a || has_char c b.
Proof.
  induction a as [|d a IH]; [reflexivity|]. simpl. by rewrite IH, orb_assoc.
Qed.

(** Decimal digits hold no separator. *)
Lemma pretty_N_go_no_slash (n : N) (s : string) :
  has_char "/" s = false -> has_char "/" (pretty_N_go n s) = false.
Proof.
  revert s. induction (N.lt_wf_0 n) as [n _ IH]; intros s Hs.
  assert (n = 0 \/ 0 < n)%N as [->|Hpos] by lia.
  - by rewrite pretty_N_go_0.
  - rewrite pretty_N_go_step by done. apply IH; [by apply N.div_lt|].
    simpl. rewrite Hs. unfold pretty_N_char. by repeat case_match.
Qed.

Lemma str_nat_no_slash (i : nat) : has_char "/" (Py.str_nat i) = false.
Proof.
  unfold Py.str_nat, pretty, pretty_nat, pretty, pretty_N.
  case_decide; [reflexivity|]. by apply pretty_N_go_no_slash.
Qed.

(** [ca_<i>.pem] is a file name. *)
Lemma file_name_ca (i : nat) : file_name ("ca_" +:+ Py.str_nat i +:+ ".pem").
Proof.
  split_and!; try discriminate.
  change ("ca_" +:+ Py.str_nat i +:+ ".pem")
    with (String "c" (String "a" (String "_" (Py.str_nat i +:+ ".pem")))).
  cbn [has_char]. rewrite has_char_app, str_nat_no_slash. reflexivity.
Qed.

End FileNames.

Local Ltac in_dir :=
  eexists; (split; [|reflexivity]); first [apply file_name_ca | by repeat split].

Local Ltac confined :=
  repeat first [ apply List.Forall_nil
               | apply List.Forall_cons; [first [exact I | in_dir]|] ].

Section Confined.
Variable work_dir : string.

Lemma in_work_dir_written (l : list (string * string)) :
  Forall (fun pc => exists name, file_name name /\ fst pc = Py.path_join work_dir name)
         l ->
  Forall (in_work_dir work_dir) (written l).
Proof.
  intros H. apply Forall_fmap. eapply Forall_impl; [exact H|]. by intros [p c].
Qed.

Lemma in_work_dir_import_events (alias tp : string) (certs : list string) :
  forall (i : nat) (procs : list CompletedProcess),
  Forall (in_work_dir work_dir) (App.import_events alias tp work_dir i certs procs).
Proof.
  induction certs as [|c certs IH]; intros i [|p procs]; try constructor.
  - in_dir.
  - constructor; [done|]. apply IH.
Qed.

Lemma staging_in_work_dir (ca_chain bundle key : string) :
  Forall (fun pc => exists name, file_name name /\ fst pc = Py.path_join work_dir name)
         (App.staging ca_chain bundle key work_dir).
Proof. repeat (apply List.Forall_cons; [in_dir|]). apply List.Forall_nil. Qed.

Lemma gs_run_in_work_dir (ca_chain bundle key alias tp kp : string)
  (body : list event) (r : App.Results) :
  App.gs_run ca_chain bundle key alias tp kp work_dir body r ->
  Forall (in_work_dir work_dir) body.
Proof.
  pose proof (staging_in_work_dir ca_chain bundle key) as Hst.
  intros Hgs.
  destruct Hgs as [k path content e Hk| |k c procs p Hk|k c procs e Hk|k c procs e Hk
                  |procs tail r Hne Hlen Hz Htail].
  - apply Forall_app. split.
    + apply in_work_dir_written. by apply Forall_take.
    + constructor; [|constructor].
      rewrite Forall_forall in Hst.
      apply (Hst (path, content)). by eapply list_elem_of_lookup_2.
  - by apply in_work_dir_written.
  - apply Forall_app. split; [by apply in_work_dir_written|].
    apply Forall_app. split; [apply in_work_dir_import_events|].
    confined.
  - apply Forall_app. split; [by apply in_work_dir_written|].
    apply Forall_app. split; [apply in_work_dir_import_events|].
    confined.
  - apply Forall_app. split; [by apply in_work_dir_written|].
    apply Forall_app. split; [apply in_work_dir_import_events|].
    confined.
  - apply Forall_app. split; [by apply in_work_dir_written|].
    apply Forall_app. split; [apply in_work_dir_import_events|].
    destruct Htail; confined.
Qed.

End Confined.

(** X7: in every run of [generate_stores] of app.py in which
    [tempfile.mkdtemp()] returns a directory (the call stands before the
    [try]; a run in which it raises ends there and is not described),
    that work directory is created first and removed last, also when a
    later step fails or raises.  Between the two the run creates and
    removes no other directory, and the path of every file it writes or
    reads is the work directory joined with one file name: a name
    without a separator that is not empty, not [.] and not [..]. *)
Theorem generate_stores_confined_to_work_dir (h : Host)
  (ca_chain bundle key alias truststore_password keystore_password : string)
  (s0 : Sys h) :
  let work_dir := fst (os_mkdtemp h (world s0)) in
  let out := App.generate_stores ca_chain bundle key alias truststore_password
                                 keystore_password s0 in
  exists body,
    history (snd out) = history s0 ++ EMkdtemp work_dir :: body ++ [ERmtree work_dir]
    /\ Forall (in_work_dir work_dir) body.
Proof.
  intros work_dir out.
  destruct (generate_stores_runs ca_chain bundle key alias truststore_password
              keystore_password s0) as (body & Hh & Hgs).
  exists body. split; [exact Hh|]. by eapply gs_run_in_work_dir.
Qed.

Section ResultShape.
Variables (ca_chain bundle key alias truststore_password keystore_password : string).
Variable work_dir : string.

Lemma gs_run_shape (body : list event) (r : App.Results) :
  App.gs_run ca_chain bundle key alias truststore_password keystore_password
             work_dir body r ->
  (App.success r = true
   /\ App.errors r = []
   /\ App.info r = [ App.count_msg (extract_certs ca_chain);
                     "P12 keystore created successfully";
                     "JKS keystore created successfully" ]
   /\ (exists t k b,
         reads body = [ (App.truststore_path work_dir, Ok t);
                        (App.keystore_jks_path work_dir, Ok k);
                        (App.keystore_p12_path work_dir, Ok b) ]
         /\ App.files r = <["keystore.p12" := b]>
                            (<["keystore.jks" := k]> (<["truststore.jks" := t]> ∅)))
   /\ App.pem_files r = Some (ca_chain, bundle, key)
   /\ App.passwords r = Some (truststore_password, keystore_password))
  \/ (App.success r = false
      /\ length (App.errors r) = 1
      /\ App.info r `prefix_of` [ App.count_msg (extract_certs ca_chain);
                                  "P12 keystore created successfully";
                                  "JKS keystore created successfully" ]
      /\ App.pem_files r = None
      /\ App.passwords r = None).
Proof.
  intros Hgs.
  destruct Hgs as [k path content e Hk| |k c procs p Hk|k c procs e Hk|k c procs e Hk
                  |procs tail r Hne Hlen Hz Htail].
  1-5: right; split_and!; try reflexivity; apply prefix_nil.
  destruct Htail.
  1-7: right; split_and!; try reflexivity;
       cbn [App.info App.add_error App.set_file App.converted App.exported
            App.imported App.add_info App.results_init app];
       first [ by apply prefix_cons, prefix_nil
             | by do 2 apply prefix_cons; apply prefix_nil
             | done ].
  left. split_and!; try reflexivity.
  exists t, k, b. split; [|reflexivity].
  autorewrite with events. reflexivity.
Qed.

(** A sub-process that fails is the last call of the block. *)
Lemma gs_run_stops (body : list event) (r : App.Results)
  (argv : list string) (res : result CompletedProcess) :
  App.gs_run ca_chain bundle key alias truststore_password keystore_password
             work_dir body r ->
  (argv, res) ∈ runs body -> ~ exit_zero res ->
  last body = Some (ERun argv plain res)
  /\ reads body = []
  /\ App.success r = false
  /\ App.files r = ∅
  /\ match res with
     | Err e => App.errors r = [exn_text e]
     | Ok p => exists label, App.errors r = [label +:+ stderr p]
     end.
Proof.
  intros Hgs Hin Hbad.
  assert (Hzip : forall cmds procs, Forall App.zero_exit procs ->
                   (argv, res) ∈ zip cmds (map Ok procs) -> False).
  { intros cmds procs Hz Hel. apply zip_exit_zero with (cmds := cmds) in Hz.
    rewrite Forall_forall in Hz. by apply Hz in Hel. }
  destruct Hgs as [k path content e Hk| |k c procs p Hk Hlen Hz Hp
                  |k c procs e Hk Hlen Hz|k c procs e Hk Hlen Hz
                  |procs tail r Hne Hlen Hz Htail];
    autorewrite with events in Hin; rewrite ?app_nil_r in Hin; cbn [app] in Hin.
  - by apply elem_of_nil in Hin.
  - by apply elem_of_nil in Hin.
  - apply elem_of_app in Hin as [Hin|Hin]; [by destruct (Hzip _ _ Hz Hin)|].
    apply list_elem_of_singleton in Hin. injection Hin as -> ->.
    rewrite !last_app; cbn [last].
    autorewrite with events.
    split_and!; try reflexivity.
    exists ("Truststore creation failed for cert " +:+ Py.str_nat k +:+ ": ").
    cbn [App.errors App.add_error App.results_init app].
    by rewrite !string_app_assoc.
  - by destruct (Hzip _ _ Hz Hin).
  - apply elem_of_app in Hin as [Hin|Hin]; [by destruct (Hzip _ _ Hz Hin)|].
    apply list_elem_of_singleton in Hin. injection Hin as -> ->.
    rewrite !last_app; cbn [last].
    autorewrite with events.
    split_and!; reflexivity.
  - apply elem_of_app in Hin as [Hin|Hin]; [by destruct (Hzip _ _ Hz Hin)|].
    destruct Htail; autorewrite with events in Hin.
    + apply list_elem_of_singleton in Hin. injection Hin as -> ->.
      rewrite !last_app; cbn [last].
      autorewrite with events. split_and!; reflexivity.
    + apply list_elem_of_singleton in Hin. injection Hin as -> ->.
      rewrite !last_app; cbn [last].
      autorewrite with events. split_and!; try reflexivity. by eexists.
    + apply elem_of_cons in Hin as [Hin|Hin]; [injection Hin as -> ->; by destruct Hbad|].
      apply list_elem_of_singleton in Hin. injection Hin as -> ->.
      rewrite !last_app; cbn [last].
      autorewrite with events. split_and!; reflexivity.
    + apply elem_of_cons in Hin as [Hin|Hin]; [injection Hin as -> ->; by destruct Hbad|].
      apply list_elem_of_singleton in Hin. injection Hin as -> ->.
      rewrite !last_app; cbn [last].
      autorewrite with events. split_and!; try reflexivity. by eexists.
    + exfalso. repeat (apply elem_of_cons in Hin as [Hin|Hin];
                       [injection Hin as -> ->; by destruct Hbad|]).
      by apply elem_of_nil in Hin.
    + exfalso. repeat (apply elem_of_cons in Hin as [Hin|Hin];
                       [injection Hin as -> ->; by destruct Hbad|]).
      by apply elem_of_nil in Hin.
    + exfalso. repeat (apply elem_of_cons in Hin as [Hin|Hin];
                       [injection Hin as -> ->; by destruct Hbad|]).
      by apply elem_of_nil in Hin.
    + exfalso. repeat (apply elem_of_cons in Hin as [Hin|Hin];
                       [injection Hin as -> ->; by destruct Hbad|]).
      by apply elem_of_nil in Hin.
Qed.

End ResultShape.

(** X8: a run of [generate_stores] of app.py ends in one of two ways.
    Either [success] is set, there is no error, the three informational
    messages are present in order, the artifacts are exactly the three
    stores as they were read back from the work directory, and the PEM
    inputs and the two passwords are recorded for later use; or
    [success] is not set, there is exactly one error, the informational
    messages are a prefix of the three, and neither PEM inputs nor
    passwords are recorded. *)
Theorem generate_stores_result_shape (h : Host)
  (ca_chain bundle key alias truststore_password keystore_password : string)
  (w : World h) :
  let work_dir := fst (os_mkdtemp h w) in
  let out := App.generate_stores ca_chain bundle key alias truststore_password
                                 keystore_password (boot w) in
  let messages := [ App.count_msg (extract_certs ca_chain);
                    "P12 keystore created successfully";
                    "JKS keystore created successfully" ] in
  (App.success (fst out) = true
   /\ App.errors (fst out) = []
   /\ App.info (fst out) = messages
   /\ (exists t k b,
         reads (history (snd out))
         = [ (App.truststore_path work_dir, Ok t);
             (App.keystore_jks_path work_dir, Ok k);
             (App.keystore_p12_path work_dir, Ok b) ]
         /\ App.files (fst out)
            = <["keystore.p12" := b]>
                (<["keystore.jks" := k]> (<["truststore.jks" := t]> ∅)))
   /\ App.pem_files (fst out) = Some (ca_chain, bundle, key)
   /\ App.passwords (fst out) = Some (truststore_password, keystore_password))
  \/ (App.success (fst out) = false
      /\ length (App.errors (fst out)) = 1
      /\ App.info (fst out) `prefix_of` messages
      /\ App.pem_files (fst out) = None
      /\ App.passwords (fst out) = None).
Proof.
  intros work_dir out messages.
  destruct (generate_stores_runs ca_chain bundle key alias truststore_password
              keystore_password (boot w)) as (body & Hh & Hgs).
  fold work_dir out in Hh, Hgs. rewrite Hh.
  change (history (boot w)) with (@nil event).
  autorewrite with events. rewrite app_nil_r. cbn [app].
  exact (gs_run_shape _ _ _ _ _ _ _ _ _ Hgs).
Qed.

(** X9: in [generate_stores] of app.py a sub-process that cannot be
    started, or that exits with a non-zero status, ends the run: it is
    the last call before the work directory is removed, no store is read
    back, the result has [success] false and no artifact, and its only
    error is the text of the exception or a label followed by the error
    output of the process. *)
Theorem generate_stores_stops_at_failed_process (h : Host)
  (ca_chain bundle key alias truststore_password keystore_password : string)
  (w : World h) (argv : list string) (res : result CompletedProcess) :
  let work_dir := fst (os_mkdtemp h w) in
  let out := App.generate_stores ca_chain bundle key alias truststore_password
                                 keystore_password (boot w) in
  (argv, res) ∈ runs (history (snd out)) ->
  ~ exit_zero res ->
  (exists before,
     history (snd out)
     = EMkdtemp work_dir :: before ++ [ERun argv plain res; ERmtree work_dir])
  /\ reads (history (snd out)) = []
  /\ App.success (fst out) = false
  /\ App.files (fst out) = ∅
  /\ match res with
     | Err e => App.errors (fst out) = [exn_text e]
     | Ok p => exists label, App.errors (fst out) = [label +:+ stderr p]
     end.
Proof.
  intros work_dir out.
  destruct (generate_stores_runs ca_chain bundle key alias truststore_password
              keystore_password (boot w)) as (body & Hh & Hgs).
  fold work_dir out in Hh, Hgs. rewrite Hh.
  change (history (boot w)) with (@nil event).
  autorewrite with events. rewrite !app_nil_r. cbn [app].
  intros Hin Hbad.
  destruct (gs_run_stops _ _ _ _ _ _ _ _ _ _ _ Hgs Hin Hbad)
    as (Hlast & Hreads & Hrest).
  split; [|split; [exact Hreads|exact Hrest]].
  apply last_Some in Hlast as [before ->]. exists before.
  by rewrite <- app_assoc.
Qed.

Lemma generate_stores_stops_at_failed_process_witness :
  let out := App.generate_stores (h := export_fault_host) sample_chain
               "BUNDLE" "KEY" "kafka-client" "changeit" "changeit"
               (boot (tt : World export_fault_host)) in
  reads (history (snd out)) = []
  /\ App.success (fst out) = false
  /\ App.files (fst out) = ∅.
Proof.
  intros out.
  destruct (generate_stores_stops_at_failed_process export_fault_host sample_chain
              "BUNDLE" "KEY" "kafka-client" "changeit" "changeit" tt
              (App.export_cmd "kafka-client" "changeit" "/tmp/tmpk3v0a9xq")
              (Ok (exited 1 EmptyString "No certificate matches private key")))
    as (_ & Hreads & Hs & Hf & _).
  - vm_compute. do 2 apply list_elem_of_further. apply list_elem_of_here.
  - simpl. discriminate.
  - split_and!; [exact Hreads|exact Hs|exact Hf].
Defined.

Lemma generate_stores_no_artifact_before_read_back_witness :
  App.files (fst (App.generate_stores (h := write_fault_host) sample_chain
                    "BUNDLE" "KEY" "kafka-client" "changeit" "changeit"
                    (boot (tt : World write_fault_host)))) = ∅.
Proof.
  apply (generate_stores_no_artifact_before_read_back (h := write_fault_host)
           sample_chain "BUNDLE" "KEY" "kafka-client" "changeit" "changeit" tt).
  intros path b Hin. vm_compute in Hin. by apply elem_of_nil in Hin.
Defined.

(** * [generate_stores] of main.py *)

Section MainGenerateRuns.
Context {h : Host}.
Variable x : Lib.
Variables (ca_chain cert key bundle alias password bootstrap : string).

Local Ltac same_events :=
  rewrite ?history_rmtree, ?history_log, <- ?app_assoc;
  cbn [written mgs_staging firstn take List.map fst snd app];
  reflexivity.

(** Every run of [generate_stores] is one of the runs of [mgs_run],
    between the creation of the work directory and its removal. *)
Theorem main_generate_stores_runs (s0 : Sys h) :
  let work_dir := fst (os_mkdtemp h (world s0)) in
  let out := Main.generate_stores x ca_chain cert key bundle alias password
                                  bootstrap s0 in
  exists body,
    history (snd out) = history s0 ++ EMkdtemp work_dir :: body ++ [ERmtree work_dir]
    /\ mgs_run x ca_chain cert key bundle alias password bootstrap work_dir body
               (fst out).
Proof.
  unfold Main.generate_stores, sys_mkdtemp.
  destruct (os_mkdtemp h (world s0)) as [wd w0]. cbn [fst].
  unfold try_finally.
  match goal with |- context [Main.generate_stores_body ?x ?a ?b ?c ?d ?e ?f ?g ?w ?st] =>
    destruct (Main.generate_stores_body x a b c d e f g w st) as [c0 [s1 []]] eqn:Hbody end.
  unfold Main.generate_stores_body in Hbody.
  apply lift_then in Hbody as [(cc & Hcc & Hbody)|(e & He & [= -> ->])]; cycle 1.
  { cbn [fst snd returned]. eexists. split; cycle 1.
    - apply mgs_decode_error. unfold decode4. by rewrite He.
    - same_events. }
  apply lift_then in Hbody as [(c & Hc & Hbody)|(e & He & [= -> ->])]; cycle 1.
  { cbn [fst snd returned]. eexists. split; cycle 1.
    - apply mgs_decode_error. unfold decode4. by rewrite Hcc, He.
    - same_events. }
  apply lift_then in Hbody as [(k & Hk & Hbody)|(e & He & [= -> ->])]; cycle 1.
  { cbn [fst snd returned]. eexists. split; cycle 1.
    - apply mgs_decode_error. unfold decode4. by rewrite Hcc, Hc, He.
    - same_events. }
  apply lift_then in Hbody as [(b & Hb & Hbody)|(e & He & [= -> ->])]; cycle 1.
  { cbn [fst snd returned]. eexists. split; cycle 1.
    - apply mgs_decode_error. unfold decode4. by rewrite Hcc, Hc, Hk, He.
    - same_events. }
  assert (Hd : decode4 x ca_chain cert key bundle = Ok (cc, c, k, b))
    by (unfold decode4; by rewrite Hcc, Hc, Hk, Hb).
  destruct (extract_root_cert cc) as [root|] eqn:Hroot; cycle 1.
  { injection Hbody as <- <-. cbn [fst snd returned]. eexists. split; cycle 1.
    - eapply mgs_no_root; [exact Hd|]. unfold usable_root. by rewrite Hroot.
    - same_events. }
  destruct (Py.truthy root) eqn:Ht; cbn [negb] in Hbody; cycle 1.
  { injection Hbody as <- <-. cbn [fst snd returned]. eexists. split; cycle 1.
    - eapply mgs_no_root; [exact Hd|]. unfold usable_root. by rewrite Hroot, Ht.
    - same_events. }
  assert (Hu : usable_root cc = Some root)
    by (unfold usable_root; by rewrite Hroot, Ht).
  apply write_then in Hbody as [[w1 Hbody]|(e & w & [= -> ->])]; cycle 1.
  { cbn [fst snd returned]. eexists. split; cycle 1.
    - by eapply mgs_stage_error with (n := 0).
    - same_events. }
  apply write_then in Hbody as [[w2 Hbody]|(e & w & [= -> ->])]; cycle 1.
  { cbn [fst snd returned]. eexists. split; cycle 1.
    - by eapply mgs_stage_error with (n := 1).
    - same_events. }
  apply write_then in Hbody as [[w3 Hbody]|(e & w & [= -> ->])]; cycle 1.
  { cbn [fst snd returned]. eexists. split; cycle 1.
    - by eapply mgs_stage_error with (n := 2).
    - same_events. }
  apply write_then in Hbody as [[w4 Hbody]|(e & w & [= -> ->])]; cycle 1.
  { cbn [fst snd returned]. eexists. split; cycle 1.
    - by eapply mgs_stage_error with (n := 3).
    - same_events. }
  apply run_then in Hbody as [(p & w5 & Hbody)|(e & w & [= -> ->])]; cycle 1.
  { cbn [fst snd returned]. eexists. split; cycle 1.
    - eapply mgs_staged; [exact Hd|exact Hu|]. apply mgs_import_error.
    - same_events. }
  destruct (returncode p =? 0)%Z eqn:Hp; cbn [negb] in Hbody; cycle 1.
  { injection Hbody as <- <-. cbn [fst snd returned]. eexists. split; cycle 1.
    - eapply mgs_staged; [exact Hd|exact Hu|]. apply mgs_import_failed with (p := p).
      by apply Z.eqb_neq.
    - same_events. }
  apply Z.eqb_eq in Hp.
  apply run_then in Hbody as [(q & w6 & Hbody)|(e & w & [= -> ->])]; cycle 1.
  { cbn [fst snd returned]. eexists. split; cycle 1.
    - eapply mgs_staged; [exact Hd|exact Hu|]. by apply mgs_export_error with (p := p).
    - same_events. }
  destruct (returncode q =? 0)%Z eqn:Hq; cbn [negb] in Hbody; cycle 1.
  { injection Hbody as <- <-. cbn [fst snd returned]. eexists. split; cycle 1.
    - eapply mgs_staged; [exact Hd|exact Hu|]. apply mgs_export_failed with (p := p) (q := q); [done|].
      by apply Z.eqb_neq.
    - same_events. }
  apply Z.eqb_eq in Hq.
  apply read_then in Hbody as [(t & w7 & Hbody)|(e & w & [= -> ->])]; cycle 1.
  { cbn [fst snd returned]. eexists. split; cycle 1.
    - eapply mgs_staged; [exact Hd|exact Hu|]. by apply mgs_read_truststore_error with (p := p) (q := q).
    - same_events. }
  apply read_then in Hbody as [(j & w8 & Hbody)|(e & w & [= -> ->])]; cycle 1.
  { cbn [fst snd returned]. eexists. split; cycle 1.
    - eapply mgs_staged; [exact Hd|exact Hu|]. by apply mgs_read_keystore_error with (p := p) (q := q).
    - same_events. }
  injection Hbody as <- <-. cbn [fst snd returned]. eexists. split; cycle 1.
  - eapply mgs_staged; [exact Hd|exact Hu|]. by apply mgs_archived with (p := p) (q := q).
  - same_events.
Qed.

End MainGenerateRuns.

Section MainGenerateFacts.
Variable x : Lib.
Variables (ca_chain cert key bundle alias password bootstrap work_dir : string).

Abbreviation mgs_run' := (mgs_run x ca_chain cert key bundle alias password
                                  bootstrap work_dir).

Lemma mgs_staging_in_work_dir (root c k b : string) :
  Forall (fun pc => exists name, file_name name /\ fst pc = Py.path_join work_dir name)
         (mgs_staging work_dir root c k b).
Proof. repeat (apply List.Forall_cons; [in_dir|]). apply List.Forall_nil. Qed.

Lemma mgs_run_in_work_dir (body : list event) (r : result (list (string * string))) :
  mgs_run' body r -> Forall (in_work_dir work_dir) body.
Proof.
  intros [e He|cc c k b Hd Hu|cc c k b root n path content e Hd Hu Hn
         |cc c k b root tail r' Hd Hu Htail].
  - constructor.
  - constructor.
  - pose proof (mgs_staging_in_work_dir root c k b) as Hst.
    apply Forall_app. split.
    + apply in_work_dir_written. by apply Forall_take.
    + constructor; [|constructor]. rewrite Forall_forall in Hst.
      apply (Hst (path, content)). by eapply list_elem_of_lookup_2.
  - apply Forall_app. split.
    + apply in_work_dir_written, mgs_staging_in_work_dir.
    + destruct Htail; confined.
Qed.

Lemma mgs_run_processes (body : list event) (r : result (list (string * string))) :
  mgs_run' body r ->
  map fst (runs body) `prefix_of` [ mgs_import_cmd alias password work_dir;
                                    mgs_export_cmd alias password work_dir ].
Proof.
  intros [e He|cc c k b Hd Hu|cc c k b root n path content e Hd Hu Hn
         |cc c k b root tail r' Hd Hu Htail];
    autorewrite with events; cbn [app List.map]; try apply prefix_nil.
  destruct Htail; autorewrite with events; cbn [app List.map fst];
    first [ by apply prefix_cons, prefix_nil | done ].
Qed.

End MainGenerateFacts.

(** X10: in every run of [generate_stores] of main.py in which
    [tempfile.mkdtemp()] returns a directory (the call stands before the
    [try]; a run in which it raises ends there and is not described),
    that work directory is created first and removed last, also when a
    later step raises.  In between, the path of every file the run
    writes or reads is the work directory joined with one file name: a
    name without a separator that is not empty, not [.] and not [..].
    Unlike the function of app.py, this one starts at most two
    sub-processes whatever the length of the chain: one import into the
    trust store, under the alias [<alias>-ca], then the export of the
    key store. *)
Theorem main_generate_stores_confined_to_work_dir (h : Host) (x : Lib)
  (ca_chain cert key bundle alias password bootstrap : string) (s0 : Sys h) :
  let work_dir := fst (os_mkdtemp h (world s0)) in
  let out := Main.generate_stores x ca_chain cert key bundle alias password
                                  bootstrap s0 in
  exists body,
    history (snd out) = history s0 ++ EMkdtemp work_dir :: body ++ [ERmtree work_dir]
    /\ Forall (in_work_dir work_dir) body
    /\ map fst (runs body)
       `prefix_of`
         [ [ "keytool"; "-import"; "-file"; Py.path_join work_dir "CA_root.pem";
             "-alias"; alias +:+ "-ca";
             "-keystore"; Py.path_join work_dir "truststore.jks";
             "-storepass"; password; "-noprompt" ];
           Main.cmd_p12 (Py.path_join work_dir "cert.pem")
                        (Py.path_join work_dir "key.pem")
                        (Py.path_join work_dir "bundle.pem") alias
                        (Py.path_join work_dir "keystore.p12") password ].
Proof.
  intros work_dir out.
  destruct (main_generate_stores_runs x ca_chain cert key bundle alias password
              bootstrap s0) as (body & Hh & Hrun).
  exists body. split; [exact Hh|]. split.
  - by eapply mgs_run_in_work_dir.
  - by eapply mgs_run_processes.
Qed.

(** X11: when the four uploads decode and the CA chain holds no line
    that closes a block, [generate_stores] of main.py raises the HTTP
    error 400 "Could not extract root certificate from CA chain"; it has
    then written no file and started no tool: the work directory is
    created and removed, nothing else. *)
Theorem main_generate_stores_without_root (h : Host) (x : Lib)
  (ca_chain cert key bundle alias password bootstrap : string) (s0 : Sys h)
  (cc c k b : string) :
  decode4 x ca_chain cert key bundle = Ok (cc, c, k, b) ->
  extract_root_cert cc = None ->
  let work_dir := fst (os_mkdtemp h (world s0)) in
  let out := Main.generate_stores x ca_chain cert key bundle alias password
                                  bootstrap s0 in
  fst out = Err (Exn (HTTPException 400)
                     "Could not extract root certificate from CA chain")
  /\ history (snd out) = history s0 ++ [EMkdtemp work_dir; ERmtree work_dir].
Proof.
  intros Hd Hnone work_dir out.
  destruct (main_generate_stores_runs x ca_chain cert key bundle alias password
              bootstrap s0) as (body & Hh & Hrun).
  fold work_dir out in Hh, Hrun. rewrite Hh.
  assert (Hu : usable_root cc = None) by (unfold usable_root; by rewrite Hnone).
  destruct Hrun as [e He|cc' c' k' b' Hd' Hu'|cc' c' k' b' root n path content e Hd' Hu' Hn
                   |cc' c' k' b' root tail r' Hd' Hu' Htail].
  - congruence.
  - done.
  - congruence.
  - congruence.
Qed.

Lemma main_generate_stores_without_root_witness :
  let out := Main.generate_stores (h := ok_host) sample_lib "subject=CN=Root CA"
               "CERT" "KEY" "BUNDLE" "kafka-client" "changeit" "broker:9093"
               (boot (tt : World ok_host)) in
  fst out = Err (Exn (HTTPException 400)
                     "Could not extract root certificate from CA chain")
  /\ history (snd out) = [EMkdtemp "/tmp/tmpk3v0a9xq"; ERmtree "/tmp/tmpk3v0a9xq"].
Proof.
  exact (main_generate_stores_without_root ok_host sample_lib "subject=CN=Root CA"
           "CERT" "KEY" "BUNDLE" "kafka-client" "changeit" "broker:9093"
           (boot (tt : World ok_host))
           "subject=CN=Root CA" "CERT" "KEY" "BUNDLE" eq_refl eq_refl).
Defined.

(** X12: when [generate_stores] of main.py returns, the archive holds
    four entries in this order: [truststore.jks] and [keystore.p12] as
    read back from the work directory, [client-ssl.properties] as
    rendered from the password and the endpoint, and [CA_root.pem], the
    first entry of the decoded chain, which is also the one file that
    was imported into the trust store; both tools ran, in that order,
    and exited with zero. *)
Theorem main_generate_stores_archive (h : Host) (x : Lib)
  (ca_chain cert key bundle alias password bootstrap : string) (w : World h)
  (entries : list (string * string)) :
  let work_dir := fst (os_mkdtemp h w) in
  let out := Main.generate_stores x ca_chain cert key bundle alias password
                                  bootstrap (boot w) in
  fst out = Ok entries ->
  exists cc root t k,
    utf8_decode x ca_chain = Ok cc
    /\ extract_root_cert cc = Some root
    /\ entries = [ ("truststore.jks", t);
                   ("keystore.p12", k);
                   ("client-ssl.properties", Main.properties_content password bootstrap);
                   ("CA_root.pem", root) ]
    /\ reads (history (snd out))
       = [ (Py.path_join work_dir "truststore.jks", Ok t);
           (Py.path_join work_dir "keystore.p12", Ok k) ]
    /\ EWrite (Py.path_join work_dir "CA_root.pem") root (Ok tt) ∈ history (snd out)
    /\ map fst (runs (history (snd out)))
       = [ mgs_import_cmd alias password work_dir;
           mgs_export_cmd alias password work_dir ]
    /\ Forall (fun c => exit_zero (snd c)) (runs (history (snd out))).
Proof.
  intros work_dir out.
  destruct (main_generate_stores_runs x ca_chain cert key bundle alias password
              bootstrap (boot w)) as (body & Hh & Hrun).
  fold work_dir out in Hh, Hrun. rewrite Hh.
  change (history (boot w)) with (@nil event). cbn [app].
  intros Hok.
  destruct Hrun as [e He|cc c k b Hd Hu|cc c k b root n path content e Hd Hu Hn
                   |cc c k b root tail r' Hd Hu Htail]; try congruence.
  destruct Htail; try congruence. injection Hok as <-.
  assert (Hcc : utf8_decode x ca_chain = Ok cc).
  { unfold decode4 in Hd.
    destruct (utf8_decode x ca_chain); [|discriminate].
    destruct (utf8_decode x cert); [|discriminate].
    destruct (utf8_decode x key); [|discriminate].
    destruct (utf8_decode x bundle); [|discriminate]. congruence. }
  assert (Hroot : extract_root_cert cc = Some root).
  { unfold usable_root in Hu. destruct (extract_root_cert cc) as [r0|]; [|discriminate].
    destruct (Py.truthy r0); congruence. }
  exists cc, root, t, k0. split_and!; try done.
  - do 1 apply list_elem_of_further. apply list_elem_of_here.
  - repeat constructor; done.
Qed.

Lemma main_generate_stores_archive_witness :
  exists t k,
    fst (Main.generate_stores (h := ok_host) sample_lib sample_chain
           "CERT" "KEY" "BUNDLE" "kafka-client" "changeit" "broker:9093"
           (boot (tt : World ok_host)))
    = Ok [ ("truststore.jks", t);
           ("keystore.p12", k);
           ("client-ssl.properties", Main.properties_content "changeit" "broker:9093");
           ("CA_root.pem", block_text sample_block_1) ].
Proof.
  destruct (main_generate_stores_archive ok_host sample_lib sample_chain
              "CERT" "KEY" "BUNDLE" "kafka-client" "changeit" "broker:9093" tt
              _ eq_refl)
    as (cc & root & t & k & Hcc & Hroot & _).
  exists "</tmp/tmpk3v0a9xq/truststore.jks>", "</tmp/tmpk3v0a9xq/keystore.p12>".
  vm_compute. reflexivity.
Defined.

(** X13: in [generate_stores] of main.py a tool that exits with a
    non-zero status ends the run with the HTTP error 500 whose detail is
    "Truststore creation failed: " or "Keystore creation failed: "
    followed by the error output of the tool; that tool is the last
    sub-process of the run and no store is read back. *)
Theorem main_generate_stores_tool_failure (h : Host) (x : Lib)
  (ca_chain cert key bundle alias password bootstrap : string) (w : World h)
  (argv : list string) (p : CompletedProcess) :
  let out := Main.generate_stores x ca_chain cert key bundle alias password
                                  bootstrap (boot w) in
  (argv, Ok p) ∈ runs (history (snd out)) ->
  returncode p <> 0%Z ->
  (exists label,
     label ∈ ["Truststore creation failed: "; "Keystore creation failed: "]
     /\ fst out = Err (Exn (HTTPException 500) (label +:+ stderr p)))
  /\ last (runs (history (snd out))) = Some (argv, Ok p)
  /\ reads (history (snd out)) = [].
Proof.
  intros out.
  destruct (main_generate_stores_runs x ca_chain cert key bundle alias password
              bootstrap (boot w)) as (body & Hh & Hrun).
  fold out in Hh, Hrun. rewrite Hh.
  change (history (boot w)) with (@nil event).
  autorewrite with events. rewrite !app_nil_r. cbn [app].
  intros Hin Hbad.
  destruct Hrun as [e He|cc c k b Hd Hu|cc c k b root n path content e Hd Hu Hn
                   |cc c k b root tail r' Hd Hu Htail];
    autorewrite with events in Hin; cbn [app] in Hin;
    try (by apply elem_of_nil in Hin).
  autorewrite with events. cbn [app].
  destruct Htail; autorewrite with events in Hin |- *;
    repeat (apply elem_of_cons in Hin as [Hin|Hin]; [simplify_eq|]);
    try (by apply elem_of_nil in Hin);
    try congruence.
  - split_and!; try reflexivity. eexists. split; [|reflexivity].
    apply list_elem_of_here.
  - split_and!; try reflexivity. eexists. split; [|reflexivity].
    apply list_elem_of_further, list_elem_of_here.
Qed.

Lemma main_generate_stores_tool_failure_witness :
  let out := Main.generate_stores (h := export_fault_host) sample_lib sample_chain
               "CERT" "KEY" "BUNDLE" "kafka-client" "changeit" "broker:9093"
               (boot (tt : World export_fault_host)) in
  fst out = Err (Exn (HTTPException 500)
                     "Keystore creation failed: No certificate matches private key")
  /\ reads (history (snd out)) = [].
Proof.
  intros out.
  destruct (main_generate_stores_tool_failure export_fault_host sample_lib sample_chain
              "CERT" "KEY" "BUNDLE" "kafka-client" "changeit" "broker:9093" tt
              (mgs_export_cmd "kafka-client" "changeit" "/tmp/tmpk3v0a9xq")
              (exited 1 EmptyString "No certificate matches private key"))
    as (_ & _ & Hreads).
  - vm_compute. apply list_elem_of_further, list_elem_of_here.
  - simpl. discriminate.
  - split; [vm_compute; reflexivity|exact Hreads].
Defined.

(** * Further properties of the connection probes *)

Section Events.

Lemma elem_of_written (e : event) (l : list (string * string)) :
  e ∈ written l -> exists path content, e = EWrite path content (Ok tt).
Proof.
  intros H. apply list_elem_of_fmap in H as ([p c] & -> & _). by eexists _, _.
Qed.

Lemma lookup_events (found : list event) (bin : option string) :
  kafka_lookup found bin ->
  runs found = []
  /\ (forall work_dir, Forall (in_work_dir work_dir) found)
  /\ (forall e, e ∈ found -> exists name r, e = EWhich name r)
  /\ (opt_truthy bin = false -> EWhich "kafka-topics" bin ∈ found)
  /\ (forall r, EWhich "kafka-topics" r ∈ found -> r = bin)
  /\ (forall name r, EWhich name r ∈ found -> opt_truthy r = true -> r = bin).
Proof.
  intros [a Ha|a b Ha]; split_and!; try reflexivity.
  - intros wd. by repeat constructor.
  - intros e He. apply list_elem_of_singleton in He as ->. by eexists _, _.
  - intros Hb. congruence.
  - intros r Hr. apply list_elem_of_singleton in Hr. discriminate Hr.
  - intros name r Hr _. apply list_elem_of_singleton in Hr. by simplify_eq.
  - intros wd. by repeat constructor.
  - intros e He. apply elem_of_cons in He as [->|He]; [by eexists _, _|].
    apply list_elem_of_singleton in He as ->. by eexists _, _.
  - intros _. apply list_elem_of_further, list_elem_of_here.
  - intros r Hr. apply elem_of_cons in Hr as [Hr|Hr]; [discriminate Hr|].
    apply list_elem_of_singleton in Hr. by simplify_eq.
  - intros name r Hr Ht. apply elem_of_cons in Hr as [Hr|Hr]; [simplify_eq; congruence|].
    apply list_elem_of_singleton in Hr. by simplify_eq.
Qed.

End Events.

Section MainProbeFacts.
Variables (truststore keystore password bootstrap work_dir : string).

Abbreviation tkc_run' := (tkc_run truststore keystore password bootstrap work_dir).

Lemma tkc_staging_in_work_dir :
  Forall (fun pc => exists name, file_name name /\ fst pc = Py.path_join work_dir name)
         (tkc_staging truststore keystore password work_dir).
Proof. repeat (apply List.Forall_cons; [in_dir|]). apply List.Forall_nil. Qed.

Lemma tkc_run_in_work_dir (body : list event) (r : Main.TestResult) :
  tkc_run' body r ->
  Forall (in_work_dir work_dir) body /\ length (runs body) <= 1.
Proof.
  pose proof tkc_staging_in_work_dir as Hst.
  intros [k path content e Hk|found bin e Hf Hb|found bin p Hf Hb Hp
         |found bin p Hf Hb Hp|found bin tail r' Hf Hb Hssl].
  - split.
    + apply Forall_app. split; [apply in_work_dir_written; by apply Forall_take|].
      constructor; [|constructor]. rewrite Forall_forall in Hst.
      apply (Hst (path, content)). by eapply list_elem_of_lookup_2.
    + autorewrite with events. simpl. lia.
  - destruct (lookup_events _ _ Hf) as (Hr & Hw & _). split.
    + apply Forall_app. split; [by apply in_work_dir_written|].
      apply Forall_app. split; [apply Hw|]. by repeat constructor.
    + autorewrite with events. rewrite Hr. simpl. lia.
  - destruct (lookup_events _ _ Hf) as (Hr & Hw & _). split.
    + apply Forall_app. split; [by apply in_work_dir_written|].
      apply Forall_app. split; [apply Hw|]. by repeat constructor.
    + autorewrite with events. rewrite Hr. simpl. lia.
  - destruct (lookup_events _ _ Hf) as (Hr & Hw & _). split.
    + apply Forall_app. split; [by apply in_work_dir_written|].
      apply Forall_app. split; [apply Hw|]. by repeat constructor.
    + autorewrite with events. rewrite Hr. simpl. lia.
  - destruct (lookup_events _ _ Hf) as (Hr & Hw & _). split.
    + apply Forall_app. split; [by apply in_work_dir_written|].
      apply Forall_app. split; [apply Hw|].
      destruct Hssl; by repeat constructor.
    + autorewrite with events. rewrite Hr.
      destruct Hssl; simpl; lia.
Qed.

(** The sub-processes of a run, the look-ups that preceded them and the
    answer. *)
Lemma tkc_run_process (body : list event) (r : Main.TestResult)
  (argv : list string) (kw : run_kwargs) (res : result CompletedProcess) :
  tkc_run' body r -> ERun argv kw res ∈ body ->
  (exists name bin,
     EWhich name (Some bin) ∈ body /\ Py.truthy bin = true
     /\ argv = Main.cmd_kafka bin (Py.path_join work_dir "client-ssl.properties")
                              bootstrap
     /\ kw = {| cwd := None; timeout := Some 30; input := None |}
     /\ r = match res with
            | Err e => test_failed e
            | Ok p =>
                if (returncode p =? 0)%Z
                then {| Main.t_success := true;
                        Main.message := "Connection successful! Found "
                                        +:+ Py.str_nat (length (parse_topics (stdout p)))
                                        +:+ " topics.";
                        Main.details := None;
                        Main.topics := Some (parse_topics (stdout p)) |}
                else {| Main.t_success := false;
                        Main.message := "Kafka connection failed";
                        Main.details := Some (Py.str_or (stderr p) (stdout p));
                        Main.topics := None |}
            end)
  \/ (exists host port o,
        EWhich "kafka-topics" o ∈ body /\ opt_truthy o = false
        /\ bootstrap_host_port bootstrap = Ok (host, port)
        /\ argv = Main.cmd_ssl host port
        /\ kw = {| cwd := None; timeout := Some 10; input := Some EmptyString |}
        /\ r = match res with
               | Err e =>
                   if is_timeout e
                   then {| Main.t_success := false;
                           Main.message := "Connection timeout to "
                                           +:+ host +:+ ":" +:+ port;
                           Main.details :=
                             Some "The server did not respond within 10 seconds";
                           Main.topics := None |}
                   else test_failed e
               | Ok p =>
                   if Py.contains "CONNECTED" (stdout p)
                      || Py.contains "CONNECTED" (stderr p)
                   then {| Main.t_success := true;
                           Main.message := "SSL handshake successful with "
                                           +:+ host +:+ ":" +:+ port;
                           Main.details :=
                             Some "Kafka CLI not available - performed basic SSL connectivity test only";
                           Main.topics := None |}
                   else {| Main.t_success := false;
                           Main.message := "Cannot establish SSL connection to "
                                           +:+ host +:+ ":" +:+ port;
                           Main.details := Some (if Py.truthy (stderr p)
                                                 then Py.slice_to 500 (stderr p)
                                                 else "Unknown error");
                           Main.topics := None |}
               end).
Proof.
  intros Hrun Hin.
  assert (Hw : forall l, ERun argv kw res ∈ written l -> False).
  { intros l H. apply elem_of_written in H as (? & ? & ?). discriminate. }
  assert (Hl : forall found o, kafka_lookup found o -> ERun argv kw res ∈ found -> False).
  { intros found o Hf H. destruct (lookup_events _ _ Hf) as (_ & _ & Hwh & _).
    apply Hwh in H as (? & ? & ?). discriminate. }
  assert (Hfound : forall found bin, kafka_lookup found (Some bin) ->
                     exists name, EWhich name (Some bin) ∈ found).
  { intros found bin Hf. inversion Hf; subst; eexists.
    - apply list_elem_of_here.
    - apply list_elem_of_further, list_elem_of_here. }
  destruct Hrun as [k path content e Hk|found bin e Hf Hb|found bin p Hf Hb Hp
                   |found bin p Hf Hb Hp|found bin tail r' Hf Hb Hssl].
  - apply elem_of_app in Hin as [Hin|Hin]; [by destruct (Hw _ Hin)|].
    apply list_elem_of_singleton in Hin. discriminate Hin.
  - apply elem_of_app in Hin as [Hin|Hin]; [by destruct (Hw _ Hin)|].
    apply elem_of_app in Hin as [Hin|Hin]; [by destruct (Hl _ _ Hf Hin)|].
    apply list_elem_of_singleton in Hin. simplify_eq. left.
    destruct (Hfound _ _ Hf) as [name Hname]. exists name, bin.
    split_and!; try done.
    apply elem_of_app. right. apply elem_of_app. by left.
  - apply elem_of_app in Hin as [Hin|Hin]; [by destruct (Hw _ Hin)|].
    apply elem_of_app in Hin as [Hin|Hin]; [by destruct (Hl _ _ Hf Hin)|].
    apply list_elem_of_singleton in Hin. simplify_eq. left.
    destruct (Hfound _ _ Hf) as [name Hname]. exists name, bin.
    split_and!; try done.
    + apply elem_of_app. right. apply elem_of_app. by left.
    + by rewrite Hp.
  - apply elem_of_app in Hin as [Hin|Hin]; [by destruct (Hw _ Hin)|].
    apply elem_of_app in Hin as [Hin|Hin]; [by destruct (Hl _ _ Hf Hin)|].
    apply list_elem_of_singleton in Hin. simplify_eq. left.
    destruct (Hfound _ _ Hf) as [name Hname]. exists name, bin.
    split_and!; try done.
    + apply elem_of_app. right. apply elem_of_app. by left.
    + apply Z.eqb_neq in Hp. by rewrite Hp.
  - apply elem_of_app in Hin as [Hin|Hin]; [by destruct (Hw _ Hin)|].
    apply elem_of_app in Hin as [Hin|Hin]; [by destruct (Hl _ _ Hf Hin)|].
    destruct (lookup_events _ _ Hf) as (_ & _ & _ & Hlast & _).
    assert (Hwhich : EWhich "kafka-topics" bin
                     ∈ written (tkc_staging truststore keystore password work_dir)
                       ++ found ++ tail).
    { apply elem_of_app. right. apply elem_of_app. left. by apply Hlast. }
    right.
    destruct Hssl as [e He|host port e He Ht|host port e He Ht
                     |host port p He Hc|host port p He Hc].
    + by apply elem_of_nil in Hin.
    + apply list_elem_of_singleton in Hin. simplify_eq.
      exists host, port, bin. split_and!; try done. by rewrite Ht.
    + apply list_elem_of_singleton in Hin. simplify_eq.
      exists host, port, bin. split_and!; try done. by rewrite Ht.
    + apply list_elem_of_singleton in Hin. simplify_eq.
      exists host, port, bin. split_and!; try done. by rewrite Hc.
    + apply list_elem_of_singleton in Hin. simplify_eq.
      exists host, port, bin. split_and!; try done. by rewrite Hc.
Qed.

End MainProbeFacts.

(** X15: in every run of [test_kafka_connection] of main.py in which
    [tempfile.mkdtemp()] returns a directory (the call stands before the
    [try]; a run in which it raises ends there and is not described),
    whatever fails afterwards is caught and a [TestResult] is returned.
    The work directory is created first and removed last; in between the
    run creates no other directory, the path of every file it writes is
    the work directory joined with one file name (a name without a
    separator that is not empty, not [.] and not [..]), and at most one
    sub-process is started. *)
Theorem test_kafka_connection_always_answers (h : Host)
  (truststore keystore password bootstrap : string) (s0 : Sys h) :
  let work_dir := fst (os_mkdtemp h (world s0)) in
  let out := Main.test_kafka_connection truststore keystore password bootstrap s0 in
  exists body r,
    fst out = Ok r
    /\ history (snd out) = history s0 ++ EMkdtemp work_dir :: body ++ [ERmtree work_dir]
    /\ Forall (in_work_dir work_dir) body
    /\ length (runs body) <= 1.
Proof.
  intros work_dir out.
  destruct (test_kafka_connection_runs truststore keystore password bootstrap s0)
    as (body & r & Hr & Hh & Hrun).
  exists body, r. split; [exact Hr|]. split; [exact Hh|].
  by eapply tkc_run_in_work_dir.
Qed.

(** X16: a sub-process started by [test_kafka_connection] of main.py is
    one of two.  Either it is the Kafka command-line client that
    [shutil.which] found, run with [--list] on the endpoint as given and
    a timeout of 30 seconds; the answer then reports the topics when it
    exits with zero, "Kafka connection failed" with its error output (or
    its output when that is empty) when it does not, and "Test failed"
    when it cannot be run or times out.  Or neither client name was
    found, the endpoint splits into a host and a port, and the process
    is [openssl s_client -connect host:port -brief] with a timeout of 10
    seconds and empty input; the answer then is a success when CONNECTED
    occurs in its output, "Connection timeout to host:port" when it
    times out, and otherwise a failure whose details are the first 500
    characters of its error output, or "Unknown error". *)
Theorem test_kafka_connection_process (h : Host)
  (truststore keystore password bootstrap : string) (w : World h)
  (argv : list string) (kw : run_kwargs) (res : result CompletedProcess) :
  let work_dir := fst (os_mkdtemp h w) in
  let out := Main.test_kafka_connection truststore keystore password bootstrap
                                        (boot w) in
  ERun argv kw res ∈ history (snd out) ->
  (exists name bin,
     EWhich name (Some bin) ∈ history (snd out) /\ Py.truthy bin = true
     /\ argv = [ bin; "--list";
                 "--command-config"; Py.path_join work_dir "client-ssl.properties";
                 "--bootstrap-server"; bootstrap ]
     /\ kw = {| cwd := None; timeout := Some 30; input := None |}
     /\ fst out
        = Ok match res with
             | Err e => test_failed e
             | Ok p =>
                 if (returncode p =? 0)%Z
                 then {| Main.t_success := true;
                         Main.message := "Connection successful! Found "
                                         +:+ Py.str_nat (length (parse_topics (stdout p)))
                                         +:+ " topics.";
                         Main.details := None;
                         Main.topics := Some (parse_topics (stdout p)) |}
                 else {| Main.t_success := false;
                         Main.message := "Kafka connection failed";
                         Main.details := Some (Py.str_or (stderr p) (stdout p));
                         Main.topics := None |}
             end)
  \/ (exists host port o,
        EWhich "kafka-topics" o ∈ history (snd out) /\ opt_truthy o = false
        /\ bootstrap_host_port bootstrap = Ok (host, port)
        /\ argv = [ "openssl"; "s_client"; "-connect"; host +:+ ":" +:+ port; "-brief" ]
        /\ kw = {| cwd := None; timeout := Some 10; input := Some EmptyString |}
        /\ fst out
           = Ok match res with
                | Err e =>
                    if is_timeout e
                    then {| Main.t_success := false;
                            Main.message := "Connection timeout to "
                                            +:+ host +:+ ":" +:+ port;
                            Main.details :=
                              Some "The server did not respond within 10 seconds";
                            Main.topics := None |}
                    else test_failed e
                | Ok p =>
                    if Py.contains "CONNECTED" (stdout p)
                       || Py.contains "CONNECTED" (stderr p)
                    then {| Main.t_success := true;
                            Main.message := "SSL handshake successful with "
                                            +:+ host +:+ ":" +:+ port;
                            Main.details :=
                              Some "Kafka CLI not available - performed basic SSL connectivity test only";
                            Main.topics := None |}
                    else {| Main.t_success := false;
                            Main.message := "Cannot establish SSL connection to "
                                            +:+ host +:+ ":" +:+ port;
                            Main.details := Some (if Py.truthy (stderr p)
                                                  then Py.slice_to 500 (stderr p)
                                                  else "Unknown error");
                            Main.topics := None |}
                end).
Proof.
  intros work_dir out.
  destruct (test_kafka_connection_runs truststore keystore password bootstrap (boot w))
    as (body & r & Hr & Hh & Hrun).
  fold work_dir out in Hr, Hh, Hrun. rewrite Hh, Hr.
  change (history (boot w)) with (@nil event). cbn [app].
  intros Hin.
  assert (Hbody : ERun argv kw res ∈ body).
  { apply elem_of_cons in Hin as [Hin|Hin]; [discriminate Hin|].
    apply elem_of_app in Hin as [Hin|Hin]; [done|].
    apply list_elem_of_singleton in Hin. discriminate Hin. }
  assert (Hup : forall e, e ∈ body -> e ∈ EMkdtemp work_dir :: body ++ [ERmtree work_dir]).
  { intros e He. apply list_elem_of_further, elem_of_app. by left. }
  destruct (tkc_run_process _ _ _ _ _ _ _ _ _ _ Hrun Hbody)
    as [(name & bin & Hw & Hb & -> & -> & ->)
       |(host & port & o & Hw & Ho & Hs & -> & -> & ->)].
  - left. exists name, bin. split_and!; try done. by apply Hup.
  - right. exists host, port, o. split_and!; try done. by apply Hup.
Qed.

Lemma test_kafka_connection_process_witness :
  let out := Main.test_kafka_connection (h := ok_host) "TRUST" "KEYS" "changeit"
               "broker.example.org" (boot (tt : World ok_host)) in
  exists o,
    EWhich "kafka-topics" o ∈ history (snd out) /\ opt_truthy o = false
    /\ fst out
       = Ok {| Main.t_success := false;
               Main.message := "Cannot establish SSL connection to broker.example.org:443";
               Main.details := Some "Unknown error";
               Main.topics := None |}.
Proof.
  intros out.
  destruct (test_kafka_connection_process ok_host "TRUST" "KEYS" "changeit"
              "broker.example.org" tt
              ["openssl"; "s_client"; "-connect"; "broker.example.org:443"; "-brief"]
              {| cwd := None; timeout := Some 10; input := Some EmptyString |}
              (Ok (exited 0 EmptyString EmptyString)))
    as [(name & bin & Hw & _)|(host & port & o & Hw & Ho & Hs & _ & _ & Hr)].
  - vm_compute. do 6 apply list_elem_of_further. apply list_elem_of_here.
  - exfalso. vm_compute in Hw.
    repeat (apply elem_of_cons in Hw as [Hw|Hw]; [discriminate Hw|]).
    by apply elem_of_nil in Hw.
  - exists o. split; [exact Hw|]. split; [exact Ho|].
    vm_compute. reflexivity.
Defined.

(** X17: when the endpoint given to [test_kafka_connection] of main.py
    holds two or more colons and neither client name is found, the
    unpacking of the split raises [ValueError]; it is caught by the
    handler of the probe, which answers "Test failed" with the text of
    the exception, and no sub-process has been started. *)
Theorem test_kafka_connection_many_colons (h : Host)
  (truststore keystore password bootstrap : string) (w : World h)
  (o : option string) :
  let out := Main.test_kafka_connection truststore keystore password bootstrap
                                        (boot w) in
  2 <= count_char ":" bootstrap ->
  EWhich "kafka-topics" o ∈ history (snd out) ->
  opt_truthy o = false ->
  fst out = Ok {| Main.t_success := false;
                  Main.message := "Test failed";
                  Main.details := Some "too many values to unpack (expected 2)";
                  Main.topics := None |}
  /\ runs (history (snd out)) = [].
Proof.
  intros out Hcolons.
  destruct (test_kafka_connection_runs truststore keystore password bootstrap (boot w))
    as (body & r & Hr & Hh & Hrun).
  fold out in Hr, Hh, Hrun. rewrite Hh, Hr.
  change (history (boot w)) with (@nil event). cbn [app].
  intros Hin Ho.
  assert (Hbody : EWhich "kafka-topics" o ∈ body).
  { apply elem_of_cons in Hin as [Hin|Hin]; [discriminate Hin|].
    apply elem_of_app in Hin as [Hin|Hin]; [done|].
    apply list_elem_of_singleton in Hin. discriminate Hin. }
  clear Hin.
  assert (Hw : forall l, EWhich "kafka-topics" o ∈ written l -> False).
  { intros l H. apply elem_of_written in H as (? & ? & ?). discriminate. }
  assert (Hcli : forall found bin, kafka_lookup found (Some bin) ->
                   Py.truthy bin = true -> EWhich "kafka-topics" o ∈ found -> False).
  { intros found bin Hf Hb H. destruct (lookup_events _ _ Hf) as (_ & _ & _ & _ & Heq & _).
    apply Heq in H. subst o. simpl in Ho. congruence. }
  pose proof (host_port_too_many bootstrap Hcolons) as Hsplit.
  autorewrite with events. rewrite !app_nil_r. cbn [app].
  destruct Hrun as [k path content e Hk|found bin e Hf Hb|found bin p Hf Hb Hp
                   |found bin p Hf Hb Hp|found bin tail r' Hf Hb Hssl].
  - exfalso. apply elem_of_app in Hbody as [H|H]; [by destruct (Hw _ H)|].
    apply list_elem_of_singleton in H. discriminate H.
  - exfalso. apply elem_of_app in Hbody as [H|H]; [by destruct (Hw _ H)|].
    apply elem_of_app in H as [H|H]; [by destruct (Hcli _ _ Hf Hb H)|].
    apply list_elem_of_singleton in H. discriminate H.
  - exfalso. apply elem_of_app in Hbody as [H|H]; [by destruct (Hw _ H)|].
    apply elem_of_app in H as [H|H]; [by destruct (Hcli _ _ Hf Hb H)|].
    apply list_elem_of_singleton in H. discriminate H.
  - exfalso. apply elem_of_app in Hbody as [H|H]; [by destruct (Hw _ H)|].
    apply elem_of_app in H as [H|H]; [by destruct (Hcli _ _ Hf Hb H)|].
    apply list_elem_of_singleton in H. discriminate H.
  - destruct (lookup_events _ _ Hf) as (Hruns & _).
    destruct Hssl as [e He| | | |]; try congruence.
    autorewrite with events. rewrite Hruns. split; [|reflexivity].
    rewrite Hsplit in He. by injection He as <-.
Qed.

Lemma test_kafka_connection_many_colons_witness :
  let out := Main.test_kafka_connection (h := ok_host) "TRUST" "KEYS" "changeit"
               "[2001:db8::1]:9093" (boot (tt : World ok_host)) in
  fst out = Ok {| Main.t_success := false;
                  Main.message := "Test failed";
                  Main.details := Some "too many values to unpack (expected 2)";
                  Main.topics := None |}
  /\ runs (history (snd out)) = [].
Proof.
  apply (test_kafka_connection_many_colons ok_host "TRUST" "KEYS" "changeit"
           "[2001:db8::1]:9093" tt None).
  - simpl. lia.
  - vm_compute. do 5 apply list_elem_of_further. apply list_elem_of_here.
  - reflexivity.
Defined.

Section AppProbeFacts.
Variable x : Lib.
Variables (req : Request) (work_dir : string).

(** The inner [generate_stores] looks nothing up and runs only the two
    store tools. *)
Lemma import_events_kinds (alias tp inner : string) (certs : list string) :
  forall (i : nat) (procs : list CompletedProcess) (e : event),
  e ∈ App.import_events alias tp inner i certs procs ->
  (exists path content res, e = EWrite path content res)
  \/ (exists rest res, e = ERun ("keytool" :: rest) plain res).
Proof.
  induction certs as [|c certs IH]; intros i [|p procs] e He;
    try (by apply elem_of_nil in He).
  cbn [App.import_events] in He.
  apply elem_of_cons in He as [->|He]; [left; by eexists _, _, _|].
  apply elem_of_cons in He as [->|He]; [right; by eexists _, _|].
  by apply IH in He.
Qed.

Lemma gs_run_kinds (ca_chain bundle key alias tp kp inner : string)
  (body : list event) (r : App.Results) (e : event) :
  App.gs_run ca_chain bundle key alias tp kp inner body r -> e ∈ body ->
  (exists path content res, e = EWrite path content res)
  \/ (exists path res, e = ERead path res)
  \/ (exists tool rest res,
        e = ERun (tool :: rest) plain res /\ (tool = "keytool" \/ tool = "openssl")).
Proof.
  intros Hgs He.
  assert (Hw : forall l, e ∈ written l -> exists path content res, e = EWrite path content res).
  { intros l H. apply elem_of_written in H as (p & c & ->). by eexists _, _, _. }
  assert (Hi : forall i certs procs,
             e ∈ App.import_events alias tp inner i certs procs ->
             (exists path content res, e = EWrite path content res)
             \/ (exists path res, e = ERead path res)
             \/ (exists tool rest res,
                   e = ERun (tool :: rest) plain res
                   /\ (tool = "keytool" \/ tool = "openssl"))).
  { intros i certs procs H. apply import_events_kinds in H as [H|(rest & res & ->)].
    - by left.
    - right. right. eexists _, _, _. split; [reflexivity|by left]. }
  destruct Hgs as [k path content err Hk| |k c procs p Hk|k c procs err Hk|k c procs err Hk
                  |procs tail r Hne Hlen Hz Htail].
  - apply elem_of_app in He as [He|He]; [left; by apply Hw in He|].
    apply list_elem_of_singleton in He as ->. left. by eexists _, _, _.
  - left. by apply Hw in He.
  - apply elem_of_app in He as [He|He]; [left; by apply Hw in He|].
    apply elem_of_app in He as [He|He]; [by apply Hi in He|].
    apply elem_of_cons in He as [->|He]; [left; by eexists _, _, _|].
    apply list_elem_of_singleton in He as ->. right. right.
    eexists _, _, _. split; [reflexivity|by left].
  - apply elem_of_app in He as [He|He]; [left; by apply Hw in He|].
    apply elem_of_app in He as [He|He]; [by apply Hi in He|].
    apply list_elem_of_singleton in He as ->. left. by eexists _, _, _.
  - apply elem_of_app in He as [He|He]; [left; by apply Hw in He|].
    apply elem_of_app in He as [He|He]; [by apply Hi in He|].
    apply elem_of_cons in He as [->|He]; [left; by eexists _, _, _|].
    apply list_elem_of_singleton in He as ->. right. right.
    eexists _, _, _. split; [reflexivity|by left].
  - apply elem_of_app in He as [He|He]; [left; by apply Hw in He|].
    apply elem_of_app in He as [He|He]; [by apply Hi in He|].
    destruct Htail;
      repeat (apply elem_of_cons in He as [->|He];
              [first [ right; left; by eexists _, _
                     | right; right; eexists _, _, _; split; [reflexivity|by right]
                     | right; right; eexists _, _, _; split; [reflexivity|by left] ]|]);
      by apply elem_of_nil in He.
Qed.

Lemma tk_stage_kinds (evs : list event) (c : ctl Response unit) (e : event) :
  tk_stage x req work_dir evs c -> e ∈ evs -> staging_call e.
Proof.
  intros Hst He. unfold staging_call.
  assert (Hgs : forall cc bc kc p inner body result,
             App.gs_run cc bc kc "kafka-test" p p inner body result ->
             e ∈ body -> staging_call e).
  { intros cc bc kc p inner body result Hrun Hin. unfold staging_call.
    destruct (gs_run_kinds _ _ _ _ _ _ _ _ _ _ Hrun Hin) as [H|[H|H]];
      [by left|by right; left|by do 4 right]. }
  unfold staging_call in Hgs.
  destruct Hst as [t k Hu|t k err Hu|t k err Hu|Hu Hc|c0 b k err Hu Hc Hd
                  |c0 b k cc bc kc inner body result Hu Hc Hd Hrun Hs
                  |c0 b k cc bc kc inner body result t j tail ending Hu Hc Hd Hrun Hs Ht Hj Hcopy].
  - repeat (apply elem_of_cons in He as [->|He]; [left; by eexists _, _, _|]).
    by apply elem_of_nil in He.
  - repeat (apply elem_of_cons in He as [->|He]; [left; by eexists _, _, _|]).
    by apply elem_of_nil in He.
  - repeat (apply elem_of_cons in He as [->|He]; [left; by eexists _, _, _|]).
    by apply elem_of_nil in He.
  - by apply elem_of_nil in He.
  - by apply elem_of_nil in He.
  - apply elem_of_cons in He as [->|He]; [right; right; left; by eexists|].
    apply elem_of_app in He as [He|He]; [by eapply Hgs|].
    apply list_elem_of_singleton in He as ->. right. right. right. left. by eexists.
  - apply elem_of_cons in He as [->|He]; [right; right; left; by eexists|].
    apply elem_of_app in He as [He|He]; [by eapply Hgs|].
    apply elem_of_cons in He as [->|He]; [right; right; right; left; by eexists|].
    destruct Hcopy;
      repeat (apply elem_of_cons in He as [->|He]; [left; by eexists _, _, _|]);
      by apply elem_of_nil in He.
Qed.

End AppProbeFacts.

Section AppProbeHandshake.
Variable x : Lib.
Variables (req : Request) (work_dir : string).

(** A run of the Java compiler or of the compiled program belongs to the
    handshake, which the probe reaches only after both look-ups failed
    and the endpoint was split. *)
Lemma tk_run_handshake (body : list event) (r : Response)
  (argv : list string) (kw : run_kwargs) (res : result CompletedProcess) :
  tk_run x req work_dir body r ->
  ERun argv kw res ∈ body ->
  (exists p, argv = App.cmd_javac p) \/ (exists d, argv = App.cmd_java d) ->
  exists bootstrap host port pre o tail,
    form req !! "bootstrap" = Some bootstrap
    /\ bootstrap_host_port bootstrap = Ok (host, port)
    /\ body = pre ++ EWrite (tk_java_file_path work_dir)
                            (App.java_test_code (tk_truststore_path work_dir)
                               (tk_keystore_path work_dir) (tk_password req) host port)
                            (Ok tt) :: tail
    /\ EWhich "kafka-topics" o ∈ pre /\ opt_truthy o = false
    /\ tk_java work_dir host port tail r
    /\ ERun argv kw res ∈ tail.
Proof.
  intros Hrun Hin Hargv.
  assert (Hstage : forall evs c, tk_stage x req work_dir evs c ->
                     ERun argv kw res ∈ evs -> False).
  { intros evs c Hst He.
    destruct (tk_stage_kinds _ _ _ _ _ _ Hst He)
      as [(? & ? & ? & ?)|[(? & ? & ?)|[(? & ?)|[(? & ?)|(tool & rest & res' & E & Ht)]]]];
      try discriminate.
    injection E as -> -> ->.
    destruct Hargv as [[p E]|[d E]]; unfold App.cmd_javac, App.cmd_java in E;
      destruct Ht; simplify_eq. }
  assert (Hl : forall found o, kafka_lookup found o -> ERun argv kw res ∈ found -> False).
  { intros found o Hf H. destruct (lookup_events _ _ Hf) as (_ & _ & Hwh & _).
    apply Hwh in H as (? & ? & ?). discriminate. }
  assert (Hcli : forall b bin kw' res',
             ERun argv kw res = ERun (tk_cmd_kafka work_dir b bin) kw' res' -> False).
  { intros b bin kw' res' E. injection E as -> -> ->.
    destruct Hargv as [[p E]|[d E]];
      unfold tk_cmd_kafka, App.cmd_kafka, App.cmd_javac, App.cmd_java in E;
      simplify_eq. }
  destruct Hrun as [Hno|bootstrap evs r0 Hb Ht Hst|bootstrap evs e Hb Ht Hst
                   |bootstrap evs tail r0 Hb Ht Hst Hprobe].
  - by apply elem_of_nil in Hin.
  - by destruct (Hstage _ _ Hst Hin).
  - by destruct (Hstage _ _ Hst Hin).
  - apply elem_of_app in Hin as [Hin|Hin]; [by destruct (Hstage _ _ Hst Hin)|].
    destruct Hprobe as [e|found bin e Hf Hbin|found bin p Hf Hbin Hp
                       |found bin p Hf Hbin Hp|found bin e Hf Hbin Hs
                       |found bin host port e Hf Hbin Hs
                       |found bin host port tail0 r1 Hf Hbin Hs Hjava].
    + apply list_elem_of_singleton in Hin. discriminate Hin.
    + apply elem_of_cons in Hin as [Hin|Hin]; [discriminate Hin|].
      apply elem_of_app in Hin as [Hin|Hin]; [by destruct (Hl _ _ Hf Hin)|].
      apply list_elem_of_singleton in Hin. by destruct (Hcli _ _ _ _ Hin).
    + apply elem_of_cons in Hin as [Hin|Hin]; [discriminate Hin|].
      apply elem_of_app in Hin as [Hin|Hin]; [by destruct (Hl _ _ Hf Hin)|].
      apply list_elem_of_singleton in Hin. by destruct (Hcli _ _ _ _ Hin).
    + apply elem_of_cons in Hin as [Hin|Hin]; [discriminate Hin|].
      apply elem_of_app in Hin as [Hin|Hin]; [by destruct (Hl _ _ Hf Hin)|].
      apply list_elem_of_singleton in Hin. by destruct (Hcli _ _ _ _ Hin).
    + apply elem_of_cons in Hin as [Hin|Hin]; [discriminate Hin|].
      by destruct (Hl _ _ Hf Hin).
    + apply elem_of_cons in Hin as [Hin|Hin]; [discriminate Hin|].
      apply elem_of_app in Hin as [Hin|Hin]; [by destruct (Hl _ _ Hf Hin)|].
      apply list_elem_of_singleton in Hin. discriminate Hin.
    + apply elem_of_cons in Hin as [Hin|Hin]; [discriminate Hin|].
      apply elem_of_app in Hin as [Hin|Hin]; [by destruct (Hl _ _ Hf Hin)|].
      apply elem_of_cons in Hin as [Hin|Hin]; [discriminate Hin|].
      destruct (lookup_events _ _ Hf) as (_ & _ & _ & Hlast & _).
      exists bootstrap, host, port,
        (evs ++ EWrite (tk_properties_path work_dir) (tk_properties req work_dir) (Ok tt)
             :: found), bin, tail0.
      split_and!; try done.
      * by rewrite <- app_assoc.
      * apply elem_of_app. right. apply list_elem_of_further. by apply Hlast.
Qed.

(** The answer of the handshake, by the outcome of its last process. *)
Lemma tk_java_answer (host port : string) (tail : list event) (r : Response)
  (kw : run_kwargs) (res : result CompletedProcess) :
  tk_java work_dir host port tail r ->
  ERun (App.cmd_java work_dir) kw res ∈ tail ->
  kw = {| cwd := None; timeout := Some 30; input := None |}
  /\ r = match res with
         | Err e =>
             if is_timeout e
             then ([ ("success", JBool false);
                     ("error", JStr ("Connection timeout to " +:+ host +:+ ":" +:+ port));
                     ("details", JStr "The server did not respond within 30 seconds") ],
                   200)
             else ([ ("success", JBool false);
                     ("error", JStr "Test execution failed");
                     ("details", JStr (exn_text e)) ], 500)
         | Ok q =>
             if (returncode q =? 0)%Z
             then ([ ("success", JBool true);
                     ("message", JStr ("mTLS connection successful to "
                                       +:+ host +:+ ":" +:+ port));
                     ("details", JStr "Certificate verification passed using generated JKS files");
                     ("ssl_info", JStr (stdout q)) ], 200)
             else ([ ("success", JBool false);
                     ("error", JStr ("SSL connection failed to "
                                     +:+ host +:+ ":" +:+ port));
                     ("details", JStr (Py.slice_to 800 (Py.str_or (stderr q) (stdout q)))) ],
                   200)
         end.
Proof.
  intros Hjava Hin.
  destruct Hjava as [e He|e He|p Hp|p e Hp He|p e Hp He|p q Hp Hq|p q Hp Hq];
    repeat (apply elem_of_cons in Hin as [Hin|Hin];
            [unfold App.cmd_java, App.cmd_javac in Hin; simplify_eq|]);
    try (by apply elem_of_nil in Hin).
  - by rewrite He.
  - by rewrite He.
  - by rewrite Hq.
  - apply Z.eqb_neq in Hq. by rewrite Hq.
Qed.

End AppProbeHandshake.

Section AppProbeAnswers.
Variable x : Lib.
Variables (req : Request) (work_dir : string).




End AppProbeAnswers.


(** X19: when the compiled handshake program of [test_kafka] exits with
    a non-zero status, the answer has status 200, [success] false, the
    error "SSL connection failed to host:port" for the host and port the
    endpoint splits into, and as details the first 800 characters of the
    error output of the program, or of its output when the error output
    is empty: the details are a prefix of that text and never longer
    than 800 characters. *)
Theorem test_kafka_java_failure_truncated (h : Host) (x : Lib) (req : Request)
  (w : World h) (kw : run_kwargs) (q : CompletedProcess) :
  let work_dir := fst (os_mkdtemp h w) in
  let out := App.test_kafka x req (boot w) in
  let error_msg := Py.str_or (stderr q) (stdout q) in
  ERun ["java"; "-cp"; work_dir; "SSLTest"] kw (Ok q) ∈ history (snd out) ->
  returncode q <> 0%Z ->
  exists bootstrap host port,
    form req !! "bootstrap" = Some bootstrap
    /\ bootstrap_host_port bootstrap = Ok (host, port)
    /\ fst out
       = Ok ([ ("success", JBool false);
               ("error", JStr ("SSL connection failed to " +:+ host +:+ ":" +:+ port));
               ("details", JStr (Py.slice_to 800 error_msg)) ], 200)
    /\ String.length (Py.slice_to 800 error_msg) <= 800
    /\ exists rest, error_msg = Py.slice_to 800 error_msg +:+ rest.
Proof.
  intros work_dir out error_msg.
  destruct (test_kafka_runs x req (boot w)) as (body & r & Hr & Hh & Hrun).
  fold work_dir out in Hr, Hh, Hrun. rewrite Hh, Hr.
  change (history (boot w)) with (@nil event). cbn [app].
  intros Hin Hq.
  assert (Hbody : ERun (App.cmd_java work_dir) kw (Ok q) ∈ body).
  { apply elem_of_cons in Hin as [Hin|Hin]; [discriminate Hin|].
    apply elem_of_app in Hin as [Hin|Hin]; [done|].
    apply list_elem_of_singleton in Hin. discriminate Hin. }
  destruct (tk_run_handshake _ _ _ _ _ _ _ _ Hrun Hbody)
    as (bootstrap & host & port & pre & o & tail & Hb & Hs & _ & _ & _ & Hjava & Htail).
  { right. by eexists. }
  destruct (tk_java_answer _ _ _ _ _ _ _ Hjava Htail) as [_ ->].
  apply Z.eqb_neq in Hq. rewrite Hq.
  exists bootstrap, host, port. split_and!; try done.
  - apply length_slice_to.
  - apply slice_to_prefix.
Qed.

Lemma test_kafka_java_failure_truncated_witness :
  fst (App.test_kafka (h := java_fault_host) sample_lib (stores_request "broker:9093")
         (boot (tt : World java_fault_host)))
  = Ok ([ ("success", JBool false);
          ("error", JStr "SSL connection failed to broker:9093");
          ("details", JStr (filler 800)) ], 200).
Proof.
  destruct (test_kafka_java_failure_truncated java_fault_host sample_lib
              (stores_request "broker:9093") tt
              {| cwd := None; timeout := Some 30; input := None |}
              (exited 1 EmptyString (filler 1000)))
    as (bootstrap & host & port & _ & _ & Hr & _).
  - vm_compute. do 8 apply list_elem_of_further. apply list_elem_of_here.
  - simpl. discriminate.
  - vm_compute. reflexivity.
Defined.

(** X23: when the endpoint given to [test_kafka] of app.py holds two or
    more colons and neither client name is found, the unpacking of the
    split raises [ValueError]; the outer handler answers with status 500
    and the text of the exception.  The failed look-up is the last call
    before the work directory is removed: the handshake program is
    neither written, nor compiled, nor run. *)
Theorem test_kafka_many_colons (h : Host) (x : Lib) (req : Request) (w : World h)
  (bootstrap : string) (o : option string) :
  let work_dir := fst (os_mkdtemp h w) in
  let out := App.test_kafka x req (boot w) in
  form req !! "bootstrap" = Some bootstrap ->
  2 <= count_char ":" bootstrap ->
  EWhich "kafka-topics" o ∈ history (snd out) ->
  opt_truthy o = false ->
  fst out = Ok ([ ("success", JBool false);
                  ("error", JStr "too many values to unpack (expected 2)") ], 500)
  /\ exists before,
       history (snd out)
       = EMkdtemp work_dir :: before ++ [EWhich "kafka-topics" o; ERmtree work_dir].
Proof.
  intros work_dir out Hform Hcolons.
  destruct (test_kafka_runs x req (boot w)) as (body & r & Hr & Hh & Hrun).
  fold work_dir out in Hr, Hh, Hrun. rewrite Hh, Hr.
  change (history (boot w)) with (@nil event). cbn [app].
  intros Hin Ho.
  assert (Hbody : EWhich "kafka-topics" o ∈ body).
  { apply elem_of_cons in Hin as [Hin|Hin]; [discriminate Hin|].
    apply elem_of_app in Hin as [Hin|Hin]; [done|].
    apply list_elem_of_singleton in Hin. discriminate Hin. }
  clear Hin.
  assert (Hstage : forall evs c, tk_stage x req work_dir evs c ->
                     EWhich "kafka-topics" o ∈ evs -> False).
  { intros evs c Hst He.
    destruct (tk_stage_kinds _ _ _ _ _ _ Hst He)
      as [(? & ? & ? & ?)|[(? & ? & ?)|[(? & ?)|[(? & ?)|(? & ? & ? & ? & ?)]]]];
      discriminate. }
  assert (Hcli : forall found bin, kafka_lookup found (Some bin) ->
                   Py.truthy bin = true -> EWhich "kafka-topics" o ∈ found -> False).
  { intros found bin Hf Hb H. destruct (lookup_events _ _ Hf) as (_ & _ & _ & _ & Heq & _).
    apply Heq in H. subst o. simpl in Ho. congruence. }
  destruct Hrun as [Hno|b evs r0 Hb Ht Hst|b evs e Hb Ht Hst
                   |b evs tail r0 Hb Ht Hst Hprobe].
  - by apply elem_of_nil in Hbody.
  - by destruct (Hstage _ _ Hst Hbody).
  - by destruct (Hstage _ _ Hst Hbody).
  - assert (b = bootstrap) as -> by congruence.
    pose proof (host_port_too_many bootstrap Hcolons) as Hsplit.
    apply elem_of_app in Hbody as [Hbody|Hbody]; [by destruct (Hstage _ _ Hst Hbody)|].
    destruct Hprobe as [e|found bin e Hf Hbin|found bin p Hf Hbin Hp
                       |found bin p Hf Hbin Hp|found bin e Hf Hbin Hs
                       |found bin host port e Hf Hbin Hs
                       |found bin host port tail0 r1 Hf Hbin Hs Hjava];
      try congruence.
    + apply list_elem_of_singleton in Hbody. discriminate Hbody.
    + exfalso. apply elem_of_cons in Hbody as [H|H]; [discriminate H|].
      apply elem_of_app in H as [H|H]; [by destruct (Hcli _ _ Hf Hbin H)|].
      apply list_elem_of_singleton in H. discriminate H.
    + exfalso. apply elem_of_cons in Hbody as [H|H]; [discriminate H|].
      apply elem_of_app in H as [H|H]; [by destruct (Hcli _ _ Hf Hbin H)|].
      apply list_elem_of_singleton in H. discriminate H.
    + exfalso. apply elem_of_cons in Hbody as [H|H]; [discriminate H|].
      apply elem_of_app in H as [H|H]; [by destruct (Hcli _ _ Hf Hbin H)|].
      apply list_elem_of_singleton in H. discriminate H.
    + rewrite Hsplit in Hs. injection Hs as <-. split; [reflexivity|].
      apply elem_of_cons in Hbody as [H|H]; [discriminate H|].
      destruct (lookup_events _ _ Hf) as (_ & _ & _ & _ & Heq & _).
      apply Heq in H. subst o.
      inversion Hf as [a Ha|a b' Ha]; subst; [congruence|].
      eexists (evs ++ [_; _]). rewrite <- !app_assoc. reflexivity.
Qed.

Lemma test_kafka_many_colons_witness :
  fst (App.test_kafka (h := ok_host) sample_lib (stores_request "[2001:db8::1]:9093")
         (boot (tt : World ok_host)))
  = Ok ([ ("success", JBool false);
          ("error", JStr "too many values to unpack (expected 2)") ], 500).
Proof.
  apply (test_kafka_many_colons ok_host sample_lib (stores_request "[2001:db8::1]:9093")
           tt "[2001:db8::1]:9093" None).
  - vm_compute. reflexivity.
  - simpl. lia.
  - vm_compute. do 5 apply list_elem_of_further. apply list_elem_of_here.
  - reflexivity.
Defined.

(** The compiler is the first process of the handshake. *)
Lemma tk_java_compiles (work_dir host port : string) (tail : list event)
  (r : Response) (p : string) (kw : run_kwargs) (res : result CompletedProcess) :
  tk_java work_dir host port tail r ->
  ERun (App.cmd_javac p) kw res ∈ tail ->
  p = tk_java_file_path work_dir
  /\ kw = {| cwd := Some work_dir; timeout := Some 10; input := None |}
  /\ exists after, tail = ERun (App.cmd_javac p) kw res :: after.
Proof.
  intros Hjava Hin.
  destruct Hjava;
    (apply elem_of_cons in Hin as [Hin|Hin];
     [unfold App.cmd_javac in Hin; simplify_eq; split_and!; [done|done|by eexists]|]);
    repeat (apply elem_of_cons in Hin as [Hin|Hin];
            [unfold App.cmd_java, App.cmd_javac in Hin; simplify_eq|]);
    by apply elem_of_nil in Hin.
Qed.

(** X24: [test_kafka] of app.py compiles the handshake program only
    after both look-ups of the Kafka client failed and the endpoint was
    split into a host and a port: the compiler is then run on
    [SSLTest.java] of the work directory, in that directory, with a
    timeout of 10 seconds, and that file was written just before with
    the program rendered for the host and the port of the split, the two
    stores of the work directory and the password of the request. *)
Theorem test_kafka_handshake_target (h : Host) (x : Lib) (req : Request) (w : World h)
  (p : string) (kw : run_kwargs) (res : result CompletedProcess) :
  let work_dir := fst (os_mkdtemp h w) in
  let out := App.test_kafka x req (boot w) in
  ERun ["javac"; p] kw res ∈ history (snd out) ->
  exists bootstrap host port o,
    form req !! "bootstrap" = Some bootstrap
    /\ bootstrap_host_port bootstrap = Ok (host, port)
    /\ EWhich "kafka-topics" o ∈ history (snd out) /\ opt_truthy o = false
    /\ p = Py.path_join work_dir "SSLTest.java"
    /\ kw = {| cwd := Some work_dir; timeout := Some 10; input := None |}
    /\ exists before after,
         history (snd out)
         = before
           ++ EWrite p (App.java_test_code (Py.path_join work_dir "truststore.jks")
                          (Py.path_join work_dir "keystore.jks")
                          (default "changeit" (form req !! "password")) host port)
                     (Ok tt)
           :: ERun ["javac"; p] kw res :: after.
Proof.
  intros work_dir out.
  destruct (test_kafka_runs x req (boot w)) as (body & r & Hr & Hh & Hrun).
  fold work_dir out in Hr, Hh, Hrun. rewrite Hh.
  change (history (boot w)) with (@nil event). cbn [app].
  intros Hin.
  assert (Hbody : ERun (App.cmd_javac p) kw res ∈ body).
  { apply elem_of_cons in Hin as [Hin|Hin]; [discriminate Hin|].
    apply elem_of_app in Hin as [Hin|Hin]; [done|].
    apply list_elem_of_singleton in Hin. discriminate Hin. }
  destruct (tk_run_handshake _ _ _ _ _ _ _ _ Hrun Hbody)
    as (bootstrap & host & port & pre & o & tail & Hb & Hs & -> & Ho & Hfalse
        & Hjava & Htail).
  { left. by eexists. }
  destruct (tk_java_compiles _ _ _ _ _ _ _ _ Hjava Htail) as (-> & -> & after & ->).
  exists bootstrap, host, port, o. split_and!; try done.
  - apply list_elem_of_further, elem_of_app. left. apply elem_of_app. by left.
  - exists (EMkdtemp work_dir :: pre), (after ++ [ERmtree work_dir]).
    cbn [app]. rewrite <- !app_assoc. reflexivity.
Qed.

Lemma test_kafka_handshake_target_witness :
  exists o,
    EWhich "kafka-topics" o
    ∈ history (snd (App.test_kafka (h := ok_host) sample_lib
                      (stores_request "broker.example.org")
                      (boot (tt : World ok_host))))
    /\ opt_truthy o = false
    /\ bootstrap_host_port "broker.example.org" = Ok ("broker.example.org", "443").
Proof.
  destruct (test_kafka_handshake_target ok_host sample_lib
              (stores_request "broker.example.org") tt
              "/tmp/tmpk3v0a9xq/SSLTest.java"
              {| cwd := Some "/tmp/tmpk3v0a9xq"; timeout := Some 10; input := None |}
              (Ok (exited 0 EmptyString EmptyString)))
    as (bootstrap & host & port & o & Hb & Hs & Hw & Ho & _).
  - vm_compute. do 7 apply list_elem_of_further. apply list_elem_of_here.
  - exists o. split; [exact Hw|]. split; [exact Ho|]. reflexivity.
Defined.

(** X25: without an endpoint in the form, or with an empty one,
    [test_kafka] of app.py answers 400 "Bootstrap server is required";
    it has then created and removed its work directory and done nothing
    else. *)
Theorem test_kafka_requires_bootstrap (h : Host) (x : Lib) (req : Request)
  (s0 : Sys h) :
  let work_dir := fst (os_mkdtemp h (world s0)) in
  let out := App.test_kafka x req s0 in
  opt_truthy (form req !! "bootstrap") = false ->
  fst out = Ok ([ ("success", JBool false);
                  ("error", JStr "Bootstrap server is required") ], 400)
  /\ history (snd out) = history s0 ++ [EMkdtemp work_dir; ERmtree work_dir].
Proof.
  intros work_dir out Hno.
  destruct (test_kafka_runs x req s0) as (body & r & Hr & Hh & Hrun).
  fold work_dir out in Hr, Hh, Hrun. rewrite Hh, Hr.
  destruct Hrun as [_|b evs r0 Hb Ht Hst|b evs e Hb Ht Hst
                   |b evs tail r0 Hb Ht Hst Hprobe];
    try (rewrite Hb in Hno; simpl in Hno; congruence).
  done.
Qed.

Lemma test_kafka_requires_bootstrap_witness :
  let out := App.test_kafka (h := ok_host) sample_lib
               {| form := {[ "bootstrap" := EmptyString ]}; uploads := ∅ |}
               (boot (tt : World ok_host)) in
  fst out = Ok ([ ("success", JBool false);
                  ("error", JStr "Bootstrap server is required") ], 400)
  /\ history (snd out) = [EMkdtemp "/tmp/tmpk3v0a9xq"; ERmtree "/tmp/tmpk3v0a9xq"].
Proof.
  apply (test_kafka_requires_bootstrap ok_host sample_lib
           {| form := {[ "bootstrap" := EmptyString ]}; uploads := ∅ |}
           (boot (tt : World ok_host))).
  vm_compute. reflexivity.
Defined.

Section AppProbeConfined.
Variable x : Lib.
Variables (req : Request) (work_dir : string).

Lemma tk_java_in_work_dir (host port : string) (tail : list event) (r : Response) :
  tk_java work_dir host port tail r -> Forall (in_work_dir work_dir) tail.
Proof. intros []; by repeat constructor. Qed.

Lemma tk_probe_in_work_dir (bootstrap : string) (tail : list event) (r : Response) :
  tk_probe req work_dir bootstrap tail r -> Forall (in_work_dir work_dir) tail.
Proof.
  assert (Hp : in_work_dir work_dir
                 (EWrite (tk_properties_path work_dir) (tk_properties req work_dir)
                         (Ok tt))) by in_dir.
  intros [e|found bin e Hf Hbin|found bin p Hf Hbin Hp'
         |found bin p Hf Hbin Hp'|found bin e Hf Hbin Hs
         |found bin host port e Hf Hbin Hs
         |found bin host port tail0 r1 Hf Hbin Hs Hjava];
    try destruct (lookup_events _ _ Hf) as (_ & Hw & _).
  - confined.
  - constructor; [done|]. apply Forall_app. split; [apply Hw|by repeat constructor].
  - constructor; [done|]. apply Forall_app. split; [apply Hw|by repeat constructor].
  - constructor; [done|]. apply Forall_app. split; [apply Hw|by repeat constructor].
  - constructor; [done|]. apply Hw.
  - constructor; [done|]. apply Forall_app. split; [apply Hw|]. confined.
  - constructor; [done|]. apply Forall_app. split; [apply Hw|].
    constructor; [in_dir|]. by eapply tk_java_in_work_dir.
Qed.

Lemma tk_stage_uploaded (evs : list event) (c : ctl Response unit)
  (truststore_file keystore_file : FileStorage) :
  tk_stage x req work_dir evs c ->
  uploaded_stores req = Some (truststore_file, keystore_file) ->
  exists res rest,
    evs = EWrite (Py.path_join work_dir "truststore.jks") (payload truststore_file) res
          :: rest
    /\ Forall (in_work_dir work_dir) rest.
Proof.
  intros Hst Hu. inversion Hst; subst; try congruence;
    match goal with
    | H : uploaded_stores req = Some _ |- _ => rewrite Hu in H; injection H as <- <-
    end;
    eexists _, _; (split; [reflexivity|]); confined.
Qed.

End AppProbeConfined.

(** X26: when the request to [test_kafka] of app.py names an endpoint
    but holds neither both stores nor all three certificate files, the
    answer is 400 with the message that asks for them; the work directory
    is created and removed, nothing is written and nothing is run. *)
Theorem test_kafka_requires_stores_or_certificates (h : Host) (x : Lib)
  (req : Request) (s0 : Sys h) (bootstrap : string) :
  let work_dir := fst (os_mkdtemp h (world s0)) in
  let out := App.test_kafka x req s0 in
  form req !! "bootstrap" = Some bootstrap ->
  Py.truthy bootstrap = true ->
  uploaded_stores req = None ->
  uploaded_certs req = None ->
  fst out
  = Ok ([ ("success", JBool false);
          ("error", JStr "Please provide either JKS files (truststore + keystore) or certificate files (ca_chain, bundle, key)") ],
        400)
  /\ history (snd out) = history s0 ++ [EMkdtemp work_dir; ERmtree work_dir].
Proof.
  intros work_dir out Hform Htruthy Hstores Hcerts.
  destruct (test_kafka_runs x req s0) as (body & r & Hr & Hh & Hrun).
  fold work_dir out in Hr, Hh, Hrun. rewrite Hh, Hr.
  destruct Hrun as [Hno|b evs r0 Hb Ht Hst|b evs e Hb Ht Hst
                   |b evs tail r0 Hb Ht Hst Hprobe].
  - rewrite Hform in Hno. simpl in Hno. congruence.
  - inversion Hst; subst; first [congruence|done].
  - inversion Hst; subst; congruence.
  - inversion Hst; subst; congruence.
Qed.

Lemma test_kafka_requires_stores_or_certificates_witness :
  let out := App.test_kafka (h := ok_host) sample_lib
               {| form := {[ "bootstrap" := "broker:9093" ]}; uploads := ∅ |}
               (boot (tt : World ok_host)) in
  history (snd out) = [EMkdtemp "/tmp/tmpk3v0a9xq"; ERmtree "/tmp/tmpk3v0a9xq"].
Proof.
  apply (test_kafka_requires_stores_or_certificates ok_host sample_lib
           {| form := {[ "bootstrap" := "broker:9093" ]}; uploads := ∅ |}
           (boot (tt : World ok_host)) "broker:9093").
  - vm_compute. reflexivity.
  - reflexivity.
  - vm_compute. reflexivity.
  - vm_compute. reflexivity.
Defined.

(** X27: when both stores are uploaded, [test_kafka] of app.py uses
    them, whether or not certificate files are uploaded as well: its
    first call after creating the work directory writes the uploaded
    trust store to [truststore.jks] in the work directory, and up to
    the removal of the work directory it creates no other directory, so
    the stores are never generated, and the path of every file it writes
    or reads is the work directory joined with one file name (a name
    without a separator that is not empty, not [.] and not [..]). *)
Theorem test_kafka_prefers_uploaded_stores (h : Host) (x : Lib)
  (req : Request) (s0 : Sys h) (bootstrap : string)
  (truststore_file keystore_file : FileStorage) :
  let work_dir := fst (os_mkdtemp h (world s0)) in
  let out := App.test_kafka x req s0 in
  form req !! "bootstrap" = Some bootstrap ->
  Py.truthy bootstrap = true ->
  uploaded_stores req = Some (truststore_file, keystore_file) ->
  exists res rest,
    history (snd out)
    = history s0
      ++ EMkdtemp work_dir
         :: (EWrite (Py.path_join work_dir "truststore.jks") (payload truststore_file) res
             :: rest)
         ++ [ERmtree work_dir]
    /\ Forall (in_work_dir work_dir) rest.
Proof.
  intros work_dir out Hform Htruthy Hstores.
  destruct (test_kafka_runs x req s0) as (body & r & Hr & Hh & Hrun).
  fold work_dir out in Hr, Hh, Hrun. rewrite Hh.
  destruct Hrun as [Hno|b evs r0 Hb Ht Hst|b evs e Hb Ht Hst
                   |b evs tail r0 Hb Ht Hst Hprobe].
  - rewrite Hform in Hno. simpl in Hno. congruence.
  - destruct (tk_stage_uploaded _ _ _ _ _ _ _ Hst Hstores) as (res & rest & -> & Hrest).
    by exists res, rest.
  - destruct (tk_stage_uploaded _ _ _ _ _ _ _ Hst Hstores) as (res & rest & -> & Hrest).
    by exists res, rest.
  - destruct (tk_stage_uploaded _ _ _ _ _ _ _ Hst Hstores) as (res & rest & -> & Hrest).
    exists res, (rest ++ tail). split; [reflexivity|].
    apply Forall_app. split; [done|]. by eapply tk_probe_in_work_dir.
Qed.

Lemma test_kafka_prefers_uploaded_stores_witness :
  exists rest,
    history (snd (App.test_kafka (h := ok_host) sample_lib
                    {| form := form (stores_request "broker:9093");
                       uploads := uploads (stores_request "broker:9093")
                                  ∪ uploads (certs_request "broker:9093") |}
                    (boot (tt : World ok_host))))
    = EMkdtemp "/tmp/tmpk3v0a9xq"
      :: (EWrite "/tmp/tmpk3v0a9xq/truststore.jks" "TRUST" (Ok tt) :: rest)
      ++ [ERmtree "/tmp/tmpk3v0a9xq"]
    /\ Forall (in_work_dir "/tmp/tmpk3v0a9xq") rest.
Proof.
  destruct (test_kafka_prefers_uploaded_stores ok_host sample_lib
              {| form := form (stores_request "broker:9093");
                 uploads := uploads (stores_request "broker:9093")
                            ∪ uploads (certs_request "broker:9093") |}
              (boot (tt : World ok_host)) "broker:9093"
              {| filename := "truststore.jks"; payload := "TRUST" |}
              {| filename := "keystore.jks"; payload := "KEYS" |})
    as (res & rest & Hh & Hrest).
  - vm_compute. reflexivity.
  - reflexivity.
  - vm_compute. reflexivity.
  - exists rest. split; [|exact Hrest].
    rewrite Hh. cbn [app history boot trace rev].
    assert (res = Ok tt) as ->; [|reflexivity].
    assert (E : history (snd (App.test_kafka (h := ok_host) sample_lib
                    {| form := form (stores_request "broker:9093");
                       uploads := uploads (stores_request "broker:9093")
                                  ∪ uploads (certs_request "broker:9093") |}
                    (boot (tt : World ok_host)))) !! 1
                = Some (EWrite "/tmp/tmpk3v0a9xq/truststore.jks" "TRUST" (Ok tt)))
      by (vm_compute; reflexivity).
    rewrite Hh in E. cbn in E. congruence.
Defined.

(** * The topic list *)

Section Topics.

Lemma lstrip_shape (s : string) :
  Py.lstrip s = EmptyString
  \/ exists c r, Py.lstrip s = String c r /\ Py.isspace c = false.
Proof.
  induction s as [|c s IH]; [by left|]. simpl.
  destruct (Py.isspace c) eqn:E; [exact IH|]. right. by eexists _, _.
Qed.

Lemma rstrip_head (c : ascii) (r : string) :
  Py.isspace c = false -> exists r', Py.rstrip (String c r) = String c r'.
Proof.
  intros Hc. simpl. destruct (Py.rstrip r); [rewrite Hc|]; by eexists.
Qed.

Lemma rstrip_rstrip (s : string) : Py.rstrip (Py.rstrip s) = Py.rstrip s.
Proof.
  induction s as [|c s IH]; [reflexivity|]. simpl.
  destruct (Py.rstrip s) as [|d k] eqn:E.
  - destruct (Py.isspace c) eqn:Hc; [reflexivity|]. simpl. by rewrite Hc.
  - change (Py.rstrip (String c (String d k)))
      with (match Py.rstrip (String d k) with
            | EmptyString => if Py.isspace c then EmptyString else String c EmptyString
            | kept => String c kept
            end).
    by rewrite IH.
Qed.

Lemma strip_strip (s : string) : Py.strip (Py.strip s) = Py.strip s.
Proof.
  unfold Py.strip.
  assert (E : Py.lstrip (Py.rstrip (Py.lstrip s)) = Py.rstrip (Py.lstrip s)).
  { destruct (lstrip_shape s) as [->|(c & r & -> & Hc)]; [reflexivity|].
    destruct (rstrip_head c r Hc) as [r' ->]. simpl. by rewrite Hc. }
  rewrite E. apply rstrip_rstrip.
Qed.

End Topics.

(** X28: the topic list both probes build from the output of the Kafka
    client holds no empty name and no name with leading or trailing
    white space: blank lines are dropped, so the count reported is at
    most the number of lines of the stripped output. *)
Theorem parse_topics_stripped (out : string) :
  Forall (fun t => t <> EmptyString /\ Py.strip t = t) (parse_topics out)
  /\ length (parse_topics out) <= length (Py.split Py.LF (Py.strip out)).
Proof.
  unfold parse_topics. split.
  - apply Forall_fmap, Forall_forall. intros t Ht.
    apply list_elem_of_In, filter_In in Ht as [_ Ht]. simpl. split.
    + intros E. by rewrite E in Ht.
    + apply strip_strip.
  - rewrite length_map. apply filter_length_le.
Qed.

(** * Where claims about the parser and the two back ends do not hold *)

(** C4, evaluated where it fails: two well-formed blocks with, between
    them, one line that belongs to no block and happens to hold the END
    marker.  Both variants of the loop return three entries, not two:
    [parse_cert_chain], which keeps [current_cert], emits the first block
    a second time with the line appended; the loop that empties
    [current_cert] emits the line alone.  A chain whose first certificate
    lost its BEGIN line, followed by two whole blocks, gives three
    entries as well, the first being the orphaned END line. *)
Theorem parse_chain_interleaved_end_marker :
  let comment := "# see -----END CERTIFICATE----- above" in
  let text := Py.join Py.nl (block_lines sample_block_1 ++ [comment]
                             ++ block_lines sample_block_2) in
  let truncated := Py.join Py.nl (["MIIBszCCAVmgAwIB"; "-----END CERTIFICATE-----"]
                                  ++ block_lines sample_block_1
                                  ++ block_lines sample_block_2) in
  well_formed sample_block_1 /\ well_formed sample_block_2
  /\ Forall is_line (block_lines sample_block_1 ++ [comment]
                     ++ block_lines sample_block_2)
  /\ parse_cert_chain text
     = [ block_text sample_block_1;
         block_text sample_block_1 +:+ Py.nl +:+ comment;
         block_text sample_block_2 ]
  /\ extract_certs text
     = [ block_text sample_block_1; comment; block_text sample_block_2 ]
  /\ parse_cert_chain truncated
     = [ "-----END CERTIFICATE-----";
         block_text sample_block_1; block_text sample_block_2 ]
  /\ extract_certs truncated
     = [ "-----END CERTIFICATE-----";
         block_text sample_block_1; block_text sample_block_2 ].
Proof.
  intros comment text truncated. split_and!.
  - by repeat constructor.
  - by repeat constructor.
  - by repeat constructor.
  - vm_compute. reflexivity.
  - vm_compute. reflexivity.
  - vm_compute. reflexivity.
  - vm_compute. reflexivity.
Qed.

(** C6, evaluated where it fails: the input ends with a block that is
    opened and never closed, and before it stands a line that holds the
    END marker outside every block.  The open block is omitted, but what
    is returned is not the completed blocks that precede it: with no
    block before it, the parser returns one entry, the END line; after a
    complete block, it returns that block and a second entry, which is
    the END line for the loop that empties [current_cert] and the block
    with the END line appended for [parse_cert_chain]. *)
Theorem parse_chain_unterminated_after_end_marker :
  let open_block := ["-----BEGIN CERTIFICATE-----"; "MIIC"] in
  let stray := "-----END CERTIFICATE-----" in
  parse_cert_chain (Py.join Py.nl (stray :: open_block)) = [stray]
  /\ extract_certs (Py.join Py.nl (stray :: open_block)) = [stray]
  /\ parse_cert_chain
       (Py.join Py.nl (block_lines sample_block_2 ++ stray :: open_block))
     = [ block_text sample_block_2; block_text sample_block_2 +:+ Py.nl +:+ stray ]
  /\ extract_certs
       (Py.join Py.nl (block_lines sample_block_2 ++ stray :: open_block))
     = [ block_text sample_block_2; stray ].
Proof. intros open_block stray. repeat split; vm_compute; reflexivity. Qed.

(** C3 as stated does not hold of [generate_stores] of main.py, the
    second implementation it cites.  On the sample chain, from which the
    scanning loop returns two certificates, a run in which everything
    succeeds starts the store-import tool once, not twice, under the
    alias [kafka-client-ca], not [kafka-client-ca-0]; the second and
    last sub-process is the export of the key store. *)
Lemma generate_stores_imports_counterexample :
  let out := Main.generate_stores (h := ok_host) sample_lib sample_chain "CERT" "KEY"
               "BUNDLE" "kafka-client" "changeit" "broker:9093"
               (boot (tt : World ok_host)) in
  utf8_decode sample_lib sample_chain = Ok sample_chain
  /\ length (extract_certs sample_chain) = 2
  /\ length (parse_cert_chain sample_chain) = 2
  /\ (exists entries, fst out = Ok entries)
  /\ map fst (runs (history (snd out)))
     = [ [ "keytool"; "-import"; "-file"; "/tmp/tmpk3v0a9xq/CA_root.pem";
           "-alias"; "kafka-client-ca";
           "-keystore"; "/tmp/tmpk3v0a9xq/truststore.jks";
           "-storepass"; "changeit"; "-noprompt" ];
         Main.cmd_p12 "/tmp/tmpk3v0a9xq/cert.pem" "/tmp/tmpk3v0a9xq/key.pem"
                      "/tmp/tmpk3v0a9xq/bundle.pem" "kafka-client"
                      "/tmp/tmpk3v0a9xq/keystore.p12" "changeit" ]
  /\ ~ (forall k, k < length (extract_certs sample_chain) ->
         exists argv res,
           runs (history (snd out)) !! k = Some (argv, res)
           /\ argv !! 5 = Some ("kafka-client" +:+ "-ca-" +:+ Py.str_nat k)).
Proof.
  intros out. split_and!.
  - reflexivity.
  - vm_compute. reflexivity.
  - vm_compute. reflexivity.
  - eexists. vm_compute. reflexivity.
  - vm_compute. reflexivity.
  - intros H. destruct (H 0) as (argv & res & Hrun & Halias).
    + vm_compute. lia.
    + vm_compute in Hrun. injection Hrun as <- <-.
      vm_compute in Halias. discriminate Halias.
Qed.



(** * The probes at the split of the endpoint *)

(** A run that is part of a longer history. *)
Lemma elem_of_run_body (d : string) (body : list event) (e : event) :
  e ∈ EMkdtemp d :: body ++ [ERmtree d] ->
  (forall d', e <> EMkdtemp d') -> (forall d', e <> ERmtree d') ->
  e ∈ body.
Proof.
  intros Hin Hm Hr.
  apply elem_of_cons in Hin as [Hin|Hin]; [by destruct (Hm d)|].
  apply elem_of_app in Hin as [Hin|Hin]; [done|].
  apply list_elem_of_singleton in Hin. by destruct (Hr d).
Qed.

Lemma length_slice_to_min (n : nat) (s : string) :
  String.length (Py.slice_to n s) = Nat.min n (String.length s).
Proof.
  revert s. induction n as [|n IH]; intros [|c s]; simpl; try reflexivity.
  by rewrite IH.
Qed.

Section MainProbeFallback.
Variables (truststore keystore password bootstrap work_dir : string).

(** When the second look-up found nothing, the run went through the
    fallback, and its only sub-processes are those of the fallback. *)
Lemma tkc_run_fallback (body : list event) (r : Main.TestResult) (o : option string) :
  tkc_run truststore keystore password bootstrap work_dir body r ->
  EWhich "kafka-topics" o ∈ body -> opt_truthy o = false ->
  exists tail, tkc_ssl bootstrap tail r /\ runs body = runs tail.
Proof.
  intros Hrun Hbody Ho.
  assert (Hw : forall l, EWhich "kafka-topics" o ∈ written l -> False).
  { intros l H. apply elem_of_written in H as (? & ? & ?). discriminate. }
  assert (Hcli : forall found bin, kafka_lookup found (Some bin) ->
                   Py.truthy bin = true -> EWhich "kafka-topics" o ∈ found -> False).
  { intros found bin Hf Hb H. destruct (lookup_events _ _ Hf) as (_ & _ & _ & _ & Heq & _).
    apply Heq in H. subst o. simpl in Ho. congruence. }
  destruct Hrun as [k path content e Hk|found bin e Hf Hb|found bin p Hf Hb Hp
                   |found bin p Hf Hb Hp|found bin tail r' Hf Hb Hssl].
  - exfalso. apply elem_of_app in Hbody as [H|H]; [by destruct (Hw _ H)|].
    apply list_elem_of_singleton in H. discriminate H.
  - exfalso. apply elem_of_app in Hbody as [H|H]; [by destruct (Hw _ H)|].
    apply elem_of_app in H as [H|H]; [by destruct (Hcli _ _ Hf Hb H)|].
    apply list_elem_of_singleton in H. discriminate H.
  - exfalso. apply elem_of_app in Hbody as [H|H]; [by destruct (Hw _ H)|].
    apply elem_of_app in H as [H|H]; [by destruct (Hcli _ _ Hf Hb H)|].
    apply list_elem_of_singleton in H. discriminate H.
  - exfalso. apply elem_of_app in Hbody as [H|H]; [by destruct (Hw _ H)|].
    apply elem_of_app in H as [H|H]; [by destruct (Hcli _ _ Hf Hb H)|].
    apply list_elem_of_singleton in H. discriminate H.
  - destruct (lookup_events _ _ Hf) as (Hruns & _).
    exists tail. split; [exact Hssl|].
    rewrite !runs_app, runs_written, Hruns. reflexivity.
Qed.

(** The fallback follows the split: it stops when the unpacking raises,
    and starts one [openssl s_client] on the host and the port
    otherwise. *)
Lemma tkc_ssl_split (tail : list event) (r : Main.TestResult) :
  tkc_ssl bootstrap tail r ->
  match bootstrap_host_port bootstrap with
  | Err e => tail = [] /\ r = test_failed e
  | Ok (host, port) => exists res, runs tail = [(Main.cmd_ssl host port, res)]
  end.
Proof.
  intros [e He|host port e He Ht|host port e He Ht|host port p He Hc|host port p He Hc];
    rewrite He; [done|by eexists..].
Qed.

End MainProbeFallback.

Section AppProbeFallback.
Variable x : Lib.
Variables (req : Request) (work_dir : string).

(** When the second look-up found nothing, the stores were staged, the
    properties were written, both look-ups took place, and the run went
    on as the split of the endpoint decides. *)
Lemma tk_run_fallback (body : list event) (r : Response)
  (bootstrap : string) (o : option string) :
  tk_run x req work_dir body r ->
  form req !! "bootstrap" = Some bootstrap ->
  EWhich "kafka-topics" o ∈ body -> opt_truthy o = false ->
  exists evs a,
    Forall staging_call evs
    /\ opt_truthy a = false
    /\ match bootstrap_host_port bootstrap with
       | Err e =>
           body = evs ++ [ EWrite (tk_properties_path work_dir)
                                  (tk_properties req work_dir) (Ok tt);
                           EWhich "kafka-topics.sh" a; EWhich "kafka-topics" o ]
           /\ r = internal_error e
       | Ok (host, port) =>
           exists res after,
             body = evs ++ [ EWrite (tk_properties_path work_dir)
                                    (tk_properties req work_dir) (Ok tt);
                             EWhich "kafka-topics.sh" a; EWhich "kafka-topics" o;
                             EWrite (tk_java_file_path work_dir)
                                    (App.java_test_code (tk_truststore_path work_dir)
                                       (tk_keystore_path work_dir) (tk_password req)
                                       host port) res ]
                    ++ after
       end.
Proof.
  intros Hrun Hform Hbody Ho.
  assert (Hstage : forall evs c, tk_stage x req work_dir evs c ->
                     EWhich "kafka-topics" o ∈ evs -> False).
  { intros evs c Hst He.
    destruct (tk_stage_kinds _ _ _ _ _ _ Hst He)
      as [(? & ? & ? & ?)|[(? & ? & ?)|[(? & ?)|[(? & ?)|(? & ? & ? & ? & ?)]]]];
      discriminate. }
  assert (Hcli : forall found bin, kafka_lookup found (Some bin) ->
                   Py.truthy bin = true -> EWhich "kafka-topics" o ∈ found -> False).
  { intros found bin Hf Hb H. destruct (lookup_events _ _ Hf) as (_ & _ & _ & _ & Heq & _).
    apply Heq in H. subst o. simpl in Ho. congruence. }
  assert (Hfound : forall found bin, kafka_lookup found bin -> opt_truthy bin = false ->
                     exists a, opt_truthy a = false
                               /\ found = [EWhich "kafka-topics.sh" a; EWhich "kafka-topics" bin]).
  { intros found bin Hf Hb. inversion Hf as [a Ha|a b' Ha]; subst; [congruence|].
    by exists a. }
  assert (Hsame : forall found bin rest,
             kafka_lookup found bin -> opt_truthy bin = false ->
             EWhich "kafka-topics" o
             ∈ EWrite (tk_properties_path work_dir) (tk_properties req work_dir) (Ok tt)
               :: found ++ rest ->
             (forall e, e ∈ rest -> e <> EWhich "kafka-topics" o) ->
             bin = o).
  { intros found bin rest Hf Hb H Hrest.
    apply elem_of_cons in H as [H|H]; [discriminate H|].
    apply elem_of_app in H as [H|H]; [|by destruct (Hrest _ H)].
    destruct (lookup_events _ _ Hf) as (_ & _ & _ & _ & Heq & _).
    symmetry. by apply Heq. }
  destruct Hrun as [Hno|b evs r0 Hb Ht Hst|b evs e Hb Ht Hst
                   |b evs tail r0 Hb Ht Hst Hprobe].
  - by apply elem_of_nil in Hbody.
  - by destruct (Hstage _ _ Hst Hbody).
  - by destruct (Hstage _ _ Hst Hbody).
  - assert (b = bootstrap) as -> by congruence.
    assert (Hevs : Forall staging_call evs).
    { apply Forall_forall. intros e He. by eapply tk_stage_kinds. }
    apply elem_of_app in Hbody as [Hbody|Hbody]; [by destruct (Hstage _ _ Hst Hbody)|].
    destruct Hprobe as [e|found bin e Hf Hbin|found bin p Hf Hbin Hp
                       |found bin p Hf Hbin Hp|found bin e Hf Hbin Hs
                       |found bin host port e Hf Hbin Hs
                       |found bin host port tail0 r1 Hf Hbin Hs Hjava].
    + apply list_elem_of_singleton in Hbody. discriminate Hbody.
    + exfalso. apply elem_of_cons in Hbody as [H|H]; [discriminate H|].
      apply elem_of_app in H as [H|H]; [by destruct (Hcli _ _ Hf Hbin H)|].
      apply list_elem_of_singleton in H. discriminate H.
    + exfalso. apply elem_of_cons in Hbody as [H|H]; [discriminate H|].
      apply elem_of_app in H as [H|H]; [by destruct (Hcli _ _ Hf Hbin H)|].
      apply list_elem_of_singleton in H. discriminate H.
    + exfalso. apply elem_of_cons in Hbody as [H|H]; [discriminate H|].
      apply elem_of_app in H as [H|H]; [by destruct (Hcli _ _ Hf Hbin H)|].
      apply list_elem_of_singleton in H. discriminate H.
    + assert (bin = o) as ->.
      { apply (Hsame found bin [] Hf Hbin); [by rewrite app_nil_r|].
        intros e' He'. by apply elem_of_nil in He'. }
      destruct (Hfound _ _ Hf Hbin) as (a & Ha & ->).
      exists evs, a. rewrite Hs. by split_and!.
    + assert (bin = o) as ->.
      { eapply (Hsame found bin _ Hf Hbin); [exact Hbody|].
        intros e' He'. apply list_elem_of_singleton in He' as ->. discriminate. }
      destruct (Hfound _ _ Hf Hbin) as (a & Ha & ->).
      exists evs, a. rewrite Hs. split_and!; [done|done|].
      by exists (Err e), [].
    + assert (bin = o) as ->.
      { destruct (lookup_events _ _ Hf) as (_ & _ & _ & Hin & _).
        destruct (Hfound _ _ Hf Hbin) as (a & Ha & ->).
        apply elem_of_cons in Hbody as [H|H]; [discriminate H|].
        cbn [app] in H.
        apply elem_of_cons in H as [H|H]; [discriminate H|].
        apply elem_of_cons in H as [H|H]; [by simplify_eq|].
        apply elem_of_cons in H as [H|H]; [discriminate H|].
        exfalso. clear -Hjava H.
        destruct Hjava;
          repeat (apply elem_of_cons in H as [H|H]; [discriminate H|]);
          by apply elem_of_nil in H. }
      destruct (Hfound _ _ Hf Hbin) as (a & Ha & ->).
      exists evs, a. rewrite Hs. split_and!; [done|done|].
      by exists (Ok tt), tail0.
Qed.

End AppProbeFallback.

(** * The four remaining statements *)

(** C2 as amended: a CA chain from which the scanning loop returns no
    entry stops both back ends before any tool is started.
    [generate_stores] of app.py fails with no artifact, and its only
    error is "Could not extract certificates from CA chain" whenever the
    three inputs could be written to the work directory, and the text of
    the exception that stopped the writing otherwise.
    [generate_stores] of main.py, once the chain is decoded, creates and
    removes the work directory and does nothing else; it raises the HTTP
    error 400 "Could not extract root certificate from CA chain" when
    the other three uploads decode as well, and the exception of the
    first one that does not otherwise. *)
Theorem generate_stores_without_certificates (h : Host) (x : Lib) :
  (forall (ca_chain bundle key alias truststore_password keystore_password : string)
          (w : World h),
     extract_certs ca_chain = [] ->
     let out := App.generate_stores ca_chain bundle key alias truststore_password
                                    keystore_password (boot w) in
     App.success (fst out) = false
     /\ App.files (fst out) = ∅
     /\ runs (history (snd out)) = []
     /\ ((forall path content e, EWrite path content (Err e) ∉ history (snd out)) ->
         App.errors (fst out) = ["Could not extract certificates from CA chain"])
     /\ (App.errors (fst out) = ["Could not extract certificates from CA chain"]
         \/ exists path content e,
              EWrite path content (Err e) ∈ history (snd out)
              /\ App.errors (fst out) = [exn_text e]))
  /\ (forall (ca_chain cert key bundle alias password bootstrap : string)
             (w : World h) (cc : string),
        utf8_decode x ca_chain = Ok cc ->
        extract_root_cert cc = None ->
        let work_dir := fst (os_mkdtemp h w) in
        let out := Main.generate_stores x ca_chain cert key bundle alias password
                                        bootstrap (boot w) in
        history (snd out) = [EMkdtemp work_dir; ERmtree work_dir]
        /\ fst out
           = Err match decode4 x ca_chain cert key bundle with
                 | Ok _ => Exn (HTTPException 400)
                               "Could not extract root certificate from CA chain"
                 | Err e => e
                 end).
Proof.
  split.
  - intros ca_chain bundle key alias tp kp w Hnone out.
    destruct (generate_stores_no_certs_run ca_chain bundle key alias tp kp w Hnone)
      as (Hs & Hf & _ & Hr & _ & He & Hor).
    by split_and!.
  - intros ca_chain cert key bundle alias password bootstrap w cc Hdec Hnone work_dir out.
    destruct (main_generate_stores_runs x ca_chain cert key bundle alias password
                bootstrap (boot w)) as (body & Hh & Hrun).
    fold work_dir out in Hh, Hrun. rewrite Hh.
    change (history (boot w)) with (@nil event). cbn [app].
    assert (Hcc : forall cc' c k b,
               decode4 x ca_chain cert key bundle = Ok (cc', c, k, b) ->
               usable_root cc' = None).
    { intros cc' c k b Hd. unfold decode4 in Hd. rewrite Hdec in Hd.
      repeat case_match; simplify_eq. unfold usable_root. by rewrite Hnone. }
    destruct Hrun as [e He|cc' c' k' b' Hd' Hu'
                     |cc' c' k' b' root n path content e Hd' Hu' Hn
                     |cc' c' k' b' root tail r' Hd' Hu' Htail].
    + by rewrite He.
    + by rewrite Hd'.
    + rewrite (Hcc _ _ _ _ Hd') in Hu'. discriminate Hu'.
    + rewrite (Hcc _ _ _ _ Hd') in Hu'. discriminate Hu'.
Qed.

Lemma generate_stores_without_certificates_witness :
  let out := App.generate_stores (h := ok_host) "subject=CN=Root CA" "BUNDLE" "KEY"
               "kafka-client" "changeit" "changeit" (boot (tt : World ok_host)) in
  App.success (fst out) = false
  /\ App.errors (fst out) = ["Could not extract certificates from CA chain"]
  /\ runs (history (snd out)) = [].
Proof.
  destruct (generate_stores_without_certificates ok_host sample_lib) as [Happ _].
  destruct (Happ "subject=CN=Root CA" "BUNDLE" "KEY" "kafka-client" "changeit"
                 "changeit" tt eq_refl) as (Hs & _ & Hr & He & _).
  split_and!; [exact Hs| |exact Hr].
  apply He. intros path content e Hin. vm_compute in Hin.
  repeat (apply elem_of_cons in Hin as [Hin|Hin]; [discriminate Hin|]).
  by apply elem_of_nil in Hin.
Defined.

(** C2 as stated does not hold: it promises the error about the missing
    certificates on every such chain.  When the disk is full, the run
    of [generate_stores] of app.py ends at the first write, before the
    chain is looked at, and the only error reported is the one of the
    failed write. *)
Lemma generate_stores_without_certificates_counterexample :
  let out := App.generate_stores (h := write_fault_host) "subject=CN=Root CA" "BUNDLE"
               "KEY" "kafka-client" "changeit" "changeit"
               (boot (tt : World write_fault_host)) in
  extract_certs "subject=CN=Root CA" = []
  /\ parse_cert_chain "subject=CN=Root CA" = []
  /\ App.success (fst out) = false
  /\ App.errors (fst out) = ["[Errno 28] No space left on device"]
  /\ ("Could not extract certificates from CA chain" ∉ App.errors (fst out))
  /\ history (snd out)
     = [ EMkdtemp "/tmp/tmpk3v0a9xq";
         EWrite "/tmp/tmpk3v0a9xq/CA_chain" "subject=CN=Root CA"
                (Err (Exn OSError "[Errno 28] No space left on device"));
         ERmtree "/tmp/tmpk3v0a9xq" ].
Proof.
  intros out. split_and!; try (vm_compute; reflexivity).
  intros Hin. vm_compute in Hin.
  apply elem_of_cons in Hin as [Hin|Hin]; [discriminate Hin|].
  by apply elem_of_nil in Hin.
Qed.

(** C8 as amended: once both look-ups of the Kafka client have failed,
    the handshake fallback of each probe takes its target from the
    endpoint.  Without a colon the host is the endpoint and the port is
    443; with exactly one colon the host is the text before it and the
    port the text after it.  [test_kafka_connection] of main.py then
    starts one sub-process, [openssl s_client -connect host:port -brief];
    [test_kafka] of app.py then writes [SSLTest.java] with the program
    rendered for that host and that port. *)
Theorem handshake_fallback_target (h : Host) (x : Lib) (bootstrap : string) :
  (forall (truststore keystore password : string) (w : World h) (o : option string),
     let out := Main.test_kafka_connection truststore keystore password bootstrap
                                           (boot w) in
     EWhich "kafka-topics" o ∈ history (snd out) ->
     opt_truthy o = false ->
     (count_char ":" bootstrap = 0 ->
      exists res,
        runs (history (snd out))
        = [ ([ "openssl"; "s_client"; "-connect"; bootstrap +:+ ":" +:+ "443";
               "-brief" ], res) ])
     /\ (forall host port,
           bootstrap = host +:+ ":" +:+ port ->
           count_char ":" host = 0 -> count_char ":" port = 0 ->
           exists res,
             runs (history (snd out))
             = [ ([ "openssl"; "s_client"; "-connect"; host +:+ ":" +:+ port;
                    "-brief" ], res) ]))
  /\ (forall (req : Request) (w : World h) (o : option string),
        let work_dir := fst (os_mkdtemp h w) in
        let out := App.test_kafka x req (boot w) in
        let program := App.java_test_code (Py.path_join work_dir "truststore.jks")
                         (Py.path_join work_dir "keystore.jks")
                         (default "changeit" (form req !! "password")) in
        form req !! "bootstrap" = Some bootstrap ->
        EWhich "kafka-topics" o ∈ history (snd out) ->
        opt_truthy o = false ->
        (count_char ":" bootstrap = 0 ->
         exists res,
           (EWrite (Py.path_join work_dir "SSLTest.java") (program bootstrap "443") res)
           ∈ history (snd out))
        /\ (forall host port,
              bootstrap = host +:+ ":" +:+ port ->
              count_char ":" host = 0 -> count_char ":" port = 0 ->
              exists res,
                (EWrite (Py.path_join work_dir "SSLTest.java") (program host port) res)
                ∈ history (snd out))).
Proof.
  split.
  - intros truststore keystore password w o out Hin Ho.
    destruct (test_kafka_connection_runs truststore keystore password bootstrap (boot w))
      as (body & r & Hr & Hh & Hrun).
    fold out in Hr, Hh, Hrun. rewrite Hh in Hin |- *.
    change (history (boot w)) with (@nil event) in *. cbn [app] in *.
    apply elem_of_run_body in Hin; [|discriminate..].
    destruct (tkc_run_fallback _ _ _ _ _ _ _ _ Hrun Hin Ho) as (tail & Hssl & Hruns).
    apply tkc_ssl_split in Hssl.
    assert (Hall : forall d, runs (EMkdtemp d :: body ++ [ERmtree d]) = runs tail).
    { intros d. change (EMkdtemp d :: body ++ [ERmtree d])
        with ([EMkdtemp d] ++ body ++ [ERmtree d]).
      rewrite !runs_app, Hruns. cbn. by rewrite app_nil_r. }
    rewrite Hall. split.
    + intros Hc. by rewrite (host_port_default bootstrap Hc) in Hssl.
    + intros host port -> Hhost Hport.
      by rewrite (host_port_given host port Hhost Hport) in Hssl.
  - intros req w o work_dir out program Hform Hin Ho.
    destruct (test_kafka_runs x req (boot w)) as (body & r & Hr & Hh & Hrun).
    fold work_dir out in Hr, Hh, Hrun. rewrite Hh in Hin |- *.
    change (history (boot w)) with (@nil event) in *. cbn [app] in *.
    apply elem_of_run_body in Hin; [|discriminate..].
    destruct (tk_run_fallback _ _ _ _ _ _ _ Hrun Hform Hin Ho)
      as (evs & a & _ & _ & Hsplit).
    assert (Hgo : forall host port,
               bootstrap_host_port bootstrap = Ok (host, port) ->
               exists res,
                 (EWrite (Py.path_join work_dir "SSLTest.java") (program host port) res)
                 ∈ EMkdtemp work_dir :: body ++ [ERmtree work_dir]).
    { intros host port E. rewrite E in Hsplit.
      destruct Hsplit as (res & after & ->). exists res.
      apply list_elem_of_further, elem_of_app. left.
      apply elem_of_app. right. apply elem_of_app. left.
      do 3 apply list_elem_of_further. apply list_elem_of_here. }
    split.
    + intros Hc. apply Hgo. by apply host_port_default.
    + intros host port -> Hhost Hport. apply Hgo. by apply host_port_given.
Qed.

Lemma handshake_fallback_target_witness :
  exists res,
    runs (history (snd (Main.test_kafka_connection (h := ok_host) "TRUST" "KEYS"
                          "changeit" "broker.example.org"
                          (boot (tt : World ok_host)))))
    = [ ([ "openssl"; "s_client"; "-connect"; "broker.example.org:443"; "-brief" ],
         res) ].
Proof.
  destruct (handshake_fallback_target ok_host sample_lib "broker.example.org")
    as [Hmain _].
  destruct (Hmain "TRUST" "KEYS" "changeit" tt None) as [Hdefault _].
  - vm_compute. do 5 apply list_elem_of_further. apply list_elem_of_here.
  - reflexivity.
  - apply Hdefault. reflexivity.
Defined.

(** C8 as stated does not hold: its second half speaks of every endpoint
    in which a colon is present.  The endpoint [broker:9093:1] holds
    one, yet on a host without the Kafka client neither probe uses any
    text as a port: the unpacking of the split raises,
    [test_kafka_connection] of main.py answers "Test failed" and starts
    no sub-process, and [test_kafka] of app.py answers with status 500
    after its second look-up, the last call before the work directory is
    removed. *)
Lemma handshake_fallback_target_counterexample :
  let main := Main.test_kafka_connection (h := ok_host) "TRUST" "KEYS" "changeit"
                "broker:9093:1" (boot (tt : World ok_host)) in
  let app := App.test_kafka (h := ok_host) sample_lib (stores_request "broker:9093:1")
               (boot (tt : World ok_host)) in
  Py.contains ":" "broker:9093:1" = true
  /\ bootstrap_host_port "broker:9093:1"
     = Err (Exn ValueError "too many values to unpack (expected 2)")
  /\ fst main = Ok {| Main.t_success := false;
                      Main.message := "Test failed";
                      Main.details := Some "too many values to unpack (expected 2)";
                      Main.topics := None |}
  /\ runs (history (snd main)) = []
  /\ EWhich "kafka-topics" None ∈ history (snd main)
  /\ fst app = Ok ([ ("success", JBool false);
                     ("error", JStr "too many values to unpack (expected 2)") ], 500)
  /\ runs (history (snd app)) = []
  /\ last (history (snd app)) = Some (ERmtree "/tmp/tmpk3v0a9xq")
  /\ exists before,
       history (snd app)
       = before ++ [EWhich "kafka-topics" None; ERmtree "/tmp/tmpk3v0a9xq"].
Proof.
  intros main app. split_and!; try (vm_compute; reflexivity).
  - vm_compute. do 5 apply list_elem_of_further. apply list_elem_of_here.
  - eexists [_; _; _; _; _]. vm_compute. reflexivity.
Qed.

(** C9: when the handshake program compiled by [test_kafka] of app.py
    exits with a non-zero status, the answer is a failure with three
    fields, of which the last is [details]; it holds the first 800
    characters of the error output of the program (of its output when
    the error output is empty), so it is a prefix of that text, as long
    as the text when that has at most 800 characters, and 800 characters
    long otherwise. *)
Theorem test_kafka_failure_details_bounded (h : Host) (x : Lib) (req : Request)
  (w : World h) (kw : run_kwargs) (q : CompletedProcess) :
  let work_dir := fst (os_mkdtemp h w) in
  let out := App.test_kafka x req (boot w) in
  let error_msg := Py.str_or (stderr q) (stdout q) in
  ERun ["java"; "-cp"; work_dir; "SSLTest"] kw (Ok q) ∈ history (snd out) ->
  returncode q <> 0%Z ->
  exists error details,
    fst out = Ok ([ ("success", JBool false); ("error", JStr error);
                    ("details", JStr details) ], 200)
    /\ details = Py.slice_to 800 error_msg
    /\ String.length details <= 800
    /\ String.length details = Nat.min 800 (String.length error_msg)
    /\ exists rest, error_msg = details +:+ rest.
Proof.
  intros work_dir out error_msg Hin Hq.
  destruct (test_kafka_runs x req (boot w)) as (body & r & Hr & Hh & Hrun).
  fold work_dir out in Hr, Hh, Hrun. rewrite Hh in Hin. rewrite Hr.
  change (history (boot w)) with (@nil event) in Hin. cbn [app] in Hin.
  apply elem_of_run_body in Hin; [|discriminate..].
  destruct (tk_run_handshake _ _ _ _ _ _ _ _ Hrun Hin)
    as (bootstrap & host & port & pre & o & tail & _ & _ & _ & _ & _ & Hjava & Htail).
  { right. by eexists. }
  destruct (tk_java_answer _ _ _ _ _ _ _ Hjava Htail) as [_ ->].
  apply Z.eqb_neq in Hq. rewrite Hq.
  eexists _, _. split; [reflexivity|]. split_and!.
  - reflexivity.
  - apply length_slice_to.
  - apply length_slice_to_min.
  - apply slice_to_prefix.
Qed.

Lemma test_kafka_failure_details_bounded_witness :
  exists error,
    fst (App.test_kafka (h := java_fault_host) sample_lib (stores_request "broker:9093")
           (boot (tt : World java_fault_host)))
    = Ok ([ ("success", JBool false); ("error", JStr error);
            ("details", JStr (filler 800)) ], 200)
    /\ String.length (filler 800) = 800.
Proof.
  destruct (test_kafka_failure_details_bounded java_fault_host sample_lib
              (stores_request "broker:9093") tt
              {| cwd := None; timeout := Some 30; input := None |}
              (exited 1 EmptyString (filler 1000)))
    as (error & details & Hr & Hd & _).
  - vm_compute. do 8 apply list_elem_of_further. apply list_elem_of_here.
  - simpl. discriminate.
  - exists error. split; [|vm_compute; reflexivity].
    rewrite Hr, Hd. vm_compute. reflexivity.
Defined.



